(** * Latentsense MCP adapter: a shallow embedding of [latentsense_server.py]

    The Python module has two layers: the class [LatentsenseClient], one
    method per vendor endpoint, and eight module-level tool functions that
    validate a few arguments, call the client inside [try ... except
    Exception] and hand a string back to the host.

    The embedding keeps that shape.  Everything the code observes of the
    outside is gathered in a record [World]: the local filesystem, what the
    HTTP client does with each request and with its own construction, and
    the interpreter's [float.__repr__].  Each library call the code makes
    ([Path.exists], [open], [client.request], [response.json],
    [httpx.AsyncClient]) may raise an exception of the world's choosing.
    A computation is a value of [Py A]: the chronological trace of the
    observable events it performed (existence tests, file reads, HTTP
    requests) together with either a returned value or a raised exception. *)

From Stdlib Require Import ZArith List String Ascii Bool Lia.
From Stdlib Require Import DecimalString SpecFloat.
Import ListNotations.
Open Scope string_scope.
Set Warnings "-register-all".

(** ** Python values *)

(** Characters the development needs and cannot write inside a literal. *)
Definition dquote : string := String (ascii_of_nat 34) EmptyString.
Definition newline : string := String (ascii_of_nat 10) EmptyString.
Definition backslash : string := String (ascii_of_nat 92) EmptyString.

(** [str(n)] for a Python [int]. *)
Definition int_str (n : Z) : string := NilZero.string_of_int (Z.to_int n).

(** [repr(s)] for a [str] without quotes, backslashes or control characters,
    which is all the two validation messages contain. *)
Definition str_repr (s : string) : string := "'" ++ s ++ "'".

(** [repr(l)] for a list of such strings, as an f-string renders it. *)
Definition list_repr (l : list string) : string :=
  "[" ++ String.concat ", " (map str_repr l) ++ "]".

(** Truthiness of [str], [int], [Optional[str]], [dict] and [list] values. *)
Definition str_truthy (s : string) : bool :=
  match s with EmptyString => false | String _ _ => true end.

Definition int_truthy (n : Z) : bool := negb (n =? 0)%Z.

Definition opt_str_truthy (o : option string) : bool :=
  match o with None => false | Some s => str_truthy s end.

Definition list_truthy {A} (l : list A) : bool :=
  match l with [] => false | _ :: _ => true end.

Definition opt_list_truthy {A} (o : option (list A)) : bool :=
  match o with None => false | Some l => list_truthy l end.

(** [x in l] for a list of strings. *)
Definition str_in (x : string) (l : list string) : bool :=
  existsb (String.eqb x) l.

(** A keyword argument with a default: [None] stands for an argument the
    call site leaves out. *)
Definition default {A} (d : A) (o : option A) : A :=
  match o with Some a => a | None => d end.

(** Python's [float] is an IEEE 754 binary64 number; the comparisons are
    those of [SpecFloat]. *)
Definition float := spec_float.
Definition float_zero : float := S754_zero false.
Definition float_one : float := S754_finite false 4503599627370496 (-52).

(** ** JSON values and [json.dumps(_, indent=2)] *)

Inductive json : Type :=
| JNull
| JBool (b : bool)
| JInt (n : Z)
| JFloat (f : float)
| JStr (s : string)
| JList (items : list json)
| JDict (members : list (string * json)).

Module Json.

Definition hex_digit (n : nat) : string :=
  String.substring n 1 "0123456789abcdef".

(** The replacement [json.encoder] makes for one character when
    [ensure_ascii] is on: the seven short escapes, the character itself
    between space and tilde, and a [\u00XX] escape for the rest.  A
    character is a code point below 256 here. *)
Definition escape_char (c : ascii) : string :=
  let n := nat_of_ascii c in
  if Nat.eqb n 34 then backslash ++ dquote
  else if Nat.eqb n 92 then backslash ++ backslash
  else if Nat.eqb n 10 then backslash ++ "n"
  else if Nat.eqb n 13 then backslash ++ "r"
  else if Nat.eqb n 9 then backslash ++ "t"
  else if Nat.eqb n 12 then backslash ++ "f"
  else if Nat.eqb n 8 then backslash ++ "b"
  else if (Nat.leb 32 n && Nat.leb n 126)%bool then String c EmptyString
  else backslash ++ "u00" ++ hex_digit (n / 16) ++ hex_digit (n mod 16).

Fixpoint escape (s : string) : string :=
  match s with
  | EmptyString => EmptyString
  | String c rest => escape_char c ++ escape rest
  end.

Definition encode_str (s : string) : string := dquote ++ escape s ++ dquote.

Fixpoint spaces (n : nat) : string :=
  match n with O => EmptyString | S k => String " " (spaces k) end.

(** [newline_indent] of the encoder at nesting depth [level], indent 2. *)
Definition newline_indent (level : nat) : string :=
  newline ++ spaces (2 * level).

Section Dumps.
Variable float_repr : float -> string.

Definition floatstr (f : float) : string :=
  match f with
  | S754_nan => "NaN"
  | S754_infinity false => "Infinity"
  | S754_infinity true => "-Infinity"
  | _ => float_repr f
  end.

Fixpoint iterencode (level : nat) (j : json) : string :=
  match j with
  | JNull => "null"
  | JBool true => "true"
  | JBool false => "false"
  | JInt n => int_str n
  | JFloat f => floatstr f
  | JStr s => encode_str s
  | JList [] => "[]"
  | JList items =>
      "[" ++ newline_indent (S level)
      ++ String.concat ("," ++ newline_indent (S level))
           (map (iterencode (S level)) items)
      ++ newline_indent level ++ "]"
  | JDict [] => "{}"
  | JDict members =>
      "{" ++ newline_indent (S level)
      ++ String.concat ("," ++ newline_indent (S level))
           (map (fun kv => encode_str (fst kv) ++ ": "
                           ++ iterencode (S level) (snd kv)) members)
      ++ newline_indent level ++ "}"
  end.

(** [json.dumps(result, indent=2)]. *)
Definition dumps (j : json) : string := iterencode 0 j.
End Dumps.

End Json.

(** ** Exceptions, events and the computation type *)

(** The exception classes that reach this module.  Every one of them derives
    from [Exception]; [HTTPError] stands for [httpx.HTTPError] and its
    subclasses (transport errors and [HTTPStatusError]); [JSONDecodeError]
    is what [response.json()] raises on a body that is not JSON; [OSError]
    stands for the operating system's errors other than the two named ones
    (name too long, permission denied, ...); [OtherException] is any other
    subclass of [Exception], by its name ([InvalidURL], [UnicodeEncodeError],
    ...).  Exceptions outside [Exception] (cancellation, interrupts) are not
    modelled. *)
Inductive exc_class : Type :=
| Exception
| FileNotFoundError
| IsADirectoryError
| HTTPError
| JSONDecodeError
| OSError
| OtherException (name : string).

(** An exception object: its class and [str(e)]. *)
Record exn : Type := mk_exn { exc_cls : exc_class; exc_str : string }.

Definition exc_class_eqb (a b : exc_class) : bool :=
  match a, b with
  | Exception, Exception
  | FileNotFoundError, FileNotFoundError
  | IsADirectoryError, IsADirectoryError
  | HTTPError, HTTPError
  | JSONDecodeError, JSONDecodeError
  | OSError, OSError => true
  | OtherException n, OtherException n' => String.eqb n n'
  | _, _ => false
  end.

(** [isinstance(e, httpx.HTTPError)] and [isinstance(e, Exception)]. *)
Definition is_HTTPError (e : exn) : bool := exc_class_eqb (exc_cls e) HTTPError.

Definition is_Exception (e : exn) : bool :=
  match exc_cls e with
  | Exception | FileNotFoundError | IsADirectoryError
  | HTTPError | JSONDecodeError | OSError | OtherException _ => true
  end.

(** A value in a query-parameter dictionary. *)
Inductive param_value : Type :=
| PStr (s : string)
| PInt (n : Z)
| PBool (b : bool).

(** One entry of the [files=] list: [(field, (filename, content))]. *)
Definition file_part : Type := (string * (string * string))%type.

(** The keyword arguments [_make_request] forwards to [httpx]: each is
    absent ([None]) or present.  Dictionaries keep their insertion order, as
    Python's do. *)
Record Kwargs : Type := mk_kwargs {
  kw_params : option (list (string * param_value));
  kw_json : option (list (string * json));
  kw_files : option (list file_part);
  kw_data : option (list (string * string))
}.

(** One call of [httpx.AsyncClient.request(method, url, **kwargs)]. *)
Record Request : Type := mk_request {
  req_method : string;
  req_url : string;
  req_kwargs : Kwargs
}.

Definition req_params (r : Request) := kw_params (req_kwargs r).
Definition req_json (r : Request) := kw_json (req_kwargs r).
Definition req_files (r : Request) := kw_files (req_kwargs r).
Definition req_data (r : Request) := kw_data (req_kwargs r).

(** An HTTP response as the code reads it: the status code, the message of
    the [HTTPStatusError] that [raise_for_status] would raise, and what
    [response.json()] does with the body: the parsed value ([inl]) or the
    exception it raises ([inr]: [JSONDecodeError] on a body that is not
    JSON, [UnicodeDecodeError] on one that is not text). *)
Record Response : Type := mk_response {
  status_code : Z;
  status_error : string;
  body : json + exn
}.

(** What one call of [client.request] does: the transport fails (connection
    refused, timeout, ...) with an [httpx.HTTPError] of that message;
    [request] raises another exception before anything is sent
    ([httpx.InvalidURL] for a control character in the URL, ...); or a
    response comes back. *)
Inductive Reply : Type :=
| TransportError (msg : string)
| RequestRaises (e : exn)
| Respond (r : Response).

(** What a path is to the two calls the code makes on it,
    [Path(p).exists()] and [open(p, "rb")]: a regular file that can be read;
    a directory, which exists and cannot be opened; a path whose existence
    test itself raises (a name too long, a parent directory that cannot be
    searched); a path that exists and whose [open] raises (permission
    denied; the empty path, which [Path] takes for the current directory and
    [open] rejects).  A path with no node does not exist: the test answers
    [False]. *)
Inductive fs_node : Type :=
| Regular (content : string)
| Directory
| Untestable (e : exn)
| Unreadable (e : exn).

(** The outside world of one call.  [node] is what [Path(p).exists()] and
    [open(p)] see of a path; the filesystem does not change during a call.
    [send] is what a call of [client.request] does, [float_repr] the
    interpreter's [float.__repr__] on finite floats, and [new_client] what
    [httpx.AsyncClient(headers=..., timeout=30.0)] does with the given
    headers: [None] when the client is built, the exception it raises
    otherwise (a header value that is not ASCII). *)
Record World : Type := mk_world {
  float_repr : float -> string;
  node : string -> option fs_node;
  send : Request -> Reply;
  new_client : list (string * string) -> option exn
}.

Inductive Event : Type :=
| PathExists (path : string)
| OpenRead (path : string)
| HttpRequest (r : Request).

Inductive result (A : Type) : Type :=
| Ret (a : A)
| Raise (e : exn).
Arguments Ret {A} a.
Arguments Raise {A} e.

(** A finished computation: what it did, in order, and how it ended. *)
Definition Py (A : Type) : Type := (list Event * result A)%type.

Definition trace {A} (m : Py A) : list Event := fst m.
Definition outcome {A} (m : Py A) : result A := snd m.

Definition ret {A} (a : A) : Py A := ([], Ret a).
Definition raise {A} (c : exc_class) (msg : string) : Py A :=
  ([], Raise (mk_exn c msg)).

Definition bind {A B} (m : Py A) (k : A -> Py B) : Py B :=
  match m with
  | (t, Ret a) => let (t', r) := k a in ((t ++ t')%list, r)
  | (t, Raise e) => (t, Raise e)
  end.

Notation "x <- m ;; k" := (bind m (fun x => k))
  (at level 61, m at next level, right associativity).
Notation "m ;;; k" := (bind m (fun _ => k))
  (at level 61, right associativity).

(** [try: body  except C as e: handler(e)], [C] given by its [isinstance]
    test. *)
Definition try_except {A} (body : Py A) (catches : exn -> bool)
    (handler : exn -> Py A) : Py A :=
  match body with
  | (t, Raise e) =>
      if catches e then let (t', r) := handler e in ((t ++ t')%list, r)
      else (t, Raise e)
  | done => done
  end.

(** [for x in xs: s = body(x, s)], the loop state threaded through. *)
Fixpoint for_each {A S} (xs : list A) (body : A -> S -> Py S) (s : S) : Py S :=
  match xs with
  | [] => ret s
  | x :: rest => s' <- body x s ;; for_each rest body s'
  end.

(** The HTTP requests of a trace, in order. *)
Fixpoint http_requests (t : list Event) : list Request :=
  match t with
  | [] => []
  | HttpRequest r :: rest => r :: http_requests rest
  | _ :: rest => http_requests rest
  end.

(** ** The filesystem and [httpx] primitives *)

(** [Path(p).name]: the last component of [p], empty and [.] components
    dropped. *)
Fixpoint split_slash (cur : string) (s : string) : list string :=
  match s with
  | EmptyString => [cur]
  | String c rest =>
      if Ascii.eqb c "/" then cur :: split_slash EmptyString rest
      else split_slash (cur ++ String c EmptyString) rest
  end.

Definition path_name (p : string) : string :=
  last (filter (fun c => negb (String.eqb c EmptyString || String.eqb c "."))
          (split_slash EmptyString p))
       EmptyString.

(** [Path(p).exists()]. *)
Definition path_exists (w : World) (p : string) : Py bool :=
  ([PathExists p],
   match node w p with
   | Some (Untestable e) => Raise e
   | Some _ => Ret true
   | None => Ret false
   end).

(** [async with aiofiles.open(p, "rb") as f: content = await f.read()]. *)
Definition read_file (w : World) (p : string) : Py string :=
  ([OpenRead p],
   match node w p with
   | Some (Regular content) => Ret content
   | Some Directory =>
       Raise (mk_exn IsADirectoryError ("[Errno 21] Is a directory: " ++ str_repr p))
   | Some (Untestable e) | Some (Unreadable e) => Raise e
   | None =>
       Raise (mk_exn FileNotFoundError
                ("[Errno 2] No such file or directory: " ++ str_repr p))
   end).

(** [await self.client.request(method, url, **kwargs)]. *)
Definition client_request (w : World) (r : Request) : Py Response :=
  ([HttpRequest r],
   match send w r with
   | TransportError msg => Raise (mk_exn HTTPError msg)
   | RequestRaises e => Raise e
   | Respond resp => Ret resp
   end).

Definition is_success (resp : Response) : bool :=
  ((200 <=? status_code resp) && (status_code resp <=? 299))%Z.

(** [response.raise_for_status()]. *)
Definition raise_for_status (resp : Response) : Py unit :=
  if is_success resp then ret tt else raise HTTPError (status_error resp).

(** [response.json()]. *)
Definition response_json (resp : Response) : Py json :=
  match body resp with
  | inl j => ret j
  | inr e => ([], Raise e)
  end.

(** [d[k] = v] on an insertion-ordered dictionary. *)
Fixpoint dict_set {V} (k : string) (v : V) (d : list (string * V))
  : list (string * V) :=
  match d with
  | [] => [(k, v)]
  | (k', v') :: rest =>
      if String.eqb k k' then (k, v) :: rest else (k', v') :: dict_set k v rest
  end.

Fixpoint dict_get {V} (k : string) (d : list (string * V)) : option V :=
  match d with
  | [] => None
  | (k', v) :: rest => if String.eqb k k' then Some v else dict_get k rest
  end.

Definition dict_has {V} (k : string) (d : list (string * V)) : bool :=
  match dict_get k d with Some _ => true | None => false end.

(** ** The API client *)

Record LatentsenseConfig : Type := mk_config {
  api_key : string;
  project_id : string;
  base_url : string
}.

Module LatentsenseClient.
Section Methods.
Variable w : World.
Variable config : LatentsenseConfig.

(** [LatentsenseClient(config)]: the constructor keeps the configuration and
    builds the HTTP client with the API key as its default header; it
    raises what [httpx.AsyncClient] raises. *)
Definition __init__ : result LatentsenseConfig :=
  match new_client w [("x-api-key", api_key config)] with
  | Some e => Raise e
  | None => Ret config
  end.

(** [_make_request(endpoint, method, **kwargs)]. *)
Definition _make_request (endpoint method : string) (kwargs : Kwargs)
  : Py json :=
  let url := base_url config ++ endpoint in
  try_except
    (response <- client_request w (mk_request method url kwargs) ;;
     raise_for_status response ;;;
     response_json response)
    is_HTTPError
    (fun e => raise Exception ("API request failed: " ++ exc_str e)).

(** The four shapes of keyword arguments the methods pass. *)
Definition no_kwargs : Kwargs := mk_kwargs None None None None.

Definition params_kwargs (params : list (string * param_value)) : Kwargs :=
  mk_kwargs (Some params) None None None.

Definition params_json_kwargs (params : list (string * param_value))
    (graph : list (string * json)) : Kwargs :=
  mk_kwargs (Some params) (Some graph) None None.

Definition files_data_kwargs (files_data : list file_part)
    (data : list (string * string)) : Kwargs :=
  mk_kwargs None None (Some files_data) (Some data).

(** The query dictionary [get_project_runs] builds.  Each argument is
    [None] when the call site leaves it out, and then takes the default of
    the signature. *)
Definition project_runs_params
    (filter_cog_name filter_user_id filter_api_key_id : option string)
    (page rows_per_page : option Z) (sort_by : option string)
    (descending : option bool) : list (string * param_value) :=
  let page := default 1%Z page in
  let rows_per_page := default 50%Z rows_per_page in
  let sort_by := default "time" sort_by in
  let descending := default true descending in
  let params := [] in
  let params :=
    if opt_str_truthy filter_cog_name
    then dict_set "filterCogName" (PStr (default EmptyString filter_cog_name)) params
    else params in
  let params :=
    if opt_str_truthy filter_user_id
    then dict_set "filterUserId" (PStr (default EmptyString filter_user_id)) params
    else params in
  let params :=
    if opt_str_truthy filter_api_key_id
    then dict_set "filterApiKeyId" (PStr (default EmptyString filter_api_key_id)) params
    else params in
  let params :=
    if int_truthy page then dict_set "page" (PInt page) params else params in
  let params :=
    if int_truthy rows_per_page
    then dict_set "rowsPerPage" (PInt rows_per_page) params else params in
  let params :=
    if str_truthy sort_by then dict_set "sortBy" (PStr sort_by) params
    else params in
  (* [descending is not None]: a [bool] never is *)
  dict_set "descending" (PBool descending) params.

Definition get_project_runs
    (filter_cog_name filter_user_id filter_api_key_id : option string)
    (page rows_per_page : option Z) (sort_by : option string)
    (descending : option bool) : Py json :=
  let params := project_runs_params filter_cog_name filter_user_id
                  filter_api_key_id page rows_per_page sort_by descending in
  let endpoint := "/api/runs/project/" ++ project_id config in
  _make_request endpoint "GET" (params_kwargs params).

Definition get_run_results (run_id : string) : Py json :=
  let endpoint := "/api/runs/" ++ run_id ++ "/results" in
  _make_request endpoint "GET" no_kwargs.

(** The body of the two validation loops: raise on a missing path. *)
Definition require_exists (file_path : string) : Py unit :=
  present <- path_exists w file_path ;;
  if negb present
  then raise FileNotFoundError ("File not found: " ++ file_path)
  else ret tt.

(** The body of the read loops: append one part under [field_name]. *)
Definition append_part (field_name file_path : string)
    (files_data : list file_part) : Py (list file_part) :=
  content <- read_file w file_path ;;
  ret (files_data ++ [(field_name, (path_name file_path, content))])%list.

Definition _upload_files (endpoint : string) (files : list string)
    (additional_files : option (list (string * string)))
    (form_data : option (list (string * string))) : Py json :=
  (* Validate files exist *)
  for_each files (fun file_path _ => require_exists file_path) tt ;;;
  (if opt_list_truthy additional_files
   then for_each (map snd (default [] additional_files))
          (fun file_path _ =>
             if str_truthy file_path then require_exists file_path
             else ret tt) tt
   else ret tt) ;;;
  (* Prepare multipart form data *)
  let files_data := [] in
  (* Add main files *)
  files_data <- for_each files (append_part "files") files_data ;;
  (* Add additional files *)
  files_data <-
    (if opt_list_truthy additional_files
     then for_each (default [] additional_files)
            (fun item files_data =>
               if str_truthy (snd item)
               then append_part (fst item) (snd item) files_data
               else ret files_data) files_data
     else ret files_data) ;;
  (* Add form data *)
  let data := if opt_list_truthy form_data then default [] form_data else [] in
  _make_request endpoint "POST" (files_data_kwargs files_data data).

Definition redact_pii (files : list string) : Py json :=
  let endpoint := "/" ++ project_id config ++ "/redact-pii" in
  _upload_files endpoint files None None.

Definition redact_relevance (files : list string)
    (relevance_term_file : string) (cutoff : float) : Py json :=
  let endpoint := "/" ++ project_id config ++ "/redact-relevance" in
  let additional_files := [("relevance_term", relevance_term_file)] in
  let form_data := [("cutoff", float_repr w cutoff)] in
  _upload_files endpoint files (Some additional_files) (Some form_data).

Definition extract_relationships (files : list string)
    (claim_concepts_file : string) : Py json :=
  let endpoint := "/" ++ project_id config ++ "/relationships-from-premises" in
  let additional_files := [("claim_concepts", claim_concepts_file)] in
  _upload_files endpoint files (Some additional_files) None.

(** The body of the two loops of [create_knowledge_graph]: test, then
    read, one file at a time. *)
Definition check_and_append (field_name file_path : string)
    (files_data : list file_part) : Py (list file_part) :=
  require_exists file_path ;;;
  append_part field_name file_path files_data.

Definition create_knowledge_graph (files : list string)
    (files2 : option (list string)) (concepts_file : option string)
    (files1_name files2_name : option string) : Py json :=
  let endpoint := "/" ++ project_id config ++ "/reasoner-x" in
  (* Prepare files data *)
  let files_data := [] in
  (* Add main files *)
  files_data <- for_each files (check_and_append "files") files_data ;;
  (* Add second set of files if provided *)
  files_data <-
    (if opt_list_truthy files2
     then for_each (default [] files2) (check_and_append "files2") files_data
     else ret files_data) ;;
  (* Add concepts file if provided *)
  files_data <-
    (if opt_str_truthy concepts_file
     then
       let concepts_file := default EmptyString concepts_file in
       present <- path_exists w concepts_file ;;
       if present then append_part "concepts" concepts_file files_data
       else ret files_data
     else ret files_data) ;;
  (* Prepare form data *)
  let data := [] in
  let data :=
    if opt_str_truthy files1_name
    then dict_set "files1_name" (default EmptyString files1_name) data
    else data in
  let data :=
    if opt_str_truthy files2_name
    then dict_set "files2_name" (default EmptyString files2_name) data
    else data in
  _make_request endpoint "POST" (files_data_kwargs files_data data).

Definition get_rex_message (run_id : string) : Py json :=
  let endpoint := "/api/chat/" ++ project_id config ++ "/message_rex" in
  let params := [("run_id", PStr run_id)] in
  _make_request endpoint "GET" (params_kwargs params).

Definition send_rex_message (message run_id : string)
    (graph : option (list (string * json))) : Py json :=
  let endpoint := "/api/chat/" ++ project_id config ++ "/message_rex" in
  let params := [("message", PStr message); ("run_id", PStr run_id)] in
  if opt_list_truthy graph
  then _make_request endpoint "POST"
         (params_json_kwargs params (default [] graph))
  else _make_request endpoint "POST" (params_kwargs params).

End Methods.
End LatentsenseClient.

(** ** The tool adapter *)

Definition valid_cog_names : list string :=
  ["deidentification"; "relationships"; "ai_authorship_detection";
   "knowledge_graph"].

Definition valid_sort_by : list string := ["time"; "cost"].

Section Tools.
Variable w : World.
Variable client : LatentsenseConfig.

(** The block every tool ends with:
    [try: result = await call; return json.dumps(result, indent=2)]
    [except Exception as e: return f"Error: {str(e)}"]. *)
Definition dumps_or_error (call : Py json) : Py string :=
  try_except
    (result <- call ;; ret (Json.dumps (float_repr w) result))
    is_Exception
    (fun e => ret ("Error: " ++ exc_str e)).

Definition get_project_runs
    (filter_cog_name filter_user_id filter_api_key_id : option string)
    (page rows_per_page : option Z) (sort_by : option string)
    (descending : option bool) : Py string :=
  let page := default 1%Z page in
  let rows_per_page := default 50%Z rows_per_page in
  let sort_by := default "time" sort_by in
  let descending := default true descending in
  (* Validate filter_cog_name if provided *)
  if opt_str_truthy filter_cog_name
     && negb (str_in (default EmptyString filter_cog_name) valid_cog_names)
  then ret ("Error: filter_cog_name must be one of "
            ++ list_repr valid_cog_names)
  (* Validate sort_by *)
  else if negb (str_in sort_by valid_sort_by)
  then ret ("Error: sort_by must be one of " ++ list_repr valid_sort_by)
  else
    dumps_or_error
      (LatentsenseClient.get_project_runs w client filter_cog_name
         filter_user_id filter_api_key_id (Some page) (Some rows_per_page)
         (Some sort_by) (Some descending)).

Definition get_run_results (run_id : string) : Py string :=
  dumps_or_error (LatentsenseClient.get_run_results w client run_id).

Definition redact_pii (files : list string) : Py string :=
  dumps_or_error (LatentsenseClient.redact_pii w client files).

Definition redact_relevance (files : list string)
    (relevance_term_file : string) (cutoff : float) : Py string :=
  (* Validate cutoff *)
  if negb (SFleb float_zero cutoff && SFleb cutoff float_one)
  then ret "Error: cutoff must be a number between 0 and 1"
  else
    dumps_or_error
      (LatentsenseClient.redact_relevance w client files
         relevance_term_file cutoff).

Definition extract_relationships (files : list string)
    (claim_concepts_file : string) : Py string :=
  dumps_or_error
    (LatentsenseClient.extract_relationships w client files
       claim_concepts_file).

Definition create_knowledge_graph (files : list string)
    (files2 : option (list string)) (concepts_file : option string)
    (files1_name files2_name : option string) : Py string :=
  let files1_name := default "set_1" files1_name in
  let files2_name := default "set_2" files2_name in
  dumps_or_error
    (LatentsenseClient.create_knowledge_graph w client files files2
       concepts_file (Some files1_name) (Some files2_name)).

Definition get_rex_message (run_id : string) : Py string :=
  dumps_or_error (LatentsenseClient.get_rex_message w client run_id).

Definition send_rex_message (message run_id : string)
    (graph : option (list (string * json))) : Py string :=
  dumps_or_error
    (LatentsenseClient.send_rex_message w client message run_id graph).

End Tools.

(** ** Calls

    The eight operations exist twice, as client methods and as tools, with
    the same parameters; a [Call] is one call site: the operation and its
    arguments, [None] for an argument left out.  [perform] dispatches to the
    client method, [invoke] to the tool. *)
Inductive Call : Type :=
| GetProjectRuns
    (filter_cog_name filter_user_id filter_api_key_id : option string)
    (page rows_per_page : option Z) (sort_by : option string)
    (descending : option bool)
| GetRunResults (run_id : string)
| RedactPii (files : list string)
| RedactRelevance (files : list string) (relevance_term_file : string)
    (cutoff : float)
| ExtractRelationships (files : list string) (claim_concepts_file : string)
| CreateKnowledgeGraph (files : list string)
    (files2 : option (list string)) (concepts_file : option string)
    (files1_name files2_name : option string)
| GetRexMessage (run_id : string)
| SendRexMessage (message run_id : string)
    (graph : option (list (string * json))).

Definition perform (w : World) (config : LatentsenseConfig) (c : Call)
  : Py json :=
  match c with
  | GetProjectRuns cog user key page rows sort_by desc =>
      LatentsenseClient.get_project_runs w config cog user key page rows
        sort_by desc
  | GetRunResults run_id => LatentsenseClient.get_run_results w config run_id
  | RedactPii files => LatentsenseClient.redact_pii w config files
  | RedactRelevance files term cutoff =>
      LatentsenseClient.redact_relevance w config files term cutoff
  | ExtractRelationships files concepts =>
      LatentsenseClient.extract_relationships w config files concepts
  | CreateKnowledgeGraph files files2 concepts n1 n2 =>
      LatentsenseClient.create_knowledge_graph w config files files2 concepts
        n1 n2
  | GetRexMessage run_id => LatentsenseClient.get_rex_message w config run_id
  | SendRexMessage message run_id graph =>
      LatentsenseClient.send_rex_message w config message run_id graph
  end.

Definition invoke (w : World) (client : LatentsenseConfig) (c : Call)
  : Py string :=
  match c with
  | GetProjectRuns cog user key page rows sort_by desc =>
      get_project_runs w client cog user key page rows sort_by desc
  | GetRunResults run_id => get_run_results w client run_id
  | RedactPii files => redact_pii w client files
  | RedactRelevance files term cutoff =>
      redact_relevance w client files term cutoff
  | ExtractRelationships files concepts =>
      extract_relationships w client files concepts
  | CreateKnowledgeGraph files files2 concepts n1 n2 =>
      create_knowledge_graph w client files files2 concepts n1 n2
  | GetRexMessage run_id => get_rex_message w client run_id
  | SendRexMessage message run_id graph =>
      send_rex_message w client message run_id graph
  end.

(** ** The application lifespan

    [app_lifespan] reads the configuration from the environment, builds the
    client, hands it to the server for as long as it runs, and closes it in a
    [finally] block.  [getenv] is [os.getenv]; [serve] is what the host does
    between entering and leaving the context, with the client it is given;
    the lifespan's own trace wraps the events of [serve] between the creation
    of the client and its [close()]. *)
Inductive LifeEvent : Type :=
| ClientCreated (config : LatentsenseConfig)
| Serving (e : Event)
| ClientClosed.

(** How the context ends: a [ValueError] raised before the client exists,
    an exception of the client's constructor, raised before the [try] block
    is entered, or the way [serve] ended. *)
Inductive LifeResult (A : Type) : Type :=
| StartupError (msg : string)
| ConstructionError (e : exn)
| Exited (r : result A).
Arguments StartupError {A} msg.
Arguments ConstructionError {A} e.
Arguments Exited {A} r.

Definition app_lifespan {A} (w : World) (getenv : string -> option string)
    (serve : LatentsenseConfig -> Py A) : list LifeEvent * LifeResult A :=
  (* Get configuration from environment *)
  let api_key := getenv "LATENTSENSE_API_KEY" in
  if negb (opt_str_truthy api_key)
  then ([], StartupError "LATENTSENSE_API_KEY environment variable is required")
  else
    let project_id := getenv "LATENTSENSE_PROJECT_ID" in
    if negb (opt_str_truthy project_id)
    then ([], StartupError "LATENTSENSE_PROJECT_ID environment variable required")
    else
      let base_url :=
        default "https://controller.latentsense.com"
          (getenv "LATENTSENSE_BASE_URL") in
      let config :=
        mk_config (default EmptyString api_key)
          (default EmptyString project_id) base_url in
      match LatentsenseClient.__init__ w config with
      | Raise e => ([], ConstructionError e)
      | Ret client =>
          (* try: yield; finally: close *)
          let (t, r) := serve client in
          ((ClientCreated client :: map Serving t ++ [ClientClosed])%list,
           Exited r)
      end.

(** ** A small concrete world

    Two regular files, a directory, a file in a directory that cannot be
    searched and a file that cannot be opened; a vendor that answers every
    request with the same JSON object, behind a client that refuses a URL
    with a control character; a [float.__repr__] given on the three floats
    the examples pass. *)
Definition float_half : float := S754_finite false 4503599627370496 (-53).

Definition float_three_halves : float :=
  S754_finite false 6755399441055744 (-52).

Definition demo_float_repr (f : float) : string :=
  if SFeqb f float_zero then "0.0"
  else if SFeqb f float_one then "1.0"
  else if SFeqb f float_half then "0.5"
  else "nan".

Definition demo_node (p : string) : option fs_node :=
  if String.eqb p "/data/a.txt" then Some (Regular "alpha")
  else if String.eqb p "/data/b.txt" then Some (Regular "beta")
  else if String.eqb p "/data" then Some Directory
  else if String.eqb p "/data/locked/c.txt"
  then Some (Untestable
               (mk_exn OSError
                  "[Errno 13] Permission denied: '/data/locked/c.txt'"))
  else if String.eqb p "/data/secret.txt"
  then Some (Unreadable
               (mk_exn OSError
                  "[Errno 13] Permission denied: '/data/secret.txt'"))
  else None.

Definition demo_payload : json := JDict [("status", JStr "done")].

Definition has_control (s : string) : bool :=
  existsb (fun c => Nat.ltb (nat_of_ascii c) 32) (list_ascii_of_string s).

Definition demo_send (r : Request) : Reply :=
  if has_control (req_url r)
  then RequestRaises
         (mk_exn (OtherException "InvalidURL")
            "Invalid non-printable ASCII character in URL")
  else Respond (mk_response 200 EmptyString (inl demo_payload)).

(** [httpx] encodes header values as ASCII. *)
Definition is_ascii (s : string) : bool :=
  forallb (fun c => Nat.ltb (nat_of_ascii c) 128) (list_ascii_of_string s).

Definition demo_new_client (headers : list (string * string)) : option exn :=
  if forallb (fun h => is_ascii (snd h)) headers then None
  else Some (mk_exn (OtherException "UnicodeEncodeError")
               "'ascii' codec can't encode character: ordinal not in range(128)").

Definition demo_world : World :=
  mk_world demo_float_repr demo_node demo_send demo_new_client.

Definition demo_client : LatentsenseConfig :=
  mk_config "secret" "p1" "https://controller.latentsense.com".

(** * Vocabulary of the properties *)

Definition requests {A} (m : Py A) : list Request := http_requests (trace m).

(** What [_make_request] makes of an exception raised inside its [try]
    block: an [httpx.HTTPError] is replaced, anything else passes. *)
Definition wrapped (e : exn) : exn :=
  if is_HTTPError e
  then mk_exn Exception ("API request failed: " ++ exc_str e)
  else e.

(** How one request ends, read off what [client.request] does with it. *)
Definition request_result (w : World) (r : Request) : result json :=
  match send w r with
  | TransportError msg =>
      Raise (mk_exn Exception ("API request failed: " ++ msg))
  | RequestRaises e => Raise (wrapped e)
  | Respond resp =>
      if is_success resp
      then match body resp with
           | inl j => Ret j
           | inr e => Raise (wrapped e)
           end
      else Raise (mk_exn Exception ("API request failed: " ++ status_error resp))
  end.

(** Whether the call site passes an argument. *)
Definition provided {A} (o : option A) : bool :=
  match o with Some _ => true | None => false end.

Definition is_regular (w : World) (p : string) : bool :=
  match node w p with Some (Regular _) => true | _ => false end.

(** [Path(p).exists()] answers [True]. *)
Definition is_present (w : World) (p : string) : bool :=
  match node w p with
  | Some (Untestable _) | None => false
  | Some _ => true
  end.

(** [Path(p).exists()] raises. *)
Definition test_raises (w : World) (p : string) : option exn :=
  match node w p with Some (Untestable e) => Some e | _ => None end.

(** The two files and the request of the witnesses below. *)
Definition demo_files : list string := ["/data/a.txt"; "/data/b.txt"].

Definition demo_graph_request (data : list (string * string)) : Request :=
  mk_request "POST" "https://controller.latentsense.com/p1/reasoner-x"
    (LatentsenseClient.files_data_kwargs
       [("files", ("a.txt", "alpha")); ("files", ("b.txt", "beta"))] data).

Definition missing_error (p : string) : exn :=
  mk_exn FileNotFoundError ("File not found: " ++ p).

(** What the existence check of [_upload_files] raises on a path whose test
    does not answer [True]: the test's own exception, or "file not found". *)
Definition test_error (w : World) (p : string) : exn :=
  match node w p with
  | Some (Untestable e) => e
  | _ => missing_error p
  end.

(** What [read_file] raises on a path that is not a regular file. *)
Definition read_error (w : World) (p : string) : exn :=
  match node w p with
  | Some Directory =>
      mk_exn IsADirectoryError ("[Errno 21] Is a directory: " ++ str_repr p)
  | Some (Untestable e) | Some (Unreadable e) => e
  | _ =>
      mk_exn FileNotFoundError
        ("[Errno 2] No such file or directory: " ++ str_repr p)
  end.

(** What a loop of [create_knowledge_graph] raises on such a path. *)
Definition check_error (w : World) (p : string) : exn :=
  match node w p with
  | None => missing_error p
  | Some _ => read_error w p
  end.

Definition file_content (w : World) (p : string) : string :=
  match node w p with Some (Regular content) => content | _ => EmptyString end.

Definition part_of (w : World) (field p : string) : file_part :=
  (field, (path_name p, file_content w p)).

Definition is_check (e : Event) : bool :=
  match e with PathExists _ => true | _ => false end.

Definition is_read (e : Event) : bool :=
  match e with OpenRead _ => true | _ => false end.

(** How a computation ended and which requests it issued. *)
Definition report {A} (m : Py A) : result A * list Request :=
  (outcome m, requests m).

(** The request [_upload_files] sends once every file is read. *)
Definition upload_request (w : World) (config : LatentsenseConfig)
    (endpoint : string) (files : list string)
    (additional_files : list (string * string))
    (form_data : option (list (string * string))) : Request :=
  mk_request "POST" (base_url config ++ endpoint)
    (LatentsenseClient.files_data_kwargs
       (map (part_of w "files") files
        ++ map (fun item => part_of w (fst item) (snd item))
             (filter (fun item => str_truthy (snd item)) additional_files))%list
       (if opt_list_truthy form_data then default [] form_data else [])).

(** The request [create_knowledge_graph] sends once every file is read. *)
Definition graph_request (w : World) (config : LatentsenseConfig)
    (files_data : list file_part) (files1_name files2_name : option string)
  : Request :=
  mk_request "POST"
    (base_url config ++ "/" ++ project_id config ++ "/reasoner-x")
    (LatentsenseClient.files_data_kwargs files_data
       (let data := [] in
        let data :=
          if opt_str_truthy files1_name
          then dict_set "files1_name" (default EmptyString files1_name) data
          else data in
        if opt_str_truthy files2_name
        then dict_set "files2_name" (default EmptyString files2_name) data
        else data)).

Definition directory_error (p : string) : exn :=
  mk_exn IsADirectoryError ("[Errno 21] Is a directory: " ++ str_repr p).

(** The failures of a client operation on a declared path, with what it
    raises: the path does not exist and the client says so; the existence
    test raises and its exception passes; the path is a directory, or
    [open] raises on it, and the exception of [open] passes. *)
Inductive local_failure (w : World) (p : string) : exn -> Prop :=
| file_missing :
    node w p = None -> local_failure w p (missing_error p)
| test_raised e :
    node w p = Some (Untestable e) -> local_failure w p e
| is_directory :
    node w p = Some Directory -> local_failure w p (directory_error p)
| open_raised e :
    node w p = Some (Unreadable e) -> local_failure w p e.

(** The [try] block of [_make_request] on request [r] meets exception [e]:
    it is raised by [client.request], by [raise_for_status] on the
    response, or by [response.json()]. *)
Definition try_block_raises (w : World) (r : Request) (e : exn) : Prop :=
  outcome (client_request w r) = Raise e
  \/ exists resp,
       outcome (client_request w r) = Ret resp
       /\ (outcome (raise_for_status resp) = Raise e
           \/ (outcome (raise_for_status resp) = Ret tt
               /\ outcome (response_json resp) = Raise e)).

(** The two ways a client operation ends: one request was issued and what
    [client.request] does with it decides; or nothing was issued, because of
    a failure on a declared path. *)
Definition client_ending (w : World) (m : Py json) : Prop :=
  (exists r, report m = (request_result w r, [r]))
  \/ (exists p e, report m = (Raise e, []) /\ local_failure w p e).

(** The paths of a call that must exist, in the order the client tests
    them: the primary set, then the named additional file if its path is not
    empty, or the second set.  The concepts file is not among them. *)
Definition checked_paths (c : Call) : list string :=
  match c with
  | RedactPii files => files
  | RedactRelevance files path _ | ExtractRelationships files path =>
      (files ++ if str_truthy path then [path] else [])%list
  | CreateKnowledgeGraph files files2 _ _ _ =>
      (files ++ default [] files2)%list
  | _ => []
  end.

(** The three operations that go through [_upload_files]. *)
Definition uses_helper (c : Call) : bool :=
  match c with
  | RedactPii _ | RedactRelevance _ _ _ | ExtractRelationships _ _ => true
  | _ => false
  end.

Definition cutoff_in_range (c : Call) : bool :=
  match c with
  | RedactRelevance _ _ cutoff =>
      SFleb float_zero cutoff && SFleb cutoff float_one
  | _ => true
  end.

(** The arguments a tool rejects before its [try] block. *)
Definition tool_rejects (c : Call) : bool :=
  match c with
  | GetProjectRuns cog _ _ _ _ sort_by _ =>
      (opt_str_truthy cog
       && negb (str_in (default EmptyString cog) valid_cog_names))
      || negb (str_in (default "time" sort_by) valid_sort_by)
  | RedactRelevance _ _ cutoff =>
      negb (SFleb float_zero cutoff && SFleb cutoff float_one)
  | _ => false
  end.

(** The client call a tool makes in its [try] block: the tool's own
    arguments, with the defaults of its signature filled in. *)
Definition forwarded (c : Call) : Call :=
  match c with
  | GetProjectRuns cog user key page rows sort_by desc =>
      GetProjectRuns cog user key (Some (default 1%Z page))
        (Some (default 50%Z rows)) (Some (default "time" sort_by))
        (Some (default true desc))
  | CreateKnowledgeGraph files files2 concepts n1 n2 =>
      CreateKnowledgeGraph files files2 concepts
        (Some (default "set_1" n1)) (Some (default "set_2" n2))
  | _ => c
  end.

(** The three phases of an upload, and the coarser two (local I/O, then the
    request). *)
Definition upload_phase (e : Event) : nat :=
  match e with PathExists _ => 0 | OpenRead _ => 1 | HttpRequest _ => 2 end.

Definition io_phase (e : Event) : nat :=
  match e with PathExists _ | OpenRead _ => 0 | HttpRequest _ => 1 end.

(** No event of a trace is in an earlier phase than the event before it. *)
Fixpoint nondecreasing (phase : Event -> nat) (t : list Event) : bool :=
  match t with
  | [] => true
  | e :: rest =>
      match rest with
      | [] => true
      | e' :: _ => (phase e <=? phase e')%nat && nondecreasing phase rest
      end
  end.

(** A trace in order, all of whose phases lie between [lo] and [hi]. *)
Definition sorted_between (phase : Event -> nat) (lo hi : nat)
    (t : list Event) : Prop :=
  nondecreasing phase t = true /\ Forall (fun e => lo <= phase e <= hi) t.

(** An environment with the two required variables and, optionally, the
    base URL. *)
Definition demo_getenv (base : option string) (name : string)
  : option string :=
  if String.eqb name "LATENTSENSE_API_KEY" then Some "secret"
  else if String.eqb name "LATENTSENSE_PROJECT_ID" then Some "p1"
  else if String.eqb name "LATENTSENSE_BASE_URL" then base
  else None.

(** The same environment with another API key, and a key that is not
    ASCII (the two bytes of an accented letter in UTF-8). *)
Definition demo_getenv_with_key (key : string) (name : string)
  : option string :=
  if String.eqb name "LATENTSENSE_API_KEY" then Some key
  else demo_getenv None name.

Definition non_ascii_key : string :=
  "cl" ++ String (ascii_of_nat 195) (String (ascii_of_nat 169) EmptyString).

(** The requests among the events of a lifespan. *)
Fixpoint served_requests (t : list LifeEvent) : list Request :=
  match t with
  | [] => []
  | Serving (HttpRequest r) :: rest => r :: served_requests rest
  | _ :: rest => served_requests rest
  end.

(** The two validation loops of [_upload_files] as one loop over the paths
    they test, and its two read loops as one loop over the items
    [(field, path)] they read. *)
Definition validate (w : World) (paths : list string) : Py unit :=
  for_each paths (fun p (_ : unit) => LatentsenseClient.require_exists w p) tt.

Definition read_all (w : World) (items : list (string * string))
    (acc : list file_part) : Py (list file_part) :=
  for_each items
    (fun item files_data =>
       LatentsenseClient.append_part w (fst item) (snd item) files_data)
    acc.

(** The items [_upload_files] uploads: every primary file under [files],
    then the additional files whose path is not empty under their own
    field. *)
Definition upload_items (files : list string)
    (additional_files : list (string * string)) : list (string * string) :=
  (map (fun p => ("files", p)) files
   ++ filter (fun item => str_truthy (snd item)) additional_files)%list.

(** The two loops of [create_knowledge_graph] as one loop over items. *)
Definition check_read_all (w : World) (items : list (string * string))
    (acc : list file_part) : Py (list file_part) :=
  for_each items
    (fun item files_data =>
       LatentsenseClient.check_and_append w (fst item) (snd item) files_data)
    acc.

Definition graph_items (files : list string) (files2 : option (list string))
  : list (string * string) :=
  (map (fun p => ("files", p)) files
   ++ map (fun p => ("files2", p)) (default [] files2))%list.

Definition item_part (w : World) (item : string * string) : file_part :=
  part_of w (fst item) (snd item).

(** The events of a completed loop of [create_knowledge_graph]. *)
Definition test_and_read (item : string * string) : list Event :=
  [PathExists (snd item); OpenRead (snd item)].

(** Whether a string contains a slash. *)
Fixpoint has_slash (s : string) : bool :=
  match s with
  | EmptyString => false
  | String c rest => Ascii.eqb c "/" || has_slash rest
  end.

(** The host, as far as the lifespan is concerned: it invokes tools one after
    the other with the client of the context and collects their answers. *)
Definition serve_calls (w : World) (calls : list Call)
    (client : LatentsenseConfig) : Py (list string) :=
  for_each calls
    (fun c answers =>
       answer <- invoke w client c ;; ret (answers ++ [answer])%list)
    [].

(** The field names a multipart part can have. *)
Definition part_fields : list string :=
  ["files"; "files2"; "concepts"; "relevance_term"; "claim_concepts"].

(** * Properties *)

(** ** The model on concrete inputs *)

Example list_repr_sort_by : list_repr valid_sort_by = "['time', 'cost']".
Proof. reflexivity. Qed.

Example path_name_file : path_name "/data/a.txt" = "a.txt".
Proof. reflexivity. Qed.

Example path_name_trailing_slash : path_name "reports/2024/" = "2024".
Proof. reflexivity. Qed.

Example dumps_nested :
  Json.dumps demo_float_repr
    (JDict [("ids", JList [JInt 1; JInt (-2)]); ("ok", JBool true);
            ("none", JList [])])
  = "{" ++ newline
    ++ "  " ++ dquote ++ "ids" ++ dquote ++ ": [" ++ newline
    ++ "    1," ++ newline
    ++ "    -2" ++ newline
    ++ "  ]," ++ newline
    ++ "  " ++ dquote ++ "ok" ++ dquote ++ ": true," ++ newline
    ++ "  " ++ dquote ++ "none" ++ dquote ++ ": []" ++ newline
    ++ "}".
Proof. reflexivity. Qed.

Example dumps_escapes :
  Json.dumps demo_float_repr (JStr ("a" ++ newline ++ "b"))
  = dquote ++ "a" ++ backslash ++ "nb" ++ dquote.
Proof. reflexivity. Qed.

Example redact_relevance_run :
  trace (redact_relevance demo_world demo_client ["/data/a.txt"]
           "/data/b.txt" float_half)
  = [PathExists "/data/a.txt"; PathExists "/data/b.txt";
     OpenRead "/data/a.txt"; OpenRead "/data/b.txt";
     HttpRequest
       (mk_request "POST"
          "https://controller.latentsense.com/p1/redact-relevance"
          (mk_kwargs None None
             (Some [("files", ("a.txt", "alpha"));
                    ("relevance_term", ("b.txt", "beta"))])
             (Some [("cutoff", "0.5")])))].
Proof. reflexivity. Qed.

Example redact_pii_missing_file :
  redact_pii demo_world demo_client ["/data/a.txt"; "/data/nope"]
  = ([PathExists "/data/a.txt"; PathExists "/data/nope"],
     Ret "Error: File not found: /data/nope").
Proof. reflexivity. Qed.

(** ** The computation type *)

Lemma http_requests_app (t t' : list Event) :
  http_requests (t ++ t') = (http_requests t ++ http_requests t')%list.
Proof.
  induction t as [|e t IH]; simpl; [reflexivity|].
  destruct e; simpl; rewrite IH; reflexivity.
Qed.

Lemma bind_unfold {A B} (m : Py A) (k : A -> Py B) :
  bind m k =
  match outcome m with
  | Ret a => ((trace m ++ trace (k a))%list, outcome (k a))
  | Raise e => (trace m, Raise e)
  end.
Proof.
  destruct m as [t [a|e]]; simpl; [|reflexivity].
  destruct (k a); reflexivity.
Qed.

Lemma requests_bind {A B} (m : Py A) (k : A -> Py B) :
  requests (bind m k) =
  (requests m ++
   match outcome m with Ret a => requests (k a) | Raise _ => [] end)%list.
Proof.
  rewrite bind_unfold. unfold requests.
  destruct (outcome m); simpl.
  - apply http_requests_app.
  - symmetry; apply app_nil_r.
Qed.

Lemma outcome_bind {A B} (m : Py A) (k : A -> Py B) :
  outcome (bind m k) =
  match outcome m with Ret a => outcome (k a) | Raise e => Raise e end.
Proof. rewrite bind_unfold. destruct (outcome m); reflexivity. Qed.

Lemma trace_bind {A B} (m : Py A) (k : A -> Py B) :
  trace (bind m k) =
  (trace m ++ match outcome m with Ret a => trace (k a) | Raise _ => [] end)%list.
Proof.
  rewrite bind_unfold. destruct (outcome m); simpl; [reflexivity|].
  symmetry; apply app_nil_r.
Qed.

Lemma requests_for_each {A S} (body : A -> S -> Py S) (xs : list A) (s : S) :
  (forall x s', requests (body x s') = []) ->
  requests (for_each xs body s) = [].
Proof.
  intros Hq. revert s. induction xs as [|x xs IH]; intros s; simpl.
  - reflexivity.
  - rewrite requests_bind, Hq. simpl. destruct (outcome (body x s)); auto.
Qed.

(** ** [_make_request] *)

Lemma make_request_eq w config endpoint method kwargs :
  LatentsenseClient._make_request w config endpoint method kwargs =
  (let r := mk_request method (base_url config ++ endpoint) kwargs in
   ([HttpRequest r], request_result w r)).
Proof.
  unfold LatentsenseClient._make_request, request_result, client_request,
    raise_for_status, response_json, try_except, bind, raise, ret.
  unfold wrapped.
  simpl. destruct (send w _) as [msg|e|resp]; simpl; [reflexivity| |].
  { destruct (is_HTTPError e); reflexivity. }
  destruct (is_success resp); simpl; [|reflexivity].
  destruct (body resp) as [j|e]; [reflexivity|].
  destruct (is_HTTPError e); reflexivity.
Qed.

Lemma requests_make_request w config endpoint method kwargs :
  requests (LatentsenseClient._make_request w config endpoint method kwargs) =
  [mk_request method (base_url config ++ endpoint) kwargs].
Proof. rewrite make_request_eq. reflexivity. Qed.

(** ** The tool wrapper *)

Lemma dumps_or_error_eq w (call : Py json) :
  dumps_or_error w call =
  (trace call,
   Ret match outcome call with
       | Ret j => Json.dumps (float_repr w) j
       | Raise e => "Error: " ++ exc_str e
       end).
Proof.
  unfold dumps_or_error, try_except, bind, ret.
  destruct call as [t [j|e]]; simpl.
  - rewrite app_nil_r. reflexivity.
  - assert (is_Exception e = true) as -> by (unfold is_Exception; destruct (exc_cls e); reflexivity).
    rewrite app_nil_r. reflexivity.
Qed.

Lemma requests_dumps_or_error w (call : Py json) :
  requests (dumps_or_error w call) = requests call.
Proof. rewrite dumps_or_error_eq. reflexivity. Qed.

(** ** Dictionaries *)

Lemma dict_get_set {V} (k k' : string) (v : V) (d : list (string * V)) :
  dict_get k (dict_set k' v d) =
  if String.eqb k k' then Some v else dict_get k d.
Proof.
  induction d as [|[k0 v0] d IH]; simpl.
  - reflexivity.
  - destruct (String.eqb k' k0) eqn:E0; simpl.
    + apply String.eqb_eq in E0; subst k0.
      destruct (String.eqb k k'); reflexivity.
    + destruct (String.eqb k k0) eqn:E1.
      * apply String.eqb_eq in E1; subst k0.
        destruct (String.eqb k k') eqn:E2; [|reflexivity].
        apply String.eqb_eq in E2; subst k'.
        rewrite String.eqb_refl in E0; discriminate.
      * exact IH.
Qed.

Lemma dict_get_set_if {V} (c : bool) (k k' : string) (v : V)
    (d : list (string * V)) :
  dict_get k (if c then dict_set k' v d else d) =
  if c && String.eqb k k' then Some v else dict_get k d.
Proof. destruct c; simpl; [apply dict_get_set | reflexivity]. Qed.

(** Looks a concrete key up in a dictionary built by guarded assignments. *)
Ltac dict_lookup :=
  rewrite ?dict_get_set, ?dict_get_set_if; simpl;
  rewrite ?andb_false_r, ?andb_true_r; simpl.

(** ** C7: the query parameters of list-project-runs *)

(** C7, as stated, fails on a call without arguments: [page] is not provided
    and the query carries it all the same (and so do [rowsPerPage], [sortBy]
    and [descending], with the defaults of the signature). *)
Lemma get_project_runs_sends_unprovided_page :
  exists r ps,
    requests (LatentsenseClient.get_project_runs demo_world demo_client
                None None None None None None None) = [r]
    /\ req_params r = Some ps
    /\ ps = [("page", PInt 1); ("rowsPerPage", PInt 50);
             ("sortBy", PStr "time"); ("descending", PBool true)]
    /\ ~ (dict_has "page" ps = true <-> provided (@None Z) = true).
Proof.
  eexists; eexists. split; [reflexivity|]. split; [reflexivity|].
  split; [reflexivity|].
  intros [H _]. specialize (H eq_refl). discriminate H.
Qed.

(** C7, amended: the operation issues exactly one GET request, whose query
    carries each filter exactly when it is given and not empty, [page] and
    [rowsPerPage] exactly when their value (the argument, or the default 1
    and 50) is not zero, [sortBy] exactly when its value (the argument, or
    the default [time]) is not empty, and [descending] always (the argument,
    or the default [True]). *)
Theorem get_project_runs_query_params
    (w : World) (config : LatentsenseConfig)
    (cog user key : option string) (page rows : option Z)
    (sort_by : option string) (descending : option bool) :
  exists r ps,
    trace (LatentsenseClient.get_project_runs w config cog user key page rows
             sort_by descending) = [HttpRequest r]
    /\ req_method r = "GET"
    /\ req_url r = base_url config ++ "/api/runs/project/" ++ project_id config
    /\ req_params r = Some ps
    /\ dict_get "filterCogName" ps =
         match cog with
         | Some (String c s) => Some (PStr (String c s))
         | _ => None
         end
    /\ dict_get "filterUserId" ps =
         match user with
         | Some (String c s) => Some (PStr (String c s))
         | _ => None
         end
    /\ dict_get "filterApiKeyId" ps =
         match key with
         | Some (String c s) => Some (PStr (String c s))
         | _ => None
         end
    /\ dict_get "page" ps =
         match page with
         | Some 0%Z => None
         | Some n => Some (PInt n)
         | None => Some (PInt 1)
         end
    /\ dict_get "rowsPerPage" ps =
         match rows with
         | Some 0%Z => None
         | Some n => Some (PInt n)
         | None => Some (PInt 50)
         end
    /\ dict_get "sortBy" ps =
         match sort_by with
         | Some (String c s) => Some (PStr (String c s))
         | Some EmptyString => None
         | None => Some (PStr "time")
         end
    /\ dict_get "descending" ps =
         match descending with
         | Some b => Some (PBool b)
         | None => Some (PBool true)
         end
    /\ (forall k, dict_has k ps = true ->
          In k ["filterCogName"; "filterUserId"; "filterApiKeyId"; "page";
                "rowsPerPage"; "sortBy"; "descending"]).
Proof.
  unfold LatentsenseClient.get_project_runs.
  rewrite make_request_eq. cbv zeta.
  eexists; eexists. split; [reflexivity|].
  do 3 (split; [reflexivity|]).
  unfold LatentsenseClient.project_runs_params; cbv zeta.
  repeat split.
  - dict_lookup. destruct cog as [[|c s]|]; reflexivity.
  - dict_lookup. destruct user as [[|c s]|]; reflexivity.
  - dict_lookup. destruct key as [[|c s]|]; reflexivity.
  - dict_lookup. destruct page as [[|n|n]|]; reflexivity.
  - dict_lookup. destruct rows as [[|n|n]|]; reflexivity.
  - dict_lookup. destruct sort_by as [[|c s]|]; reflexivity.
  - dict_lookup. destruct descending; reflexivity.
  - intros k. unfold dict_has.
    rewrite dict_get_set, !dict_get_set_if; simpl.
    repeat match goal with
    | |- context [String.eqb k ?s] =>
        destruct (String.eqb_spec k s) as [->|_]; [simpl; tauto|]
    end.
    rewrite !andb_false_r. discriminate.
Qed.

(** ** C8: the body of send-agent-message *)

(** C8, as stated, fails on a supplied empty graph: the request carries no
    JSON body, where the claim has the empty object sent. *)
Lemma send_rex_message_drops_empty_graph :
  exists r,
    requests (LatentsenseClient.send_rex_message demo_world demo_client
                "hello" "run-1" (Some [])) = [r]
    /\ req_json r = None
    /\ req_json r <> Some [].
Proof.
  eexists. split; [reflexivity|]. split; [reflexivity|]. discriminate.
Qed.

(** C8, amended: the operation issues exactly one POST request with query
    parameters [message] and [run_id]; a supplied graph object with at least
    one key is sent as the JSON body, and the request has no body when no
    graph is supplied or the supplied graph object is empty. *)
Theorem send_rex_message_request
    (w : World) (config : LatentsenseConfig) (message run_id : string)
    (graph : option (list (string * json))) :
  exists r,
    trace (LatentsenseClient.send_rex_message w config message run_id graph)
      = [HttpRequest r]
    /\ req_method r = "POST"
    /\ req_url r = base_url config ++ "/api/chat/" ++ project_id config
                   ++ "/message_rex"
    /\ req_params r = Some [("message", PStr message); ("run_id", PStr run_id)]
    /\ req_json r =
         match graph with
         | Some (member :: members) => Some (member :: members)
         | Some [] => None
         | None => None
         end
    /\ req_files r = None
    /\ req_data r = None.
Proof.
  unfold LatentsenseClient.send_rex_message.
  destruct graph as [[|member members]|]; simpl;
    rewrite make_request_eq; eexists; repeat split.
Qed.

(** ** The loops of [create_knowledge_graph] *)

Lemma check_and_append_eq w field p acc :
  LatentsenseClient.check_and_append w field p acc =
  match node w p with
  | Some (Regular content) =>
      ([PathExists p; OpenRead p],
       Ret (acc ++ [(field, (path_name p, content))])%list)
  | Some Directory =>
      ([PathExists p; OpenRead p],
       Raise (mk_exn IsADirectoryError
                ("[Errno 21] Is a directory: " ++ str_repr p)))
  | Some (Untestable e) => ([PathExists p], Raise e)
  | Some (Unreadable e) => ([PathExists p; OpenRead p], Raise e)
  | None =>
      ([PathExists p],
       Raise (mk_exn FileNotFoundError ("File not found: " ++ p)))
  end.
Proof.
  unfold LatentsenseClient.check_and_append, LatentsenseClient.require_exists,
    LatentsenseClient.append_part, path_exists, read_file, bind, ret, raise.
  destruct (node w p) as [[content| |ex|ex]|]; reflexivity.
Qed.

Lemma requests_check_and_append w field p acc :
  requests (LatentsenseClient.check_and_append w field p acc) = [].
Proof.
  rewrite check_and_append_eq. destruct (node w p) as [[c| |ex|ex]|]; reflexivity.
Qed.

(** A loop of [create_knowledge_graph] that completes has found every file
    regular and has appended one part per file, in order. *)
Lemma check_and_append_loop w field files acc :
  match outcome (for_each files (LatentsenseClient.check_and_append w field) acc) with
  | Ret files_data =>
      forallb (is_regular w) files = true
      /\ exists parts,
           files_data = (acc ++ parts)%list
           /\ Forall2 (fun p part =>
                         exists content,
                           node w p = Some (Regular content)
                           /\ part = (field, (path_name p, content)))
                files parts
  | Raise _ => forallb (is_regular w) files = false
  end.
Proof.
  revert acc. induction files as [|p files IH]; intros acc; simpl.
  - split; [reflexivity|]. exists []. rewrite app_nil_r. split; constructor.
  - rewrite outcome_bind, check_and_append_eq.
    assert (is_regular w p = match node w p with
                             | Some (Regular _) => true
                             | _ => false
                             end) as -> by reflexivity.
    destruct (node w p) as [[content| |ex|ex]|] eqn:Hp; simpl; try reflexivity.
    specialize (IH (acc ++ [(field, (path_name p, content))])%list).
    destruct (outcome _) as [fd|e]; [|exact IH].
    destruct IH as [Hall (parts & -> & Hparts)]. split; [exact Hall|].
    exists ((field, (path_name p, content)) :: parts).
    rewrite <- app_assoc. split; [reflexivity|].
    constructor; [|exact Hparts]. exists content. split; [exact Hp|reflexivity].
Qed.

Lemma check_and_append_loop_complete w field files acc :
  forallb (is_regular w) files = true ->
  exists files_data,
    outcome (for_each files (LatentsenseClient.check_and_append w field) acc)
    = Ret files_data.
Proof.
  intros Hall. pose proof (check_and_append_loop w field files acc) as H.
  destruct (outcome _) as [fd|e]; [eauto|]. congruence.
Qed.

Lemma bind_ret_l {A B} (a : A) (k : A -> Py B) : bind (ret a) k = k a.
Proof. unfold bind, ret. destruct (k a); reflexivity. Qed.

Lemma bind_ext {A B} (m : Py A) (k k' : A -> Py B) :
  (forall a, k a = k' a) -> bind m k = bind m k'.
Proof. intros H. destruct m as [t [a|e]]; simpl; [rewrite H|]; reflexivity. Qed.

(** A request issued by [m >>= k] after a silent [m] is issued by [k]. *)
Lemma requests_bind_quiet {A B} (m : Py A) (k : A -> Py B) (r : Request) :
  requests m = [] ->
  In r (requests (bind m k)) ->
  exists a, outcome m = Ret a /\ In r (requests (k a)).
Proof.
  intros Hq Hin. rewrite requests_bind, Hq in Hin. simpl in Hin.
  destruct (outcome m) as [a|e]; [eauto | contradiction].
Qed.

Lemma requests_append_part w field p acc :
  requests (LatentsenseClient.append_part w field p acc) = [].
Proof.
  unfold LatentsenseClient.append_part, read_file, bind, ret.
  destruct (node w p) as [[c| |ex|ex]|]; reflexivity.
Qed.

Lemma requests_require_exists w p :
  requests (LatentsenseClient.require_exists w p) = [].
Proof.
  unfold LatentsenseClient.require_exists, path_exists, bind, ret, raise.
  destruct (node w p) as [[c| |ex|ex]|]; reflexivity.
Qed.

(** Every request of [create_knowledge_graph] is the one POST to
    [/reasoner-x], with the parts read so far and the two names that are
    not empty as form fields. *)
Lemma create_knowledge_graph_requests w config files files2 concepts n1 n2 r :
  In r (requests (LatentsenseClient.create_knowledge_graph w config files
                    files2 concepts n1 n2)) ->
  exists files_data,
    r = mk_request "POST"
          (base_url config ++ "/" ++ project_id config ++ "/reasoner-x")
          (LatentsenseClient.files_data_kwargs files_data
             (let data := [] in
              let data :=
                if opt_str_truthy n1
                then dict_set "files1_name" (default EmptyString n1) data
                else data in
              if opt_str_truthy n2
              then dict_set "files2_name" (default EmptyString n2) data
              else data)).
Proof.
  unfold LatentsenseClient.create_knowledge_graph. cbv zeta. intros Hin.
  apply requests_bind_quiet in Hin as (fd1 & _ & Hin);
    [|apply requests_for_each; intros; apply requests_check_and_append].
  apply requests_bind_quiet in Hin as (fd2 & _ & Hin).
  2:{ destruct (opt_list_truthy files2); [|reflexivity].
      apply requests_for_each; intros; apply requests_check_and_append. }
  apply requests_bind_quiet in Hin as (fd3 & _ & Hin).
  2:{ destruct (opt_str_truthy concepts); [|reflexivity].
      rewrite requests_bind. simpl.
      destruct (node w _) as [[c| |ex|ex]|]; simpl;
        try apply requests_append_part; reflexivity. }
  rewrite requests_make_request in Hin. destruct Hin as [<-|[]].
  exists fd3. reflexivity.
Qed.

(** ** C9: [create_knowledge_graph] with the primary files only *)

(** C9: when [create_knowledge_graph] is called with [files] only, every
    request it issues carries exactly one part per primary file, in order,
    each under the field [files] with the file's base name and content, so
    no part is under [files2] or [concepts]; when every primary file is a
    regular file the request is issued, and it is the only one.  The tool,
    which passes its name defaults on, issues the same parts. *)
Theorem create_knowledge_graph_primary_only
    (w : World) (config : LatentsenseConfig) (files : list string)
    (files1_name files2_name : option string) :
  (forall r,
     In r (requests (LatentsenseClient.create_knowledge_graph w config files
                       None None files1_name files2_name))
     \/ In r (requests (create_knowledge_graph w config files None None
                          files1_name files2_name)) ->
     exists parts,
       req_files r = Some parts
       /\ Forall2 (fun p part =>
                     exists content,
                       node w p = Some (Regular content)
                       /\ part = ("files", (path_name p, content)))
            files parts
       /\ (forall part, In part parts ->
             fst part <> "files2" /\ fst part <> "concepts"))
  /\ (forallb (is_regular w) files = true ->
      exists r,
        requests (LatentsenseClient.create_knowledge_graph w config files
                    None None files1_name files2_name) = [r]
        /\ exists r',
             requests (create_knowledge_graph w config files None None
                         files1_name files2_name) = [r']).
Proof.
  assert (Hshape : forall n1 n2,
    LatentsenseClient.create_knowledge_graph w config files None None n1 n2 =
    bind (for_each files (LatentsenseClient.check_and_append w "files") [])
      (fun files_data =>
         LatentsenseClient._make_request w config
           ("/" ++ project_id config ++ "/reasoner-x") "POST"
           (LatentsenseClient.files_data_kwargs files_data
              (let data := [] in
               let data :=
                 if opt_str_truthy n1
                 then dict_set "files1_name" (default EmptyString n1) data
                 else data in
               if opt_str_truthy n2
               then dict_set "files2_name" (default EmptyString n2) data
               else data)))).
  { intros n1 n2. unfold LatentsenseClient.create_knowledge_graph.
    cbv zeta. cbn [opt_list_truthy opt_str_truthy].
    apply bind_ext. intros fd. rewrite !bind_ret_l. reflexivity. }
  assert (Hparts : forall n1 n2 r,
    In r (requests (LatentsenseClient.create_knowledge_graph w config files
                      None None n1 n2)) ->
    exists parts,
      req_files r = Some parts
      /\ Forall2 (fun p part =>
                    exists content,
                      node w p = Some (Regular content)
                      /\ part = ("files", (path_name p, content)))
           files parts
      /\ (forall part, In part parts ->
            fst part <> "files2" /\ fst part <> "concepts")).
  { intros n1 n2 r Hin. rewrite Hshape in Hin.
    apply requests_bind_quiet in Hin as (fd & Hfd & Hin);
      [|apply requests_for_each; intros; apply requests_check_and_append].
    rewrite requests_make_request in Hin. destruct Hin as [<-|[]].
    pose proof (check_and_append_loop w "files" files []) as Hloop.
    rewrite Hfd in Hloop. destruct Hloop as [_ (parts & -> & Hall)].
    exists parts. split; [reflexivity|]. split; [exact Hall|].
    intros part Hpart.
    assert (fst part = "files") as ->; [|split; discriminate].
    clear -Hall Hpart. induction Hall as [|p q ps qs (c & _ & ->) _ IH].
    - contradiction.
    - destruct Hpart as [<-|Hpart]; [reflexivity | auto]. }
  split.
  - intros r [Hin|Hin].
    + eapply Hparts; eassumption.
    + unfold create_knowledge_graph in Hin. cbv zeta in Hin.
      rewrite requests_dumps_or_error in Hin. eapply Hparts; eassumption.
  - intros Hall.
    assert (Hone : forall n1 n2, exists r,
      requests (LatentsenseClient.create_knowledge_graph w config files
                  None None n1 n2) = [r]).
    { intros n1 n2. rewrite Hshape, requests_bind.
      rewrite requests_for_each
        by (intros; apply requests_check_and_append).
      destruct (check_and_append_loop_complete w "files" files [] Hall)
        as (fd & ->).
      rewrite requests_make_request. eexists; reflexivity. }
    destruct (Hone files1_name files2_name) as (r & Hr).
    exists r. split; [exact Hr|].
    unfold create_knowledge_graph. cbv zeta.
    rewrite requests_dumps_or_error. apply Hone.
Qed.

Lemma create_knowledge_graph_primary_only_witness :
  exists parts,
    req_files (demo_graph_request []) = Some parts
    /\ Forall2 (fun p part =>
                  exists content,
                    node demo_world p = Some (Regular content)
                    /\ part = ("files", (path_name p, content)))
         demo_files parts
    /\ (forall part, In part parts ->
          fst part <> "files2" /\ fst part <> "concepts").
Proof.
  apply (proj1 (create_knowledge_graph_primary_only demo_world demo_client
                  demo_files None None)).
  left. simpl. left. reflexivity.
Defined.

(** ** C10: the name defaults of the [create_knowledge_graph] tool *)

(** C10: every request the [create_knowledge_graph] tool issues has form
    data; a name the caller omits is sent with the tool's default, [set_1]
    or [set_2], and a form field is missing exactly when the caller passes
    the empty string for it. *)
Theorem create_knowledge_graph_name_defaults
    (w : World) (config : LatentsenseConfig) (files : list string)
    (files2 : option (list string)) (concepts_file : option string)
    (files1_name files2_name : option string) (r : Request) :
  In r (requests (create_knowledge_graph w config files files2 concepts_file
                    files1_name files2_name)) ->
  exists data,
    req_data r = Some data
    /\ (files1_name = None -> dict_get "files1_name" data = Some "set_1")
    /\ (files2_name = None -> dict_get "files2_name" data = Some "set_2")
    /\ (forall s, files1_name = Some s -> s <> EmptyString ->
          dict_get "files1_name" data = Some s)
    /\ (forall s, files2_name = Some s -> s <> EmptyString ->
          dict_get "files2_name" data = Some s)
    /\ (dict_has "files1_name" data = false <-> files1_name = Some EmptyString)
    /\ (dict_has "files2_name" data = false <-> files2_name = Some EmptyString).
Proof.
  unfold create_knowledge_graph. cbv zeta.
  rewrite requests_dumps_or_error. intros Hin.
  apply create_knowledge_graph_requests in Hin as (files_data & ->).
  eexists. split; [reflexivity|]. unfold dict_has. cbv zeta.
  destruct files1_name as [[|c1 s1]|], files2_name as [[|c2 s2]|]; simpl;
    repeat split; intros; try discriminate; try congruence.
Qed.

Lemma create_knowledge_graph_name_defaults_witness :
  exists data,
    req_data (demo_graph_request
                [("files1_name", "set_1"); ("files2_name", "set_2")])
      = Some data
    /\ (@None string = None -> dict_get "files1_name" data = Some "set_1")
    /\ (@None string = None -> dict_get "files2_name" data = Some "set_2")
    /\ (forall s, None = Some s -> s <> EmptyString ->
          dict_get "files1_name" data = Some s)
    /\ (forall s, None = Some s -> s <> EmptyString ->
          dict_get "files2_name" data = Some s)
    /\ (dict_has "files1_name" data = false <-> None = Some EmptyString)
    /\ (dict_has "files2_name" data = false <-> None = Some EmptyString).
Proof.
  apply (create_knowledge_graph_name_defaults demo_world demo_client
           demo_files None None None None).
  simpl. left. reflexivity.
Defined.

(** ** C4: validation in the [get_project_runs] tool *)

Lemma str_in_In (x : string) (l : list string) : str_in x l = true <-> In x l.
Proof.
  unfold str_in. rewrite existsb_exists. split.
  - intros (y & Hy & E). apply String.eqb_eq in E. subst. exact Hy.
  - intros H. exists x. split; [exact H | apply String.eqb_refl].
Qed.

Lemma str_in_not_In (x : string) (l : list string) :
  str_in x l = false <-> ~ In x l.
Proof.
  rewrite <- str_in_In. destruct (str_in x l); split; congruence.
Qed.

(** C4, as stated, fails when both arguments are invalid: the cog-name test
    comes first, and the string returned lists the four cog names and
    neither [time] nor [cost]. *)
Lemma get_project_runs_bad_sort_reports_cog_names :
  ~ In "invalid" ["time"; "cost"]
  /\ exists s,
       outcome (get_project_runs demo_world demo_client (Some "bogus") None
                  None None None (Some "invalid") None) = Ret s
       /\ s = "Error: filter_cog_name must be one of ['deidentification', 'relationships', 'ai_authorship_detection', 'knowledge_graph']"
       /\ String.index 0 "time" s = None
       /\ String.index 0 "cost" s = None.
Proof.
  split.
  - simpl. intros [H|[H|[]]]; discriminate H.
  - eexists. split; [reflexivity|]. split; [reflexivity|].
    split; vm_compute; reflexivity.
Qed.

(** C4, amended: a cog-name filter that is given, not empty and not among
    the four names makes the tool return the message listing the four names;
    otherwise (filter absent, empty or valid) a sort field that is given and
    is neither [time] nor [cost] makes the tool return the message listing
    [time] and [cost]; in both cases nothing is read and no HTTP request is
    issued.  With a valid filter and a valid sort field the tool issues
    exactly one request. *)
Theorem get_project_runs_validation
    (w : World) (config : LatentsenseConfig)
    (cog user key : option string) (page rows : option Z)
    (sort_by : option string) (descending : option bool) :
  let call := get_project_runs w config cog user key page rows sort_by
                descending in
  let cog_rejected :=
    exists s, cog = Some s /\ s <> EmptyString
              /\ ~ In s ["deidentification"; "relationships";
                         "ai_authorship_detection"; "knowledge_graph"] in
  let sort_rejected :=
    exists s, sort_by = Some s /\ ~ In s ["time"; "cost"] in
  (cog_rejected ->
   call = ([], Ret "Error: filter_cog_name must be one of ['deidentification', 'relationships', 'ai_authorship_detection', 'knowledge_graph']"))
  /\ (~ cog_rejected -> sort_rejected ->
      call = ([], Ret "Error: sort_by must be one of ['time', 'cost']"))
  /\ (cog_rejected \/ sort_rejected -> requests call = [])
  /\ (~ cog_rejected -> ~ sort_rejected -> exists r, requests call = [r]).
Proof.
  cbv zeta.
  set (names := ["deidentification"; "relationships";
                 "ai_authorship_detection"; "knowledge_graph"]).
  assert (Hcog : (exists s, cog = Some s /\ s <> EmptyString /\ ~ In s names)
                 <-> opt_str_truthy cog
                     && negb (str_in (default EmptyString cog) valid_cog_names)
                     = true).
  { rewrite andb_true_iff, negb_true_iff, str_in_not_In. split.
    - intros (s & -> & Hne & Hnot). split; [|exact Hnot].
      destruct s; [congruence | reflexivity].
    - intros [Ht Hnot]. destruct cog as [s|]; [|discriminate].
      exists s. repeat split; [|exact Hnot].
      intros ->. discriminate. }
  assert (Hsort : (exists s, sort_by = Some s /\ ~ In s ["time"; "cost"])
                  <-> negb (str_in (default "time" sort_by) valid_sort_by)
                      = true).
  { rewrite negb_true_iff, str_in_not_In. split.
    - intros (s & -> & Hnot). exact Hnot.
    - intros Hnot. destruct sort_by as [s|]; [eauto|].
      exfalso. apply Hnot. simpl. auto. }
  unfold get_project_runs. cbv zeta.
  destruct (opt_str_truthy cog && _) eqn:Ec.
  - split; [reflexivity|]. split.
    { intros Hn. exfalso. apply Hn, Hcog. reflexivity. }
    split; [reflexivity|].
    intros Hn. exfalso. apply Hn, Hcog. reflexivity.
  - destruct (negb (str_in (default "time" sort_by) valid_sort_by)) eqn:Es.
    + split.
      { intros Hrej. apply Hcog in Hrej. discriminate Hrej. }
      split; [reflexivity|]. split; [reflexivity|].
      intros _ Hn. exfalso. apply Hn, Hsort. reflexivity.
    + split.
      { intros Hrej. apply Hcog in Hrej. discriminate Hrej. }
      split.
      { intros _ Hrej. apply Hsort in Hrej. discriminate Hrej. }
      split.
      { intros [Hrej|Hrej]; [apply Hcog in Hrej | apply Hsort in Hrej];
          discriminate Hrej. }
      intros _ _. rewrite requests_dumps_or_error.
      unfold LatentsenseClient.get_project_runs.
      rewrite requests_make_request. eexists; reflexivity.
Qed.

Lemma get_project_runs_validation_witness :
  get_project_runs demo_world demo_client None None None None None
    (Some "invalid") None
  = ([], Ret "Error: sort_by must be one of ['time', 'cost']").
Proof.
  apply (get_project_runs_validation demo_world demo_client None None None
           None None (Some "invalid") None).
  - intros (s & H & _). discriminate H.
  - exists "invalid". split; [reflexivity|].
    simpl. intros [H|[H|[]]]; discriminate H.
Defined.

(** ** C5: the cutoff bound of the [redact_relevance] tool *)







(** ** The loops of [_upload_files] *)

Lemma trace_bind_Forall {A B} (P : Event -> Prop) (m : Py A) (k : A -> Py B) :
  Forall P (trace m) -> (forall a, Forall P (trace (k a))) ->
  Forall P (trace (bind m k)).
Proof.
  intros Hm Hk. rewrite trace_bind. apply Forall_app. split; [exact Hm|].
  destruct (outcome m); [apply Hk | constructor].
Qed.

Lemma trace_for_each_Forall {A S} (P : Event -> Prop) (body : A -> S -> Py S)
    (xs : list A) (s : S) :
  (forall x s', Forall P (trace (body x s'))) ->
  Forall P (trace (for_each xs body s)).
Proof.
  intros Hb. revert s. induction xs as [|x xs IH]; intros s; simpl.
  - constructor.
  - apply trace_bind_Forall; [apply Hb | exact IH].
Qed.

Lemma require_exists_eq w p :
  LatentsenseClient.require_exists w p =
  ([PathExists p],
   if is_present w p then Ret tt else Raise (test_error w p)).
Proof.
  unfold LatentsenseClient.require_exists, path_exists, is_present, test_error,
    bind, ret, raise, missing_error.
  destruct (node w p) as [[content| |ex|ex]|]; reflexivity.
Qed.

Lemma append_part_eq w field p acc :
  LatentsenseClient.append_part w field p acc =
  ([OpenRead p],
   if is_regular w p then Ret (acc ++ [part_of w field p])%list
   else Raise (read_error w p)).
Proof.
  unfold LatentsenseClient.append_part, read_file, is_regular, part_of,
    file_content, read_error, bind, ret.
  destruct (node w p) as [[content| |ex|ex]|]; reflexivity.
Qed.

(** The validation loops: the first path whose test does not answer [True]
    ends the loop, with its name or with the test's own exception. *)
Lemma validation_loop_outcome w (g : string -> bool) (l : list string) :
  outcome (for_each l
             (fun p (_ : unit) =>
                if g p then LatentsenseClient.require_exists w p else ret tt)
             tt) =
  match find (fun p => g p && negb (is_present w p)) l with
  | Some q => Raise (test_error w q)
  | None => Ret tt
  end.
Proof.
  induction l as [|p l IH]; simpl; [reflexivity|].
  rewrite outcome_bind. destruct (g p); simpl.
  - rewrite require_exists_eq. simpl.
    destruct (is_present w p); simpl; [exact IH | reflexivity].
  - exact IH.
Qed.

Lemma validation_loop_trace w (g : string -> bool) (l : list string) :
  Forall (fun e => is_check e = true)
    (trace (for_each l
              (fun p (_ : unit) =>
                 if g p then LatentsenseClient.require_exists w p else ret tt)
              tt)).
Proof.
  apply trace_for_each_Forall. intros p _.
  destruct (g p); [|constructor].
  rewrite require_exists_eq. repeat constructor.
Qed.

(** The read loops, over items [x] with a field name [fld x] and a path
    [pth x]: the first item that is read and is not a regular file ends the
    loop. *)
Lemma read_loop_outcome {A} w (g : A -> bool) (fld pth : A -> string)
    (l : list A) (acc : list file_part) :
  outcome (for_each l
             (fun x files_data =>
                if g x
                then LatentsenseClient.append_part w (fld x) (pth x) files_data
                else ret files_data)
             acc) =
  match find (fun x => g x && negb (is_regular w (pth x))) l with
  | Some x => Raise (read_error w (pth x))
  | None =>
      Ret (acc ++ map (fun x => part_of w (fld x) (pth x)) (filter g l))%list
  end.
Proof.
  revert acc. induction l as [|x l IH]; intros acc; simpl.
  - rewrite app_nil_r. reflexivity.
  - rewrite outcome_bind. destruct (g x); simpl.
    + rewrite append_part_eq. simpl.
      destruct (is_regular w (pth x)); simpl; [|reflexivity].
      rewrite IH. destruct (find _ l); [reflexivity|].
      rewrite <- app_assoc. reflexivity.
    + apply IH.
Qed.

Lemma read_loop_trace {A} w (g : A -> bool) (fld pth : A -> string)
    (l : list A) (acc : list file_part) :
  Forall (fun e => is_read e = true)
    (trace (for_each l
              (fun x files_data =>
                 if g x
                 then LatentsenseClient.append_part w (fld x) (pth x) files_data
                 else ret files_data)
              acc)).
Proof.
  apply trace_for_each_Forall. intros x fd.
  destruct (g x); [|constructor].
  rewrite append_part_eq. repeat constructor.
Qed.

(** The loops of [create_knowledge_graph]: the first path that is not a
    regular file ends the loop. *)
Lemma check_and_append_loop_outcome w field (l : list string) acc :
  outcome (for_each l (LatentsenseClient.check_and_append w field) acc) =
  match find (fun p => negb (is_regular w p)) l with
  | Some q => Raise (check_error w q)
  | None => Ret (acc ++ map (part_of w field) l)%list
  end.
Proof.
  revert acc. induction l as [|p l IH]; intros acc; simpl.
  - rewrite app_nil_r. reflexivity.
  - rewrite outcome_bind, check_and_append_eq.
    assert (is_regular w p = match node w p with
                             | Some (Regular _) => true
                             | _ => false
                             end) as -> by reflexivity.
    destruct (node w p) as [[content| |ex|ex]|] eqn:Hp; simpl;
      try (unfold check_error, read_error; rewrite Hp; reflexivity).
    rewrite IH. destruct (find _ l); [reflexivity|].
    rewrite <- app_assoc. unfold part_of at 2, file_content. rewrite Hp.
    reflexivity.
Qed.

Lemma main_read_loop_outcome w (l : list string) (acc : list file_part) :
  outcome (for_each l (LatentsenseClient.append_part w "files") acc) =
  match find (fun p => negb (is_regular w p)) l with
  | Some q => Raise (read_error w q)
  | None => Ret (acc ++ map (part_of w "files") l)%list
  end.
Proof.
  revert acc. induction l as [|p l IH]; intros acc; simpl.
  - rewrite app_nil_r. reflexivity.
  - rewrite outcome_bind, append_part_eq. simpl.
    destruct (is_regular w p); simpl; [|reflexivity].
    rewrite IH. destruct (find _ l); [reflexivity|].
    rewrite <- app_assoc. reflexivity.
Qed.

Lemma report_bind_quiet {A B} (m : Py A) (k : A -> Py B) :
  requests m = [] ->
  report (bind m k) =
  match outcome m with
  | Ret a => report (k a)
  | Raise e => (Raise e, [])
  end.
Proof.
  intros Hq. unfold report. rewrite outcome_bind, requests_bind, Hq.
  destruct (outcome m); reflexivity.
Qed.

Lemma report_make_request w config endpoint method kwargs :
  report (LatentsenseClient._make_request w config endpoint method kwargs) =
  (let r := mk_request method (base_url config ++ endpoint) kwargs in
   (request_result w r, [r])).
Proof. rewrite make_request_eq. reflexivity. Qed.

Lemma requests_validation_loop w (g : string -> bool) (l : list string) :
  requests (for_each l
              (fun p (_ : unit) =>
                 if g p then LatentsenseClient.require_exists w p else ret tt)
              tt) = [].
Proof.
  apply requests_for_each. intros p _.
  destruct (g p); [apply requests_require_exists | reflexivity].
Qed.

Lemma requests_read_loop {A} w (g : A -> bool) (fld pth : A -> string)
    (l : list A) (acc : list file_part) :
  requests (for_each l
              (fun x files_data =>
                 if g x
                 then LatentsenseClient.append_part w (fld x) (pth x) files_data
                 else ret files_data)
              acc) = [].
Proof.
  apply requests_for_each. intros x fd.
  destruct (g x); [apply requests_append_part | reflexivity].
Qed.

(** [_upload_files], in full: the first path of the two validation loops
    whose test does not answer [True], else the first unreadable file of the
    two read loops, else the request. *)
Lemma upload_files_report w config endpoint files additional_files form_data :
  report (LatentsenseClient._upload_files w config endpoint files
            additional_files form_data) =
  let extra := default [] additional_files in
  match find (fun p => negb (is_present w p)) files with
  | Some q => (Raise (test_error w q), [])
  | None =>
  match find (fun p => str_truthy p && negb (is_present w p))
          (map snd extra) with
  | Some q => (Raise (test_error w q), [])
  | None =>
  match find (fun p => negb (is_regular w p)) files with
  | Some q => (Raise (read_error w q), [])
  | None =>
  match find (fun item => str_truthy (snd item)
                          && negb (is_regular w (snd item))) extra with
  | Some item => (Raise (read_error w (snd item)), [])
  | None =>
      let r := upload_request w config endpoint files extra form_data in
      (request_result w r, [r])
  end end end end.
Proof.
  unfold LatentsenseClient._upload_files. cbv zeta.
  (* the two optional loops run over the empty list when skipped *)
  assert (Hv : (if opt_list_truthy additional_files
                then for_each (map snd (default [] additional_files))
                       (fun p (_ : unit) =>
                          if str_truthy p
                          then LatentsenseClient.require_exists w p
                          else ret tt) tt
                else ret tt)
               = for_each (map snd (default [] additional_files))
                   (fun p (_ : unit) =>
                      if str_truthy p
                      then LatentsenseClient.require_exists w p
                      else ret tt) tt)
    by (destruct additional_files as [[|item items]|]; reflexivity).
  rewrite Hv. clear Hv.
  rewrite report_bind_quiet
    by exact (requests_validation_loop w (fun _ => true) files).
  rewrite (validation_loop_outcome w (fun _ => true) files : outcome _ = _).
  cbn [andb].
  destruct (find (fun p => negb (is_present w p)) files); [reflexivity|].
  rewrite report_bind_quiet by apply requests_validation_loop.
  rewrite validation_loop_outcome.
  destruct (find _ (map snd (default [] additional_files))); [reflexivity|].
  rewrite report_bind_quiet
    by (apply requests_for_each; intros; apply requests_append_part).
  rewrite main_read_loop_outcome.
  destruct (find (fun p => negb (is_regular w p)) files); [reflexivity|].
  cbn [app].
  set (main := map (part_of w "files") files).
  assert (Hr : (if opt_list_truthy additional_files
                then for_each (default [] additional_files)
                       (fun item fd =>
                          if str_truthy (snd item)
                          then LatentsenseClient.append_part w (fst item)
                                 (snd item) fd
                          else ret fd) main
                else ret main)
               = for_each (default [] additional_files)
                   (fun item fd =>
                      if str_truthy (snd item)
                      then LatentsenseClient.append_part w (fst item)
                             (snd item) fd
                      else ret fd) main)
    by (destruct additional_files as [[|item items]|]; reflexivity).
  rewrite Hr. clear Hr.
  rewrite report_bind_quiet
    by exact (requests_read_loop w (fun item => str_truthy (snd item)) fst snd
                (default [] additional_files) main).
  rewrite (read_loop_outcome w (fun item => str_truthy (snd item)) fst snd
             (default [] additional_files) main).
  destruct (find _ (default [] additional_files)); [reflexivity|].
  rewrite report_make_request. reflexivity.
Qed.

(** [create_knowledge_graph], in full: the first file of the two sets that
    is not a regular file ends the call; the test of a concepts path that is
    given may raise; the concepts file is read when it is given and exists,
    and skipped otherwise; then the request. *)
Lemma create_knowledge_graph_report w config files files2 concepts n1 n2 :
  report (LatentsenseClient.create_knowledge_graph w config files files2
            concepts n1 n2) =
  let second := default [] files2 in
  let concepts_path := default EmptyString concepts in
  let sets := (map (part_of w "files") files
               ++ map (part_of w "files2") second)%list in
  match find (fun p => negb (is_regular w p)) files with
  | Some q => (Raise (check_error w q), [])
  | None =>
  match find (fun p => negb (is_regular w p)) second with
  | Some q => (Raise (check_error w q), [])
  | None =>
  match (if opt_str_truthy concepts then test_raises w concepts_path
         else None) with
  | Some e => (Raise e, [])
  | None =>
      if opt_str_truthy concepts && is_present w concepts_path
      then
        if is_regular w concepts_path
        then
          let r := graph_request w config
                     (sets ++ [part_of w "concepts" concepts_path]) n1 n2 in
          (request_result w r, [r])
        else (Raise (read_error w concepts_path), [])
      else
        let r := graph_request w config sets n1 n2 in
        (request_result w r, [r])
  end end end.
Proof.
  unfold LatentsenseClient.create_knowledge_graph. cbv zeta.
  rewrite report_bind_quiet
    by (apply requests_for_each; intros; apply requests_check_and_append).
  rewrite check_and_append_loop_outcome.
  destruct (find (fun p => negb (is_regular w p)) files); [reflexivity|].
  cbn [app].
  set (main := map (part_of w "files") files).
  assert (H2 : (if opt_list_truthy files2
                then for_each (default [] files2)
                       (LatentsenseClient.check_and_append w "files2") main
                else ret main)
               = for_each (default [] files2)
                   (LatentsenseClient.check_and_append w "files2") main)
    by (destruct files2 as [[|p l]|]; reflexivity).
  rewrite H2. clear H2.
  rewrite report_bind_quiet
    by (apply requests_for_each; intros; apply requests_check_and_append).
  rewrite check_and_append_loop_outcome.
  destruct (find _ (default [] files2)); [reflexivity|].
  set (sets := (main ++ map (part_of w "files2") (default [] files2))%list).
  destruct (opt_str_truthy concepts) eqn:Hc; cbn [andb].
  - rewrite report_bind_quiet.
    2:{ rewrite requests_bind. simpl.
        destruct (node w _) as [[c| |ex|ex]|]; simpl;
        try apply requests_append_part; reflexivity. }
    rewrite outcome_bind. unfold path_exists at 1. cbn [outcome snd].
    assert (Hpres : is_present w (default EmptyString concepts)
                    = match node w (default EmptyString concepts) with
                      | Some (Untestable _) | None => false
                      | Some _ => true
                      end) by reflexivity.
    assert (Hrs : test_raises w (default EmptyString concepts)
                  = match node w (default EmptyString concepts) with
                    | Some (Untestable e) => Some e
                    | _ => None
                    end) by reflexivity.
    assert (Hreg : is_regular w (default EmptyString concepts)
                   = match node w (default EmptyString concepts) with
                     | Some (Regular _) => true
                     | _ => false
                     end) by reflexivity.
    rewrite Hrs, Hpres.
    destruct (node w (default EmptyString concepts)) as [[c| |ex|ex]|];
      try reflexivity;
      try (cbn [outcome snd ret]; rewrite report_make_request; reflexivity);
      rewrite append_part_eq; cbn [outcome snd]; rewrite Hreg;
      try reflexivity.
    rewrite report_make_request. reflexivity.
  - rewrite report_bind_quiet by reflexivity. cbn [outcome snd ret].
    rewrite report_make_request. reflexivity.
Qed.

(** ** How a client operation can end *)

Lemma is_present_false w p :
  is_present w p = false -> local_failure w p (test_error w p).
Proof.
  unfold is_present, test_error.
  destruct (node w p) as [[content| |ex|ex]|] eqn:Hp; try discriminate;
    intros _; [apply test_raised | apply file_missing]; exact Hp.
Qed.

Lemma read_error_present w p :
  is_present w p = true -> is_regular w p = false ->
  local_failure w p (read_error w p).
Proof.
  unfold is_present, is_regular, read_error.
  destruct (node w p) as [[content| |ex|ex]|] eqn:Hp; try discriminate;
    intros _ _; [apply is_directory | apply open_raised]; exact Hp.
Qed.

Lemma check_error_cases w p :
  is_regular w p = false -> local_failure w p (check_error w p).
Proof.
  unfold is_regular, check_error, read_error.
  destruct (node w p) as [[content| |ex|ex]|] eqn:Hp; try discriminate;
    intros _;
    [apply is_directory | apply test_raised | apply open_raised
    | apply file_missing]; exact Hp.
Qed.

Lemma upload_files_ends w config endpoint files additional_files form_data :
  client_ending w
    (LatentsenseClient._upload_files w config endpoint files additional_files
       form_data).
Proof.
  unfold client_ending. rewrite upload_files_report. cbv zeta.
  destruct (find (fun p => negb (is_present w p)) files) as [q|] eqn:F1.
  { apply find_some in F1 as [_ Hq]. apply negb_true_iff in Hq.
    right. exists q, (test_error w q).
    split; [reflexivity | apply is_present_false, Hq]. }
  destruct (find _ (map snd (default [] additional_files))) as [q|] eqn:F2.
  { apply find_some in F2 as [_ Hq]. apply andb_true_iff in Hq as [_ Hq].
    apply negb_true_iff in Hq.
    right. exists q, (test_error w q).
    split; [reflexivity | apply is_present_false, Hq]. }
  destruct (find (fun p => negb (is_regular w p)) files) as [q|] eqn:F3.
  { apply find_some in F3 as [Hin Hq]. apply negb_true_iff in Hq.
    pose proof (find_none _ _ F1 q Hin) as Hp. cbv beta in Hp.
    apply negb_false_iff in Hp.
    right. exists q, (read_error w q).
    split; [reflexivity | exact (read_error_present w q Hp Hq)]. }
  destruct (find _ (default [] additional_files)) as [item|] eqn:F4.
  { apply find_some in F4 as [Hin Hq]. apply andb_true_iff in Hq as [Ht Hq].
    apply negb_true_iff in Hq.
    pose proof (find_none _ _ F2 (snd item) (in_map snd _ _ Hin)) as Hp.
    cbv beta in Hp. rewrite Ht in Hp. cbn [andb] in Hp.
    apply negb_false_iff in Hp.
    right. exists (snd item), (read_error w (snd item)).
    split; [reflexivity | exact (read_error_present w _ Hp Hq)]. }
  left. eexists. reflexivity.
Qed.

Lemma test_raises_failure w p e :
  test_raises w p = Some e -> local_failure w p e.
Proof.
  unfold test_raises.
  destruct (node w p) as [[content| |ex|ex]|] eqn:Hp; try discriminate.
  intros [= <-]. apply test_raised, Hp.
Qed.

Lemma create_knowledge_graph_ends w config files files2 concepts n1 n2 :
  client_ending w
    (LatentsenseClient.create_knowledge_graph w config files files2 concepts
       n1 n2).
Proof.
  unfold client_ending. rewrite create_knowledge_graph_report. cbv zeta.
  destruct (find (fun p => negb (is_regular w p)) files) as [q|] eqn:F1.
  { apply find_some in F1 as [_ Hq]. apply negb_true_iff in Hq.
    right. exists q, (check_error w q).
    split; [reflexivity | exact (check_error_cases w q Hq)]. }
  destruct (find _ (default [] files2)) as [q|] eqn:F2.
  { apply find_some in F2 as [_ Hq]. apply negb_true_iff in Hq.
    right. exists q, (check_error w q).
    split; [reflexivity | exact (check_error_cases w q Hq)]. }
  destruct (if opt_str_truthy concepts then _ else None) as [e|] eqn:Ht.
  { destruct (opt_str_truthy concepts); [|discriminate].
    right. exists (default EmptyString concepts), e.
    split; [reflexivity | exact (test_raises_failure w _ e Ht)]. }
  destruct (opt_str_truthy concepts && is_present w _) eqn:Hc.
  - apply andb_true_iff in Hc as [_ Hp].
    destruct (is_regular w _) eqn:Hr.
    + left. eexists. reflexivity.
    + right. exists (default EmptyString concepts),
        (read_error w (default EmptyString concepts)).
      split; [reflexivity | exact (read_error_present w _ Hp Hr)].
  - left. eexists. reflexivity.
Qed.

Lemma perform_ends w config (c : Call) :
  client_ending w (perform w config c).
Proof.
  destruct c; simpl.
  - left. unfold LatentsenseClient.get_project_runs.
    rewrite report_make_request. eexists; reflexivity.
  - left. unfold LatentsenseClient.get_run_results.
    rewrite report_make_request. eexists; reflexivity.
  - apply upload_files_ends.
  - apply upload_files_ends.
  - apply upload_files_ends.
  - apply create_knowledge_graph_ends.
  - left. unfold LatentsenseClient.get_rex_message.
    rewrite report_make_request. eexists; reflexivity.
  - left. unfold LatentsenseClient.send_rex_message.
    destruct (opt_list_truthy graph); rewrite report_make_request;
      eexists; reflexivity.
Qed.

Lemma report_inv {A} (m : Py A) (o : result A) (rs : list Request) :
  report m = (o, rs) -> outcome m = o /\ requests m = rs.
Proof. unfold report. intros H. injection H. auto. Qed.

(** ** C6: the error kinds of the client *)

(** A request that fails fails with what the [try] block met, wrapped when
    it is an [httpx.HTTPError]. *)
Lemma request_result_raise w r e :
  request_result w r = Raise e ->
  exists cause, try_block_raises w r cause /\ e = wrapped cause.
Proof.
  unfold request_result, try_block_raises, client_request, raise_for_status,
    response_json, raise, ret.
  destruct (send w r) as [msg|e0|resp]; cbn [outcome snd].
  - intros [= <-]. exists (mk_exn HTTPError msg). split; [|reflexivity].
    left. reflexivity.
  - intros [= <-]. exists e0. split; [|reflexivity]. left. reflexivity.
  - destruct (is_success resp) eqn:Hs.
    + destruct (body resp) as [j|e0] eqn:Hb; [discriminate|].
      intros [= <-]. exists e0. split; [|reflexivity].
      right. exists resp. split; [reflexivity|]. right.
      rewrite Hs, Hb. split; reflexivity.
    + intros [= <-]. exists (mk_exn HTTPError (status_error resp)).
      split; [|reflexivity].
      right. exists resp. split; [reflexivity|]. left.
      rewrite Hs. reflexivity.
Qed.

(** C6, as stated, fails on a primary file that exists and is a directory:
    the existence test passes, opening it raises [IsADirectoryError], and the
    client lets it through; it is neither a "file not found" nor a "request
    failed" error. *)
Lemma redact_pii_directory_raises_third_kind :
  node demo_world "/data" = Some Directory
  /\ exists e,
       outcome (perform demo_world demo_client (RedactPii ["/data"])) = Raise e
       /\ exc_cls e = IsADirectoryError
       /\ exc_cls e <> FileNotFoundError
       /\ exc_cls e <> Exception
       /\ exc_str e = "[Errno 21] Is a directory: '/data'".
Proof.
  split; [reflexivity|]. eexists. split; [reflexivity|].
  repeat split; discriminate.
Qed.

(** C6, amended: every client operation issues at most one request.  When it
    issues one, a transport error or a response outside 200..299 makes it
    fail with an [Exception] whose message is [API request failed: ] followed
    by the underlying message, and a 2xx response whose body parses makes it
    return the parsed body.  The client raises two kinds of error of its own:
    "file not found" for a declared path whose existence test answers
    [False], before any request, and "request failed" for an
    [httpx.HTTPError] met in the [try] block of [_make_request].  Every
    other exception it ends with is one of a library call, passed on
    unchanged: of [Path.exists()] or of [open], before any request, or, not
    being an [httpx.HTTPError], of [client.request] or [response.json()]. *)
Theorem client_error_kinds
    (w : World) (config : LatentsenseConfig) (c : Call) :
  let m := perform w config c in
  (forall r, In r (requests m) ->
     requests m = [r]
     /\ outcome m =
        match send w r with
        | TransportError msg =>
            Raise (mk_exn Exception ("API request failed: " ++ msg))
        | RequestRaises e =>
            if is_HTTPError e
            then Raise (mk_exn Exception ("API request failed: " ++ exc_str e))
            else Raise e
        | Respond resp =>
            if ((200 <=? status_code resp) && (status_code resp <=? 299))%Z
            then match body resp with
                 | inl j => Ret j
                 | inr e =>
                     if is_HTTPError e
                     then Raise (mk_exn Exception
                                   ("API request failed: " ++ exc_str e))
                     else Raise e
                 end
            else Raise (mk_exn Exception
                          ("API request failed: " ++ status_error resp))
        end)
  /\ (forall e, outcome m = Raise e ->
        (requests m = []
         /\ exists p,
              outcome (path_exists w p) = Ret false
              /\ e = mk_exn FileNotFoundError ("File not found: " ++ p))
        \/ (exists r cause,
              requests m = [r]
              /\ try_block_raises w r cause
              /\ is_HTTPError cause = true
              /\ e = mk_exn Exception
                       ("API request failed: " ++ exc_str cause))
        \/ (requests m = []
            /\ exists p, outcome (path_exists w p) = Raise e)
        \/ (requests m = []
            /\ exists p,
                 outcome (path_exists w p) = Ret true
                 /\ outcome (read_file w p) = Raise e)
        \/ (exists r,
              requests m = [r]
              /\ try_block_raises w r e
              /\ is_HTTPError e = false)).
Proof.
  cbv zeta. pose proof (perform_ends w config c) as Hends.
  destruct Hends as [(r0 & H)|(p & e0 & H & Hp)];
    apply report_inv in H as [Ho Hr]; rewrite Ho, Hr.
  - split.
    + intros r [<-|[]]. split; [reflexivity|].
      unfold request_result, wrapped.
      destruct (send w r0) as [msg|e|resp]; [reflexivity| |].
      * destruct (is_HTTPError e); reflexivity.
      * fold (is_success resp). destruct (is_success resp); [|reflexivity].
        destruct (body resp) as [j|e]; [reflexivity|].
        destruct (is_HTTPError e); reflexivity.
    + intros e He.
      destruct (request_result_raise w r0 e He) as (cause & Hc & ->).
      unfold wrapped. destruct (is_HTTPError cause) eqn:Hh.
      * right; left. exists r0, cause. auto.
      * right; right; right; right. exists r0. auto.
  - split; [intros r []|].
    intros e [= <-].
    destruct Hp as [Hp|e0 Hp|Hp|e0 Hp].
    + left. split; [reflexivity|]. exists p. split; [|reflexivity].
      unfold path_exists. rewrite Hp. reflexivity.
    + right; right; left. split; [reflexivity|]. exists p.
      unfold path_exists. rewrite Hp. reflexivity.
    + right; right; right; left. split; [reflexivity|]. exists p.
      unfold path_exists, read_file. rewrite Hp. split; reflexivity.
    + right; right; right; left. split; [reflexivity|]. exists p.
      unfold path_exists, read_file. rewrite Hp. split; reflexivity.
Qed.

Lemma client_error_kinds_witness :
  requests (perform demo_world demo_client (GetRunResults "run-1"))
  = [mk_request "GET"
       "https://controller.latentsense.com/api/runs/run-1/results"
       (mk_kwargs None None None None)]
  /\ outcome (perform demo_world demo_client (GetRunResults "run-1"))
     = Ret demo_payload.
Proof.
  apply (proj1 (client_error_kinds demo_world demo_client
                  (GetRunResults "run-1"))).
  simpl. left. reflexivity.
Defined.

(** ** C1: every tool returns a string *)

Lemma error_prefix (msg : string) : String.prefix "Error: " ("Error: " ++ msg) = true.
Proof. apply String.prefix_correct. simpl. destruct msg; reflexivity. Qed.

(** A tool either rejects its arguments with a message, doing nothing, or
    runs a client operation on the same files inside its [try] block. *)
Lemma invoke_cases w config (c : Call) :
  (exists msg,
     invoke w config c = ([], Ret ("Error: " ++ msg))
     /\ (checked_paths c = [] \/ cutoff_in_range c = false))
  \/ (exists c',
        invoke w config c = dumps_or_error w (perform w config c')
        /\ checked_paths c' = checked_paths c
        /\ uses_helper c' = uses_helper c
        /\ cutoff_in_range c = true).
Proof.
  destruct c as [cog user key page rows sort_by desc|run_id|files
                |files term cutoff|files concepts
                |files files2 concepts n1 n2|run_id|message run_id graph];
    simpl.
  - unfold get_project_runs. cbv zeta.
    destruct (opt_str_truthy cog && _).
    + left. exists ("filter_cog_name must be one of "
                    ++ list_repr valid_cog_names). auto.
    + destruct (negb _).
      * left. exists ("sort_by must be one of " ++ list_repr valid_sort_by).
        auto.
      * right.
        exists (GetProjectRuns cog user key (Some (default 1%Z page))
                  (Some (default 50%Z rows)) (Some (default "time" sort_by))
                  (Some (default true desc))).
        auto.
  - right. exists (GetRunResults run_id). auto.
  - right. exists (RedactPii files). auto.
  - unfold redact_relevance.
    destruct (SFleb float_zero cutoff && SFleb cutoff float_one); cbn [negb].
    + right. exists (RedactRelevance files term cutoff). auto.
    + left. exists "cutoff must be a number between 0 and 1". auto.
  - right. exists (ExtractRelationships files concepts). auto.
  - right.
    exists (CreateKnowledgeGraph files files2 concepts
              (Some (default "set_1" n1)) (Some (default "set_2" n2))).
    auto.
  - right. exists (GetRexMessage run_id). auto.
  - right. exists (SendRexMessage message run_id graph). auto.
Qed.

(** What a tool does, in terms of the client call it forwards. *)
Lemma invoke_forwarded w client (c : Call) :
  if tool_rejects c
  then exists msg, invoke w client c = ([], Ret ("Error: " ++ msg))
  else invoke w client c = dumps_or_error w (perform w client (forwarded c)).
Proof.
  destruct c as [cog user key page rows sort_by desc|run_id|files
                |files term cutoff|files concepts
                |files files2 concepts n1 n2|run_id|message run_id graph];
    cbn [tool_rejects forwarded invoke]; try reflexivity.
  - unfold get_project_runs. cbv zeta.
    destruct (opt_str_truthy cog && _); cbn [orb].
    + eexists. reflexivity.
    + destruct (negb _); [eexists|]; reflexivity.
  - unfold redact_relevance.
    destruct (negb _); [exists "cutoff must be a number between 0 and 1"|];
      reflexivity.
Qed.

(** C1: every invocation of one of the eight tools returns a string and
    raises nothing, whatever the arguments, the filesystem and the vendor's
    reply.  A tool that rejects its arguments does nothing else and returns
    a string that starts with [Error: ].  Any other invocation runs the
    client call with the tool's arguments, and nothing more: when that call
    returns a payload the string is [json.dumps] of the payload with indent
    2, and when it raises the string is [Error: ] followed by the message of
    the exception.  At most one request is issued: when it is answered with
    a 2xx response whose body parses, the string is [json.dumps] of the
    parsed body; in every other case (rejected arguments, a failure on a
    file, an exception of [client.request], a non-2xx response, a body that
    does not parse) it starts with [Error: ]. *)
Theorem tool_returns_string
    (w : World) (client : LatentsenseConfig) (c : Call) :
  exists s,
    outcome (invoke w client c) = Ret s
    /\ (if tool_rejects c
        then trace (invoke w client c) = []
             /\ String.prefix "Error: " s = true
        else trace (invoke w client c)
             = trace (perform w client (forwarded c))
             /\ match outcome (perform w client (forwarded c)) with
                | Ret payload => s = Json.dumps (float_repr w) payload
                | Raise e =>
                    s = "Error: " ++ exc_str e
                    /\ String.prefix "Error: " s = true
                end)
    /\ match requests (invoke w client c) with
       | [] => String.prefix "Error: " s = true
       | [r] =>
           match send w r with
           | TransportError _ | RequestRaises _ =>
               String.prefix "Error: " s = true
           | Respond resp =>
               if ((200 <=? status_code resp) && (status_code resp <=? 299))%Z
               then match body resp with
                    | inl payload => s = Json.dumps (float_repr w) payload
                    | inr _ => String.prefix "Error: " s = true
                    end
               else String.prefix "Error: " s = true
           end
       | _ :: _ :: _ => False
       end.
Proof.
  pose proof (invoke_forwarded w client c) as Hf.
  destruct (tool_rejects c).
  - destruct Hf as (msg & ->). eexists. split; [reflexivity|].
    split; [split; [reflexivity | apply error_prefix] | apply error_prefix].
  - rewrite Hf, requests_dumps_or_error, dumps_or_error_eq.
    cbn [outcome trace fst snd].
    eexists. split; [reflexivity|]. split.
    + split; [reflexivity|].
      destruct (outcome (perform w client (forwarded c))) as [j|e];
        [reflexivity | split; [reflexivity | apply error_prefix]].
    + destruct (perform_ends w client (forwarded c))
        as [(r & H)|(p & e & H & _)];
        apply report_inv in H as [-> ->]; try apply error_prefix.
      unfold request_result. destruct (send w r) as [msg|e|resp].
      * apply error_prefix.
      * apply error_prefix.
      * fold (is_success resp). destruct (is_success resp).
        -- destruct (body resp) as [j|e]; [reflexivity | apply error_prefix].
        -- apply error_prefix.
Qed.

(** ** C2: a missing file *)

Lemma find_first {A} (f : A -> bool) (pre : list A) (x : A) (post : list A) :
  (forall y, In y pre -> f y = false) -> f x = true ->
  find f (pre ++ x :: post) = Some x.
Proof.
  intros Hpre Hx. induction pre as [|y pre IH]; simpl.
  - rewrite Hx. reflexivity.
  - rewrite (Hpre y) by (left; reflexivity). apply IH.
    intros z Hz. apply Hpre. right. exact Hz.
Qed.

Lemma find_exists {A} (f : A -> bool) (l : list A) (x : A) :
  In x l -> f x = true -> exists y, find f l = Some y.
Proof.
  intros Hin Hx. destruct (find f l) as [y|] eqn:E; [eauto|].
  rewrite (find_none _ _ E x Hin) in Hx. discriminate.
Qed.

Lemma find_app_match {A B} (f : A -> bool) (l1 l2 : list A)
    (some : A -> B) (none : B) :
  match find f l1 with
  | Some q => some q
  | None => match find f l2 with Some q => some q | None => none end
  end =
  match find f (l1 ++ l2) with Some q => some q | None => none end.
Proof.
  induction l1 as [|x l1 IH]; simpl; [reflexivity|].
  destruct (f x); [reflexivity | exact IH].
Qed.

(** An operation through [_upload_files] ends on the first tested path whose
    test does not answer [True]. *)
Lemma helper_first_missing w config (c : Call) (q : string) :
  uses_helper c = true ->
  find (fun p => negb (is_present w p)) (checked_paths c) = Some q ->
  report (perform w config c) = (Raise (test_error w q), []).
Proof.
  assert (Hextra : forall field path : string,
            find (fun p => str_truthy p && negb (is_present w p))
              (map snd [(field, path)])
            = find (fun p => negb (is_present w p))
                (if str_truthy path then [path] else [])).
  { intros field path. simpl. destruct (str_truthy path); reflexivity. }
  destruct c; try discriminate; intros _ Hfind; simpl in Hfind |- *.
  - unfold LatentsenseClient.redact_pii. rewrite upload_files_report.
    cbv zeta. rewrite Hfind. reflexivity.
  - unfold LatentsenseClient.redact_relevance. rewrite upload_files_report.
    cbv zeta. cbn [default]. rewrite Hextra, find_app_match, Hfind.
    reflexivity.
  - unfold LatentsenseClient.extract_relationships.
    rewrite upload_files_report.
    cbv zeta. cbn [default]. rewrite Hextra, find_app_match, Hfind.
    reflexivity.
Qed.

(** [create_knowledge_graph] ends on the first file of its two sets that is
    not a regular file. *)
Lemma graph_first_failure w config (c : Call) (q : string) :
  uses_helper c = false ->
  find (fun p => negb (is_regular w p)) (checked_paths c) = Some q ->
  report (perform w config c) = (Raise (check_error w q), []).
Proof.
  destruct c; try discriminate; intros _ Hfind; simpl in Hfind |- *;
    try discriminate.
  rewrite create_knowledge_graph_report. cbv zeta.
  rewrite find_app_match, Hfind. reflexivity.
Qed.

Lemma missing_not_regular w p : node w p = None -> is_regular w p = false.
Proof. unfold is_regular. intros ->. reflexivity. Qed.

Lemma missing_not_present w p : node w p = None -> is_present w p = false.
Proof. unfold is_present. intros ->. reflexivity. Qed.

Lemma absent_not_regular w p : is_present w p = false -> is_regular w p = false.
Proof.
  unfold is_present, is_regular.
  destruct (node w p) as [[content| |ex|ex]|]; congruence.
Qed.

Lemma regular_is_present w p : is_regular w p = true -> is_present w p = true.
Proof. unfold is_regular, is_present. destruct (node w p) as [[content| |ex|ex]|]; congruence. Qed.

Lemma check_error_absent w p :
  is_present w p = false -> check_error w p = test_error w p.
Proof.
  unfold is_present, check_error, read_error, test_error.
  destruct (node w p) as [[content| |ex|ex]|]; congruence.
Qed.

(** The existence test, by its three answers. *)
Lemma path_exists_true w p :
  outcome (path_exists w p) = Ret true <-> is_present w p = true.
Proof.
  unfold path_exists, is_present. cbn [outcome snd].
  destruct (node w p) as [[content| |ex|ex]|]; split; congruence.
Qed.

Lemma path_exists_false w p :
  outcome (path_exists w p) = Ret false <-> node w p = None.
Proof.
  unfold path_exists. cbn [outcome snd].
  destruct (node w p) as [[content| |ex|ex]|]; split; congruence.
Qed.

Lemma path_exists_raise w p e :
  outcome (path_exists w p) = Raise e <-> node w p = Some (Untestable e).
Proof.
  unfold path_exists. cbn [outcome snd].
  destruct (node w p) as [[content| |ex|ex]|]; split; congruence.
Qed.

Lemma path_exists_not_true w p :
  outcome (path_exists w p) <> Ret true -> is_present w p = false.
Proof.
  intros H. destruct (is_present w p) eqn:E; [|reflexivity].
  contradiction H. apply path_exists_true, E.
Qed.

(** A tested path whose test does not answer [True] stops any operation
    before the request. *)
Lemma perform_missing_quiet w config (c : Call) (p : string) :
  In p (checked_paths c) -> is_present w p = false ->
  exists e, report (perform w config c) = (Raise e, []).
Proof.
  intros Hin Hp. destruct (uses_helper c) eqn:Hh.
  - destruct (find_exists (fun q => negb (is_present w q)) _ p Hin) as (q & Hq).
    { rewrite Hp. reflexivity. }
    eexists. apply helper_first_missing; eassumption.
  - destruct (find_exists (fun q => negb (is_regular w q)) _ p Hin) as (q & Hq).
    { rewrite (absent_not_regular w p Hp). reflexivity. }
    eexists. apply graph_first_failure; eassumption.
Qed.

(** C2, as stated, fails on the concepts file: [create_knowledge_graph]
    tests it and, when it is missing, goes on without it; the request is
    issued and the tool returns the vendor's payload. *)
Lemma create_knowledge_graph_skips_missing_concepts :
  node demo_world "/data/nope" = None
  /\ outcome (invoke demo_world demo_client
                (CreateKnowledgeGraph ["/data/a.txt"] None
                   (Some "/data/nope") None None))
     <> Ret "Error: File not found: /data/nope"
  /\ exists r,
       requests (invoke demo_world demo_client
                   (CreateKnowledgeGraph ["/data/a.txt"] None
                      (Some "/data/nope") None None)) = [r]
       /\ req_files r = Some [("files", ("a.txt", "alpha"))].
Proof.
  split; [reflexivity|]. split.
  - intros H. vm_compute in H. discriminate H.
  - eexists. split; reflexivity.
Qed.

(** C2, amended: when the existence test of a path of the primary set, of a
    named additional file with a non-empty path, or of a path of the second
    set does not answer [True], the upload tool issues no HTTP request and
    returns a string starting with [Error: ].  For the first such path in
    the order of testing, given that the tests before it answer [True] (for
    [create_knowledge_graph], that the paths before it are regular files,
    since it reads each file before testing the next) and, for
    [redact_relevance], that the cutoff is within [0, 1], the string is
    [Error: File not found: <path>] when the test answers [False], and
    [Error: ] followed by the message of the test's exception when the test
    raises.  The concepts file is left out: a concepts path that does not
    exist is skipped. *)
Theorem missing_file_reported
    (w : World) (client : LatentsenseConfig) (c : Call) (p : string) :
  In p (checked_paths c) ->
  outcome (path_exists w p) <> Ret true ->
  requests (invoke w client c) = []
  /\ (exists s, outcome (invoke w client c) = Ret s
                /\ String.prefix "Error: " s = true)
  /\ (forall pre post,
        checked_paths c = (pre ++ p :: post)%list ->
        (forall q, In q pre -> outcome (path_exists w q) = Ret true) ->
        (uses_helper c = false ->
         forall q, In q pre -> exists content, node w q = Some (Regular content)) ->
        cutoff_in_range c = true ->
        (outcome (path_exists w p) = Ret false ->
         outcome (invoke w client c) = Ret ("Error: File not found: " ++ p))
        /\ (forall e,
              outcome (path_exists w p) = Raise e ->
              outcome (invoke w client c) = Ret ("Error: " ++ exc_str e))).
Proof.
  intros Hin Hp. apply path_exists_not_true in Hp.
  destruct (invoke_cases w client c)
    as [(msg & -> & Hrej)|(c' & -> & Hpaths & Hhelper & Hcut)].
  - destruct Hrej as [Hnil|Hcut]; [rewrite Hnil in Hin; contradiction|].
    split; [reflexivity|]. split.
    + eexists. split; [reflexivity | apply error_prefix].
    + intros pre post _ _ _ Hcut'. congruence.
  - rewrite <- Hpaths in Hin.
    destruct (perform_missing_quiet w client c' p Hin Hp) as (e & He).
    rewrite requests_dumps_or_error, dumps_or_error_eq. cbn [outcome snd].
    pose proof (report_inv _ _ _ He) as [Ho Hr]. rewrite Ho, Hr.
    split; [reflexivity|]. split.
    + eexists. split; [reflexivity | apply error_prefix].
    + intros pre post Hsplit Hexist Hregular _.
      rewrite <- Hpaths in Hsplit. rewrite <- Hhelper in Hregular.
      assert (Hrep : report (perform w client c')
                     = (Raise (test_error w p), [])).
      { destruct (uses_helper c') eqn:Hh.
        - apply helper_first_missing; [exact Hh|]. rewrite Hsplit.
          apply find_first.
          + intros q Hq. apply negb_false_iff, path_exists_true, Hexist, Hq.
          + rewrite Hp. reflexivity.
        - rewrite <- (check_error_absent w p Hp).
          apply graph_first_failure; [exact Hh|].
          rewrite Hsplit. apply find_first.
          + intros q Hq. destruct (Hregular eq_refl q Hq) as (content & Hc').
            unfold is_regular. rewrite Hc'. reflexivity.
          + rewrite (absent_not_regular w p Hp). reflexivity. }
      rewrite Hrep in He. injection He as <-. split.
      * intros Hf. apply path_exists_false in Hf.
        unfold test_error. rewrite Hf. reflexivity.
      * intros e Hf. apply path_exists_raise in Hf.
        unfold test_error. rewrite Hf. reflexivity.
Qed.

Lemma missing_file_reported_witness :
  requests (invoke demo_world demo_client
              (RedactRelevance ["/data/a.txt"] "/data/nope" float_half)) = []
  /\ outcome (invoke demo_world demo_client
                (RedactRelevance ["/data/a.txt"] "/data/nope" float_half))
     = Ret "Error: File not found: /data/nope".
Proof.
  destruct (missing_file_reported demo_world demo_client
              (RedactRelevance ["/data/a.txt"] "/data/nope" float_half)
              "/data/nope") as (Hq & _ & Hfirst).
  - simpl. right. left. reflexivity.
  - discriminate.
  - split; [exact Hq|].
    apply (Hfirst ["/data/a.txt"] []).
    + reflexivity.
    + intros q [<-|[]]. reflexivity.
    + intros H. discriminate H.
    + reflexivity.
    + reflexivity.
Defined.

(** ** The phases of an upload *)

Section Phases.
Variable phase : Event -> nat.
Variables check_ph read_ph send_ph : nat.
Hypothesis phase_check : forall p, phase (PathExists p) = check_ph.
Hypothesis phase_read : forall p, phase (OpenRead p) = read_ph.
Hypothesis phase_send : forall r, phase (HttpRequest r) = send_ph.
Hypothesis check_le_read : check_ph <= read_ph.
Hypothesis read_le_send : read_ph <= send_ph.

Lemma sorted_between_app lo mid hi t1 t2 :
  lo <= mid -> mid <= hi ->
  sorted_between phase lo mid t1 -> sorted_between phase mid hi t2 ->
  sorted_between phase lo hi (t1 ++ t2).
Proof.
  intros Hlo Hhi [Hs1 Hb1] [Hs2 Hb2]. split.
  - induction t1 as [|e t1 IH]; [exact Hs2|].
    inversion Hb1 as [|? ? He Hb1']; subst.
    destruct t1 as [|e' t1].
    + simpl. destruct t2 as [|e2 t2]; [reflexivity|].
      inversion Hb2 as [|? ? He2 _]; subst.
      apply andb_true_iff. split; [apply Nat.leb_le; lia | exact Hs2].
    + simpl in Hs1 |- *. apply andb_true_iff in Hs1 as [Hle Hs1].
      apply andb_true_iff. split; [exact Hle|]. apply IH; assumption.
  - apply Forall_app. split.
    + eapply Forall_impl; [|exact Hb1]. simpl. intros; lia.
    + eapply Forall_impl; [|exact Hb2]. simpl. intros; lia.
Qed.

Lemma sorted_between_weaken lo lo' hi hi' t :
  lo' <= lo -> hi <= hi' ->
  sorted_between phase lo hi t -> sorted_between phase lo' hi' t.
Proof.
  intros Hlo Hhi [Hs Hb]. split; [exact Hs|].
  eapply Forall_impl; [|exact Hb]. simpl. intros; lia.
Qed.

Lemma sorted_between_const k t :
  Forall (fun e => phase e = k) t -> sorted_between phase k k t.
Proof.
  intros Hall. split.
  - induction Hall as [|e t He Hall IH]; [reflexivity|].
    destruct Hall as [|e' t' He' Hall']; [reflexivity|].
    simpl in IH |- *. apply andb_true_iff.
    split; [apply Nat.leb_le; lia | exact IH].
  - eapply Forall_impl; [|exact Hall]. simpl. intros; lia.
Qed.

Lemma sorted_between_bind {A B} lo mid hi (m : Py A) (k : A -> Py B) :
  lo <= mid -> mid <= hi ->
  sorted_between phase lo mid (trace m) ->
  (forall a, sorted_between phase mid hi (trace (k a))) ->
  sorted_between phase lo hi (trace (bind m k)).
Proof.
  intros Hlo Hhi Hm Hk. rewrite trace_bind.
  apply (sorted_between_app lo mid hi); try assumption.
  destruct (outcome m); [apply Hk | split; constructor].
Qed.

Lemma checks_sorted t :
  Forall (fun e => is_check e = true) t -> sorted_between phase check_ph check_ph t.
Proof.
  intros H. apply sorted_between_const.
  eapply Forall_impl; [|exact H].
  intros [p|p|r]; simpl; try discriminate. intros _. apply phase_check.
Qed.

Lemma reads_sorted t :
  Forall (fun e => is_read e = true) t -> sorted_between phase read_ph read_ph t.
Proof.
  intros H. apply sorted_between_const.
  eapply Forall_impl; [|exact H].
  intros [p|p|r]; simpl; try discriminate. intros _. apply phase_read.
Qed.

Lemma make_request_sorted w config endpoint method kwargs :
  sorted_between phase send_ph send_ph
    (trace (LatentsenseClient._make_request w config endpoint method kwargs)).
Proof.
  rewrite make_request_eq. apply sorted_between_const.
  repeat constructor. apply phase_send.
Qed.

(** [_upload_files]: checks, then reads, then the request. *)
Lemma upload_files_sorted w config endpoint files additional_files form_data :
  sorted_between phase check_ph send_ph
    (trace (LatentsenseClient._upload_files w config endpoint files
              additional_files form_data)).
Proof.
  assert (Hcs : check_ph <= send_ph) by lia.
  unfold LatentsenseClient._upload_files. cbv zeta.
  apply (sorted_between_bind check_ph check_ph send_ph); try lia.
  { apply checks_sorted.
    exact (validation_loop_trace w (fun _ => true) files). }
  intros _.
  apply (sorted_between_bind check_ph check_ph send_ph); try lia.
  { apply checks_sorted.
    destruct (opt_list_truthy additional_files); [|constructor].
    apply validation_loop_trace. }
  intros _.
  apply (sorted_between_weaken read_ph check_ph send_ph send_ph); try lia.
  apply (sorted_between_bind read_ph read_ph send_ph); try lia.
  { apply reads_sorted. apply trace_for_each_Forall. intros p fd.
    rewrite append_part_eq. repeat constructor. }
  intros main.
  apply (sorted_between_bind read_ph read_ph send_ph); try lia.
  { apply reads_sorted.
    destruct (opt_list_truthy additional_files); [|constructor].
    exact (read_loop_trace w (fun item => str_truthy (snd item)) fst snd
             (default [] additional_files) main). }
  intros files_data.
  apply (sorted_between_weaken send_ph read_ph send_ph send_ph); try lia.
  apply make_request_sorted.
Qed.

(** [create_knowledge_graph] alternates checks and reads, so they must
    share a phase; the request comes after. *)
Lemma create_knowledge_graph_sorted w config files files2 concepts n1 n2 :
  check_ph = read_ph ->
  sorted_between phase check_ph send_ph
    (trace (LatentsenseClient.create_knowledge_graph w config files files2
              concepts n1 n2)).
Proof.
  intros Hsame.
  assert (Hloop : forall field l acc,
            sorted_between phase check_ph check_ph
              (trace (for_each l
                        (LatentsenseClient.check_and_append w field) acc))).
  { intros field l acc. apply sorted_between_const.
    apply trace_for_each_Forall. intros p fd.
    rewrite check_and_append_eq.
    destruct (node w p) as [[content| |ex|ex]|]; repeat constructor;
      rewrite ?phase_check, ?phase_read; lia. }
  unfold LatentsenseClient.create_knowledge_graph. cbv zeta.
  apply (sorted_between_bind check_ph check_ph send_ph); try lia.
  { apply Hloop. }
  intros fd1.
  apply (sorted_between_bind check_ph check_ph send_ph); try lia.
  { destruct (opt_list_truthy files2); [apply Hloop | split; constructor]. }
  intros fd2.
  apply (sorted_between_bind check_ph check_ph send_ph); try lia.
  { destruct (opt_str_truthy concepts); [|split; constructor].
    apply sorted_between_const. apply trace_bind_Forall.
    - repeat constructor. apply phase_check.
    - intros present. destruct present; [|constructor].
      rewrite append_part_eq. repeat constructor.
      rewrite phase_read. lia. }
  intros fd3.
  apply (sorted_between_weaken send_ph check_ph send_ph send_ph); try lia.
  apply make_request_sorted.
Qed.

End Phases.

(** * Further properties of the client and the tools *)

(** ** The request of each operation *)

Lemma upload_files_requests w config endpoint files additional_files
    form_data r :
  In r (requests (LatentsenseClient._upload_files w config endpoint files
                    additional_files form_data)) ->
  r = upload_request w config endpoint files (default [] additional_files)
        form_data.
Proof.
  intros Hin.
  pose proof (upload_files_report w config endpoint files additional_files
                form_data) as H.
  cbv zeta in H.
  destruct (find (fun p => negb (is_present w p)) files);
    [apply report_inv in H as [_ Hr]; rewrite Hr in Hin; contradiction|].
  destruct (find _ (map snd (default [] additional_files)));
    [apply report_inv in H as [_ Hr]; rewrite Hr in Hin; contradiction|].
  destruct (find (fun p => negb (is_regular w p)) files);
    [apply report_inv in H as [_ Hr]; rewrite Hr in Hin; contradiction|].
  destruct (find _ (default [] additional_files));
    [apply report_inv in H as [_ Hr]; rewrite Hr in Hin; contradiction|].
  apply report_inv in H as [_ Hr]. rewrite Hr in Hin.
  destruct Hin as [<-|[]]. reflexivity.
Qed.

(** X1: every request a client operation issues goes to the configured base
    URL followed by the operation's own path, with the operation's method:
    GET for the three read operations, POST for the four uploads and for
    send-message; reads carry only query parameters (none for run results),
    uploads carry only multipart parts and form fields, and send-message
    never carries parts or form fields. *)
Theorem request_line_and_shape
    (w : World) (config : LatentsenseConfig) (c : Call) (r : Request) :
  In r (requests (perform w config c)) ->
  req_url r =
    base_url config ++
    match c with
    | GetProjectRuns _ _ _ _ _ _ _ => "/api/runs/project/" ++ project_id config
    | GetRunResults run_id => "/api/runs/" ++ run_id ++ "/results"
    | RedactPii _ => "/" ++ project_id config ++ "/redact-pii"
    | RedactRelevance _ _ _ => "/" ++ project_id config ++ "/redact-relevance"
    | ExtractRelationships _ _ =>
        "/" ++ project_id config ++ "/relationships-from-premises"
    | CreateKnowledgeGraph _ _ _ _ _ =>
        "/" ++ project_id config ++ "/reasoner-x"
    | GetRexMessage _ | SendRexMessage _ _ _ =>
        "/api/chat/" ++ project_id config ++ "/message_rex"
    end
  /\ req_method r =
     match c with
     | GetProjectRuns _ _ _ _ _ _ _ | GetRunResults _ | GetRexMessage _ => "GET"
     | _ => "POST"
     end
  /\ match c with
     | GetRunResults _ =>
         req_params r = None /\ req_json r = None
         /\ req_files r = None /\ req_data r = None
     | GetProjectRuns _ _ _ _ _ _ _ =>
         req_params r <> None /\ req_json r = None
         /\ req_files r = None /\ req_data r = None
     | GetRexMessage run_id =>
         req_params r = Some [("run_id", PStr run_id)] /\ req_json r = None
         /\ req_files r = None /\ req_data r = None
     | SendRexMessage _ _ _ =>
         req_params r <> None /\ req_files r = None /\ req_data r = None
     | _ =>
         req_params r = None /\ req_json r = None
         /\ req_files r <> None /\ req_data r <> None
     end.
Proof.
  destruct c; simpl; intros Hin.
  - unfold LatentsenseClient.get_project_runs in Hin.
    rewrite requests_make_request in Hin. destruct Hin as [<-|[]].
    repeat split. discriminate.
  - unfold LatentsenseClient.get_run_results in Hin.
    rewrite requests_make_request in Hin. destruct Hin as [<-|[]].
    repeat split.
  - apply upload_files_requests in Hin. subst r. repeat split; discriminate.
  - apply upload_files_requests in Hin. subst r. repeat split; discriminate.
  - apply upload_files_requests in Hin. subst r. repeat split; discriminate.
  - apply create_knowledge_graph_requests in Hin as (fd & ->).
    repeat split; discriminate.
  - unfold LatentsenseClient.get_rex_message in Hin.
    rewrite requests_make_request in Hin. destruct Hin as [<-|[]].
    repeat split.
  - unfold LatentsenseClient.send_rex_message in Hin.
    destruct (opt_list_truthy graph); rewrite requests_make_request in Hin;
      destruct Hin as [<-|[]]; repeat split; discriminate.
Qed.

Lemma request_line_and_shape_witness :
  req_url (demo_graph_request []) =
    "https://controller.latentsense.com" ++ "/" ++ "p1" ++ "/reasoner-x"
  /\ req_method (demo_graph_request []) = "POST"
  /\ req_params (demo_graph_request []) = None
  /\ req_json (demo_graph_request []) = None
  /\ req_files (demo_graph_request []) <> None
  /\ req_data (demo_graph_request []) <> None.
Proof.
  apply (request_line_and_shape demo_world demo_client
           (CreateKnowledgeGraph demo_files None None None None)).
  simpl. left. reflexivity.
Defined.

(** ** Loops, fused *)

Lemma bind_assoc {A B C} (m : Py A) (k : A -> Py B) (k' : B -> Py C) :
  bind (bind m k) k' = bind m (fun a => bind (k a) k').
Proof.
  destruct m as [t [a|e]]; simpl; [|reflexivity].
  destruct (k a) as [t1 [b|e1]]; simpl.
  - destruct (k' b) as [t2 r2]. rewrite app_assoc. reflexivity.
  - reflexivity.
Qed.

Lemma bind_ret_r {A} (m : Py A) : bind m ret = m.
Proof.
  destruct m as [t [a|e]]; simpl; [rewrite app_nil_r|]; reflexivity.
Qed.

Lemma for_each_app {A S} (l1 l2 : list A) (body : A -> S -> Py S) (s : S) :
  for_each (l1 ++ l2) body s =
  bind (for_each l1 body s) (fun s' => for_each l2 body s').
Proof.
  revert s. induction l1 as [|x l1 IH]; intros s; cbn [for_each app].
  - rewrite bind_ret_l. reflexivity.
  - rewrite bind_assoc. apply bind_ext. intros s'. apply IH.
Qed.

Lemma for_each_map {A B S} (f : A -> B) (l : list A) (body : B -> S -> Py S)
    (s : S) :
  for_each (map f l) body s = for_each l (fun x => body (f x)) s.
Proof.
  revert s. induction l as [|x l IH]; intros s; cbn [for_each map];
    [reflexivity|].
  apply bind_ext. intros s'. apply IH.
Qed.

Lemma for_each_filter {A S} (g : A -> bool) (l : list A)
    (body : A -> S -> Py S) (s : S) :
  for_each l (fun x s' => if g x then body x s' else ret s') s =
  for_each (filter g l) body s.
Proof.
  revert s. induction l as [|x l IH]; intros s; cbn [for_each filter];
    [reflexivity|].
  destruct (g x); cbn [for_each].
  - apply bind_ext. intros s'. apply IH.
  - rewrite bind_ret_l. apply IH.
Qed.

Lemma for_each_ext {A S} (l : list A) (body body' : A -> S -> Py S) (s : S) :
  (forall x s', body x s' = body' x s') ->
  for_each l body s = for_each l body' s.
Proof.
  intros H. revert s. induction l as [|x l IH]; intros s; cbn [for_each];
    [reflexivity|].
  rewrite H. apply bind_ext. intros s'. apply IH.
Qed.

(** [_upload_files] is: test every path, read every item, send. *)
Lemma upload_files_normal w config endpoint files additional_files form_data :
  LatentsenseClient._upload_files w config endpoint files additional_files
    form_data =
  let items := upload_items files (default [] additional_files) in
  bind (validate w (map snd items))
    (fun _ =>
       bind (read_all w items [])
         (fun files_data =>
            LatentsenseClient._make_request w config endpoint "POST"
              (LatentsenseClient.files_data_kwargs files_data
                 (if opt_list_truthy form_data then default [] form_data
                  else [])))).
Proof.
  cbv zeta. unfold LatentsenseClient._upload_files, validate, read_all,
    upload_items. cbv zeta.
  set (extra := default [] additional_files).
  assert (Hv : (if opt_list_truthy additional_files
                then for_each (map snd extra)
                       (fun p (_ : unit) =>
                          if str_truthy p
                          then LatentsenseClient.require_exists w p
                          else ret tt) tt
                else ret tt)
               = for_each (map snd (filter (fun item => str_truthy (snd item))
                                      extra))
                   (fun p (_ : unit) => LatentsenseClient.require_exists w p)
                   tt).
  { assert (Hsame : for_each (map snd extra)
                      (fun p (_ : unit) =>
                         if str_truthy p
                         then LatentsenseClient.require_exists w p
                         else ret tt) tt
                    = for_each (map snd (filter (fun item => str_truthy (snd item))
                                           extra))
                        (fun p (_ : unit) =>
                           LatentsenseClient.require_exists w p) tt).
    { rewrite !for_each_map.
      rewrite <- (for_each_filter (fun item : string * string =>
                                     str_truthy (snd item)) extra
                    (fun item (_ : unit) =>
                       LatentsenseClient.require_exists w (snd item)) tt).
      apply for_each_ext. intros item []. reflexivity. }
    rewrite <- Hsame. subst extra.
    destruct additional_files as [[|item items]|]; reflexivity. }
  rewrite Hv. clear Hv.
  rewrite map_app, map_map. cbn [snd]. rewrite map_id.
  rewrite for_each_app, bind_assoc.
  apply bind_ext. intros []. apply bind_ext. intros u.
  rewrite for_each_app, bind_assoc.
  rewrite for_each_map. cbn [fst snd].
  apply bind_ext. intros main.
  assert (Hr : (if opt_list_truthy additional_files
                then for_each extra
                       (fun item fd =>
                          if str_truthy (snd item)
                          then LatentsenseClient.append_part w (fst item)
                                 (snd item) fd
                          else ret fd) main
                else ret main)
               = for_each (filter (fun item => str_truthy (snd item)) extra)
                   (fun item fd =>
                      LatentsenseClient.append_part w (fst item) (snd item) fd)
                   main).
  { rewrite <- (for_each_filter (fun item : string * string =>
                                   str_truthy (snd item)) extra
                  (fun item fd =>
                     LatentsenseClient.append_part w (fst item) (snd item) fd)
                  main).
    subst extra. destruct additional_files as [[|item items]|]; reflexivity. }
  rewrite Hr. reflexivity.
Qed.

Lemma bind_ext_l {A B} (m m' : Py A) (k : A -> Py B) :
  m = m' -> bind m k = bind m' k.
Proof. intros ->. reflexivity. Qed.

Lemma bind_returned {A B} (t : list Event) (a : A) (k : A -> Py B) :
  bind (t, Ret a) k = ((t ++ trace (k a))%list, outcome (k a)).
Proof. simpl. destruct (k a). reflexivity. Qed.

Lemma bind_raised {A B} (t : list Event) (e : exn) (k : A -> Py B) :
  bind (t, @Raise A e) k = (t, Raise e).
Proof. reflexivity. Qed.

Lemma validate_ok w (l : list string) :
  (forall p, In p l -> is_present w p = true) ->
  validate w l = (map PathExists l, Ret tt).
Proof.
  unfold validate. induction l as [|p l IH]; intros Hall; cbn [for_each map].
  - reflexivity.
  - rewrite require_exists_eq, (Hall p) by (left; reflexivity).
    rewrite bind_returned, IH by (intros q Hq; apply Hall; right; exact Hq).
    reflexivity.
Qed.

Lemma validate_fail w (pre : list string) (p : string) (post : list string) :
  (forall q, In q pre -> is_present w q = true) ->
  is_present w p = false ->
  validate w (pre ++ p :: post)
  = (map PathExists (pre ++ [p]), Raise (test_error w p)).
Proof.
  intros Hpre Hp. unfold validate. rewrite for_each_app.
  fold (validate w pre). rewrite (validate_ok w pre Hpre), bind_returned.
  cbn [for_each]. rewrite require_exists_eq, Hp, bind_raised.
  rewrite map_app. reflexivity.
Qed.

Lemma read_all_ok w (items : list (string * string)) (acc : list file_part) :
  (forall item, In item items -> is_regular w (snd item) = true) ->
  read_all w items acc
  = (map (fun item => OpenRead (snd item)) items,
     Ret (acc ++ map (item_part w) items)%list).
Proof.
  unfold read_all. revert acc.
  induction items as [|item items IH]; intros acc Hall; cbn [for_each map].
  - rewrite app_nil_r. reflexivity.
  - rewrite append_part_eq, (Hall item) by (left; reflexivity).
    rewrite bind_returned, IH by (intros q Hq; apply Hall; right; exact Hq).
    cbn [trace outcome fst snd]. rewrite <- app_assoc. reflexivity.
Qed.

Lemma read_all_fail w (pre : list (string * string)) (item : string * string)
    (post : list (string * string)) (acc : list file_part) :
  (forall q, In q pre -> is_regular w (snd q) = true) ->
  is_regular w (snd item) = false ->
  read_all w (pre ++ item :: post) acc
  = (map (fun q => OpenRead (snd q)) (pre ++ [item]),
     Raise (read_error w (snd item))).
Proof.
  intros Hpre Hitem. unfold read_all. rewrite for_each_app.
  fold (read_all w pre acc). rewrite (read_all_ok w pre acc Hpre).
  rewrite bind_returned. cbn [for_each].
  rewrite append_part_eq, Hitem, bind_raised. rewrite map_app. reflexivity.
Qed.

Lemma check_read_all_ok w (items : list (string * string))
    (acc : list file_part) :
  (forall item, In item items -> is_regular w (snd item) = true) ->
  check_read_all w items acc
  = (flat_map test_and_read items, Ret (acc ++ map (item_part w) items)%list).
Proof.
  unfold check_read_all. revert acc.
  induction items as [|item items IH]; intros acc Hall;
    cbn [for_each map flat_map].
  - rewrite app_nil_r. reflexivity.
  - pose proof (Hall item (or_introl eq_refl)) as Hr.
    rewrite check_and_append_eq.
    unfold is_regular in Hr.
    destruct (node w (snd item)) as [[content| |ex|ex]|] eqn:Hn; try discriminate.
    rewrite bind_returned, IH by (intros q Hq; apply Hall; right; exact Hq).
    cbn [trace outcome fst snd]. rewrite <- app_assoc.
    unfold item_part at 2, part_of, file_content. rewrite Hn. reflexivity.
Qed.

Lemma check_read_all_fail w (pre : list (string * string))
    (item : string * string) (post : list (string * string))
    (acc : list file_part) :
  (forall q, In q pre -> is_regular w (snd q) = true) ->
  is_regular w (snd item) = false ->
  check_read_all w (pre ++ item :: post) acc
  = ((flat_map test_and_read pre
      ++ if is_present w (snd item) then test_and_read item
         else [PathExists (snd item)])%list,
     Raise (check_error w (snd item))).
Proof.
  intros Hpre Hitem. unfold check_read_all. rewrite for_each_app.
  fold (check_read_all w pre acc). rewrite (check_read_all_ok w pre acc Hpre).
  rewrite bind_returned. cbn [for_each].
  rewrite check_and_append_eq.
  unfold is_regular in Hitem. unfold is_present, check_error, read_error.
  destruct (node w (snd item)) as [[content| |ex|ex]|] eqn:Hn; try discriminate;
    rewrite bind_raised; reflexivity.
Qed.

(** [create_knowledge_graph] is: test and read every file of the two sets in
    turn, then the concepts file if it is given and exists, then send. *)
Lemma create_knowledge_graph_normal w config files files2 concepts n1 n2 :
  LatentsenseClient.create_knowledge_graph w config files files2 concepts
    n1 n2 =
  bind (check_read_all w (graph_items files files2) [])
    (fun sets =>
       bind (if opt_str_truthy concepts
             then
               bind (path_exists w (default EmptyString concepts))
                 (fun present =>
                    if present
                    then LatentsenseClient.append_part w "concepts"
                           (default EmptyString concepts) sets
                    else ret sets)
             else ret sets)
         (fun files_data =>
            LatentsenseClient._make_request w config
              ("/" ++ project_id config ++ "/reasoner-x") "POST"
              (req_kwargs (graph_request w config files_data n1 n2)))).
Proof.
  unfold LatentsenseClient.create_knowledge_graph, check_read_all, graph_items.
  cbv zeta. rewrite for_each_app, bind_assoc, !for_each_map. cbn [fst snd].
  apply bind_ext. intros main. apply bind_ext_l.
  rewrite for_each_map. cbn [fst snd].
  destruct files2 as [[|p l]|]; reflexivity.
Qed.

(** ** The three operations through [_upload_files], when they succeed *)

(** With every uploaded file a regular file, [_upload_files] tests each path
    once, then reads each once in the same order, then sends one request
    with one part per item. *)
Lemma upload_files_success w config endpoint files additional_files form_data :
  let items := upload_items files (default [] additional_files) in
  let r := mk_request "POST" (base_url config ++ endpoint)
             (LatentsenseClient.files_data_kwargs (map (item_part w) items)
                (if opt_list_truthy form_data then default [] form_data
                 else [])) in
  (forall item, In item items -> is_regular w (snd item) = true) ->
  LatentsenseClient._upload_files w config endpoint files additional_files
    form_data
  = ((map PathExists (map snd items) ++ map OpenRead (map snd items)
      ++ [HttpRequest r])%list,
     request_result w r).
Proof.
  cbv zeta. intros Hall. rewrite upload_files_normal. cbv zeta.
  rewrite validate_ok.
  2:{ intros p Hp. apply in_map_iff in Hp as (item & <- & Hitem).
      apply regular_is_present, Hall, Hitem. }
  rewrite bind_returned, (read_all_ok _ _ _ Hall), bind_returned.
  cbn [trace outcome fst snd app]. rewrite make_request_eq.
  cbn [trace outcome fst snd]. rewrite !map_map. reflexivity.
Qed.

(** X3: when every file is a regular file (or the list is empty),
    [redact_pii] tests each path, then reads each, then sends one POST to
    [/{project_id}/redact-pii] with one [files] part per file, in order, and
    an empty form; it ends as the vendor's reply decides. *)
Theorem redact_pii_uploads
    (w : World) (config : LatentsenseConfig) (files : list string) :
  (forall p, In p files -> is_regular w p = true) ->
  let r := mk_request "POST"
             (base_url config ++ "/" ++ project_id config ++ "/redact-pii")
             (mk_kwargs None None
                (Some (map (fun p => ("files", (path_name p, file_content w p)))
                         files))
                (Some [])) in
  LatentsenseClient.redact_pii w config files
  = ((map PathExists files ++ map OpenRead files ++ [HttpRequest r])%list,
     request_result w r).
Proof.
  intros Hall. cbv zeta. unfold LatentsenseClient.redact_pii.
  rewrite upload_files_success.
  - unfold upload_items. cbn [default filter].
    rewrite app_nil_r, !map_map. reflexivity.
  - unfold upload_items. cbn [default filter]. rewrite app_nil_r.
    intros item Hitem. apply in_map_iff in Hitem as (p & <- & Hp).
    apply Hall, Hp.
Qed.

Lemma redact_pii_uploads_witness :
  LatentsenseClient.redact_pii demo_world demo_client demo_files
  = ([PathExists "/data/a.txt"; PathExists "/data/b.txt";
      OpenRead "/data/a.txt"; OpenRead "/data/b.txt";
      HttpRequest
        (mk_request "POST" "https://controller.latentsense.com/p1/redact-pii"
           (mk_kwargs None None
              (Some [("files", ("a.txt", "alpha")); ("files", ("b.txt", "beta"))])
              (Some [])))],
     Ret demo_payload).
Proof.
  apply (redact_pii_uploads demo_world demo_client demo_files).
  intros p [<-|[<-|[]]]; reflexivity.
Defined.

Lemma upload_items_one files field path :
  str_truthy path = true ->
  upload_items files [(field, path)]
  = (map (fun p => ("files", p)) files ++ [(field, path)])%list.
Proof. intros H. unfold upload_items. cbn [filter snd]. rewrite H. reflexivity. Qed.

(** One additional file after the primary ones: the shape shared by
    [redact_relevance] and [extract_relationships]. *)
Lemma upload_with_one_extra w config endpoint files field path form_data :
  (forall p, In p files -> is_regular w p = true) ->
  path <> EmptyString ->
  is_regular w path = true ->
  let r := mk_request "POST" (base_url config ++ endpoint)
             (mk_kwargs None None
                (Some (map (fun p => ("files", (path_name p, file_content w p)))
                         files
                       ++ [(field, (path_name path, file_content w path))])%list)
                (Some (if opt_list_truthy form_data then default [] form_data
                       else []))) in
  LatentsenseClient._upload_files w config endpoint files
    (Some [(field, path)]) form_data
  = ((map PathExists (files ++ [path]) ++ map OpenRead (files ++ [path])
      ++ [HttpRequest r])%list,
     request_result w r).
Proof.
  intros Hall Hne Hpath. cbv zeta.
  assert (Ht : str_truthy path = true) by (destruct path; [congruence | reflexivity]).
  rewrite upload_files_success; cbn [default]; rewrite upload_items_one by exact Ht.
  - rewrite !map_app, !map_map. reflexivity.
  - intros item Hitem. apply in_app_iff in Hitem as [Hitem|[<-|[]]].
    + apply in_map_iff in Hitem as (p & <- & Hp). apply Hall, Hp.
    + exact Hpath.
Qed.

(** X4: when every file and the relevance-term file are regular files,
    [redact_relevance] tests the primary paths and then the term path, reads
    them in that order, and sends one POST to
    [/{project_id}/redact-relevance] whose parts are the [files] parts
    followed by one [relevance_term] part and whose form has the single
    field [cutoff], the float as [str] prints it.  The client method does
    this for any cutoff: the bound is checked by the tool only. *)
Theorem redact_relevance_uploads
    (w : World) (config : LatentsenseConfig) (files : list string)
    (relevance_term_file : string) (cutoff : float) :
  (forall p, In p files -> is_regular w p = true) ->
  relevance_term_file <> EmptyString ->
  is_regular w relevance_term_file = true ->
  let r := mk_request "POST"
             (base_url config ++ "/" ++ project_id config ++ "/redact-relevance")
             (mk_kwargs None None
                (Some (map (fun p => ("files", (path_name p, file_content w p)))
                         files
                       ++ [("relevance_term",
                            (path_name relevance_term_file,
                             file_content w relevance_term_file))])%list)
                (Some [("cutoff", float_repr w cutoff)])) in
  LatentsenseClient.redact_relevance w config files relevance_term_file cutoff
  = ((map PathExists (files ++ [relevance_term_file])
      ++ map OpenRead (files ++ [relevance_term_file])
      ++ [HttpRequest r])%list,
     request_result w r).
Proof.
  intros Hall Hne Hterm. cbv zeta. unfold LatentsenseClient.redact_relevance.
  cbv zeta.
  exact (upload_with_one_extra w config _ files "relevance_term"
           relevance_term_file (Some [("cutoff", float_repr w cutoff)])
           Hall Hne Hterm).
Qed.

Lemma redact_relevance_uploads_witness :
  LatentsenseClient.redact_relevance demo_world demo_client ["/data/a.txt"]
    "/data/b.txt" float_three_halves
  = ([PathExists "/data/a.txt"; PathExists "/data/b.txt";
      OpenRead "/data/a.txt"; OpenRead "/data/b.txt";
      HttpRequest
        (mk_request "POST"
           "https://controller.latentsense.com/p1/redact-relevance"
           (mk_kwargs None None
              (Some [("files", ("a.txt", "alpha"));
                     ("relevance_term", ("b.txt", "beta"))])
              (Some [("cutoff", demo_float_repr float_three_halves)])))],
     Ret demo_payload).
Proof.
  apply (redact_relevance_uploads demo_world demo_client ["/data/a.txt"]
           "/data/b.txt" float_three_halves).
  - intros p [<-|[]]. reflexivity.
  - discriminate.
  - reflexivity.
Defined.

(** X5: when every file and the claim-concepts file are regular files,
    [extract_relationships] tests the primary paths and then the concepts
    path, reads them in that order, and sends one POST to
    [/{project_id}/relationships-from-premises] whose parts are the [files]
    parts followed by one [claim_concepts] part, with an empty form. *)
Theorem extract_relationships_uploads
    (w : World) (config : LatentsenseConfig) (files : list string)
    (claim_concepts_file : string) :
  (forall p, In p files -> is_regular w p = true) ->
  claim_concepts_file <> EmptyString ->
  is_regular w claim_concepts_file = true ->
  let r := mk_request "POST"
             (base_url config ++ "/" ++ project_id config
              ++ "/relationships-from-premises")
             (mk_kwargs None None
                (Some (map (fun p => ("files", (path_name p, file_content w p)))
                         files
                       ++ [("claim_concepts",
                            (path_name claim_concepts_file,
                             file_content w claim_concepts_file))])%list)
                (Some [])) in
  LatentsenseClient.extract_relationships w config files claim_concepts_file
  = ((map PathExists (files ++ [claim_concepts_file])
      ++ map OpenRead (files ++ [claim_concepts_file])
      ++ [HttpRequest r])%list,
     request_result w r).
Proof.
  intros Hall Hne Hterm. cbv zeta.
  unfold LatentsenseClient.extract_relationships. cbv zeta.
  exact (upload_with_one_extra w config _ files "claim_concepts"
           claim_concepts_file None Hall Hne Hterm).
Qed.

Lemma extract_relationships_uploads_witness :
  LatentsenseClient.extract_relationships demo_world demo_client
    ["/data/a.txt"] "/data/b.txt"
  = ([PathExists "/data/a.txt"; PathExists "/data/b.txt";
      OpenRead "/data/a.txt"; OpenRead "/data/b.txt";
      HttpRequest
        (mk_request "POST"
           "https://controller.latentsense.com/p1/relationships-from-premises"
           (mk_kwargs None None
              (Some [("files", ("a.txt", "alpha"));
                     ("claim_concepts", ("b.txt", "beta"))])
              (Some [])))],
     Ret demo_payload).
Proof.
  apply (extract_relationships_uploads demo_world demo_client ["/data/a.txt"]
           "/data/b.txt").
  - intros p [<-|[]]. reflexivity.
  - discriminate.
  - reflexivity.
Defined.

(** X6: an additional file given as the empty path is neither tested nor
    read nor sent: [redact_relevance] and [extract_relationships] then do
    exactly what [_upload_files] does without additional files, whatever the
    primary files are. *)
Theorem empty_additional_path_skipped
    (w : World) (config : LatentsenseConfig) (files : list string)
    (cutoff : float) :
  LatentsenseClient.extract_relationships w config files EmptyString
  = LatentsenseClient._upload_files w config
      ("/" ++ project_id config ++ "/relationships-from-premises") files
      None None
  /\ LatentsenseClient.redact_relevance w config files EmptyString cutoff
     = LatentsenseClient._upload_files w config
         ("/" ++ project_id config ++ "/redact-relevance") files
         None (Some [("cutoff", float_repr w cutoff)]).
Proof.
  split.
  - unfold LatentsenseClient.extract_relationships. cbv zeta.
    rewrite !upload_files_normal. reflexivity.
  - unfold LatentsenseClient.redact_relevance. cbv zeta.
    rewrite !upload_files_normal. reflexivity.
Qed.

(** ** Where an upload stops *)

Lemma map_split {A B} (f : A -> B) (l : list A) (pre : list B) (y : B)
    (post : list B) :
  map f l = (pre ++ y :: post)%list ->
  exists l1 x l2,
    l = (l1 ++ x :: l2)%list /\ map f l1 = pre /\ f x = y /\ map f l2 = post.
Proof.
  revert l. induction pre as [|b pre IH]; intros [|a l] H; try discriminate.
  - injection H as Hy Hpost. exists [], a, l. auto.
  - injection H as Hb Hrest. destruct (IH l Hrest) as (l1 & x & l2 & -> & H1 & Hx & H2).
    exists (a :: l1), x, l2. simpl. rewrite Hb, H1. auto.
Qed.

Lemma helper_call_shape w config (c : Call) :
  uses_helper c = true ->
  exists endpoint files additional_files form_data,
    perform w config c
    = LatentsenseClient._upload_files w config endpoint files additional_files
        form_data
    /\ map snd (upload_items files (default [] additional_files))
       = checked_paths c.
Proof.
  assert (Hpaths : forall files (field path : string),
            map snd (upload_items files [(field, path)])
            = (files ++ if str_truthy path then [path] else [])%list).
  { intros files field path. unfold upload_items.
    rewrite map_app, map_map. cbn [snd filter]. rewrite map_id.
    destruct (str_truthy path); reflexivity. }
  destruct c; try discriminate; intros _; simpl.
  - exists ("/" ++ project_id config ++ "/redact-pii"), files, None, None.
    split; [reflexivity|]. unfold upload_items. cbn [default filter].
    rewrite app_nil_r, map_map. cbn [snd]. apply map_id.
  - eexists _, files, (Some [("relevance_term", relevance_term_file)]), _.
    split; [reflexivity|]. apply Hpaths.
  - eexists _, files, (Some [("claim_concepts", claim_concepts_file)]), _.
    split; [reflexivity|]. apply Hpaths.
Qed.


(** X7: [redact_pii], [redact_relevance] and [extract_relationships] fail
    fast: when the tests of the paths before [p] answer [True] and the test
    of [p] does not, the operation has tested exactly the paths up to and
    including [p], has read no file and sent nothing; it raises "File not
    found" with that path when the test answers [False], and the test's own
    exception when the test raises. *)
Theorem helper_fails_before_reading
    (w : World) (config : LatentsenseConfig) (c : Call)
    (pre : list string) (p : string) (post : list string) :
  uses_helper c = true ->
  checked_paths c = (pre ++ p :: post)%list ->
  (forall q, In q pre -> outcome (path_exists w q) = Ret true) ->
  (outcome (path_exists w p) = Ret false ->
   perform w config c
   = (map PathExists (pre ++ [p]),
      Raise (mk_exn FileNotFoundError ("File not found: " ++ p))))
  /\ (forall e,
        outcome (path_exists w p) = Raise e ->
        perform w config c = (map PathExists (pre ++ [p]), Raise e)).
Proof.
  intros Hh Hsplit Hpre.
  destruct (helper_call_shape w config c Hh)
    as (endpoint & files & adds & form & -> & Hpaths).
  rewrite upload_files_normal. cbv zeta. rewrite Hpaths, Hsplit.
  assert (Hpre' : forall q, In q pre -> is_present w q = true)
    by (intros q Hq; apply path_exists_true, Hpre, Hq).
  split.
  - intros Hp. apply path_exists_false in Hp.
    rewrite validate_fail;
      [|exact Hpre' | apply missing_not_present, Hp].
    unfold test_error. rewrite Hp. reflexivity.
  - intros e Hp. apply path_exists_raise in Hp.
    rewrite validate_fail; [|exact Hpre' | unfold is_present; rewrite Hp; reflexivity].
    unfold test_error. rewrite Hp. reflexivity.
Qed.

Lemma helper_fails_before_reading_witness :
  perform demo_world demo_client
    (ExtractRelationships ["/data/a.txt"; "/data/nope"; "/data/b.txt"]
       "/data/b.txt")
  = ([PathExists "/data/a.txt"; PathExists "/data/nope"],
     Raise (mk_exn FileNotFoundError "File not found: /data/nope"))
  /\ perform demo_world demo_client
       (RedactPii ["/data/a.txt"; "/data/locked/c.txt"; "/data/b.txt"])
     = ([PathExists "/data/a.txt"; PathExists "/data/locked/c.txt"],
        Raise (mk_exn OSError
                 "[Errno 13] Permission denied: '/data/locked/c.txt'")).
Proof.
  split.
  - refine (proj1 (helper_fails_before_reading demo_world demo_client
                     (ExtractRelationships
                        ["/data/a.txt"; "/data/nope"; "/data/b.txt"]
                        "/data/b.txt")
                     ["/data/a.txt"] "/data/nope" ["/data/b.txt"; "/data/b.txt"]
                     eq_refl eq_refl _) eq_refl).
    intros q [<-|[]]. reflexivity.
  - refine (proj2 (helper_fails_before_reading demo_world demo_client
                     (RedactPii
                        ["/data/a.txt"; "/data/locked/c.txt"; "/data/b.txt"])
                     ["/data/a.txt"] "/data/locked/c.txt" ["/data/b.txt"]
                     eq_refl eq_refl _) _ eq_refl).
    intros q [<-|[]]. reflexivity.
Defined.

(** X8: a declared path that exists and is a directory passes the existence
    test of [_upload_files] and stops it at the read: the three operations
    test every path, read the files before the directory, try to open it,
    and raise the error of [open] without sending anything. *)
Theorem helper_stops_at_directory
    (w : World) (config : LatentsenseConfig) (c : Call)
    (pre : list string) (p : string) (post : list string) :
  uses_helper c = true ->
  checked_paths c = (pre ++ p :: post)%list ->
  (forall q, In q pre -> is_regular w q = true) ->
  node w p = Some Directory ->
  (forall q, In q post -> outcome (path_exists w q) = Ret true) ->
  perform w config c
  = ((map PathExists (pre ++ p :: post) ++ map OpenRead (pre ++ [p]))%list,
     Raise (mk_exn IsADirectoryError
              ("[Errno 21] Is a directory: '" ++ p ++ "'"))).
Proof.
  intros Hh Hsplit Hpre Hp Hpost.
  destruct (helper_call_shape w config c Hh)
    as (endpoint & files & adds & form & -> & Hpaths).
  rewrite upload_files_normal. cbv zeta.
  rewrite Hsplit in Hpaths.
  destruct (map_split snd _ pre p post Hpaths)
    as (ipre & item & ipost & Hitems & Hipre & Hitem & Hipost).
  rewrite Hpaths, validate_ok, bind_returned.
  2:{ intros q Hq. apply in_app_iff in Hq as [Hq|[<-|Hq]].
      - apply regular_is_present, Hpre, Hq.
      - unfold is_present. rewrite Hp. reflexivity.
      - apply path_exists_true, Hpost, Hq. }
  rewrite Hitems, read_all_fail, bind_raised.
  - cbn [trace outcome fst snd]. subst pre p.
    rewrite <- (map_map snd OpenRead (ipre ++ [item])).
    rewrite (map_app snd ipre [item]).
    unfold read_error. rewrite Hp. reflexivity.
  - intros q Hq. apply Hpre. rewrite <- Hipre. apply in_map, Hq.
  - rewrite Hitem. unfold is_regular. rewrite Hp. reflexivity.
Qed.

Lemma helper_stops_at_directory_witness :
  perform demo_world demo_client (RedactPii ["/data/a.txt"; "/data"])
  = ([PathExists "/data/a.txt"; PathExists "/data";
      OpenRead "/data/a.txt"; OpenRead "/data"],
     Raise (mk_exn IsADirectoryError "[Errno 21] Is a directory: '/data'")).
Proof.
  apply (helper_stops_at_directory demo_world demo_client
           (RedactPii ["/data/a.txt"; "/data"]) ["/data/a.txt"] "/data" []).
  - reflexivity.
  - reflexivity.
  - intros q [<-|[]]. reflexivity.
  - reflexivity.
  - intros q [].
Defined.

(** ** [create_knowledge_graph], file by file *)

Lemma flat_map_map {A B C} (f : B -> list C) (g : A -> B) (l : list A) :
  flat_map f (map g l) = flat_map (fun x => f (g x)) l.
Proof. induction l as [|x l IH]; simpl; [|rewrite IH]; reflexivity. Qed.

Lemma test_and_read_paths (items : list (string * string)) :
  flat_map test_and_read items
  = flat_map (fun q => [PathExists q; OpenRead q]) (map snd items).
Proof. rewrite flat_map_map. reflexivity. Qed.

Lemma graph_items_paths files files2 :
  map snd (graph_items files files2) = (files ++ default [] files2)%list.
Proof.
  unfold graph_items. rewrite map_app, !map_map. cbn [snd].
  rewrite !map_id. reflexivity.
Qed.

Lemma graph_items_parts w files files2 :
  map (item_part w) (graph_items files files2)
  = (map (part_of w "files") files
     ++ map (part_of w "files2") (default [] files2))%list.
Proof. unfold graph_items. rewrite map_app, !map_map. reflexivity. Qed.

(** X9: [create_knowledge_graph] handles its files one at a time: when the
    first path of the two sets that is not a readable regular file comes
    after regular files, every file before it has been tested and read, the
    path itself has been tested (and, if the test answers [True], opened),
    nothing after it is touched, no request is sent, and the error is "File
    not found" when the test answers [False], the test's own exception when
    the test raises, and the error of [open] for a directory or a file that
    cannot be opened. *)
Theorem create_knowledge_graph_stops_at_first_failure
    (w : World) (config : LatentsenseConfig) (files : list string)
    (files2 : option (list string)) (concepts_file : option string)
    (files1_name files2_name : option string)
    (pre : list string) (p : string) (post : list string) :
  (files ++ default [] files2)%list = (pre ++ p :: post)%list ->
  (forall q, In q pre -> is_regular w q = true) ->
  is_regular w p = false ->
  LatentsenseClient.create_knowledge_graph w config files files2 concepts_file
    files1_name files2_name
  = match node w p with
    | None =>
        ((flat_map (fun q => [PathExists q; OpenRead q]) pre
          ++ [PathExists p])%list,
         Raise (mk_exn FileNotFoundError ("File not found: " ++ p)))
    | Some (Untestable e) =>
        ((flat_map (fun q => [PathExists q; OpenRead q]) pre
          ++ [PathExists p])%list,
         Raise e)
    | Some (Unreadable e) =>
        ((flat_map (fun q => [PathExists q; OpenRead q]) pre
          ++ [PathExists p; OpenRead p])%list,
         Raise e)
    | Some (Regular _) | Some Directory =>
        ((flat_map (fun q => [PathExists q; OpenRead q]) pre
          ++ [PathExists p; OpenRead p])%list,
         Raise (mk_exn IsADirectoryError
                  ("[Errno 21] Is a directory: '" ++ p ++ "'")))
    end.
Proof.
  intros Hsplit Hpre Hp.
  rewrite create_knowledge_graph_normal.
  rewrite <- graph_items_paths in Hsplit.
  destruct (map_split snd _ pre p post Hsplit)
    as (ipre & item & ipost & -> & Hipre & Hitem & Hipost).
  subst pre p.
  rewrite check_read_all_fail, bind_raised.
  - rewrite flat_map_map.
    unfold is_regular in Hp. unfold is_present, check_error, read_error.
    destruct (node w (snd item)) as [[content| |ex|ex]|]; try discriminate;
      reflexivity.
  - intros q Hq. apply Hpre. apply in_map, Hq.
  - exact Hp.
Qed.

Lemma create_knowledge_graph_stops_at_first_failure_witness :
  LatentsenseClient.create_knowledge_graph demo_world demo_client
    ["/data/a.txt"] (Some ["/data/b.txt"; "/data/nope"; "/data/a.txt"])
    None None None
  = ([PathExists "/data/a.txt"; OpenRead "/data/a.txt";
      PathExists "/data/b.txt"; OpenRead "/data/b.txt";
      PathExists "/data/nope"],
     Raise (mk_exn FileNotFoundError "File not found: /data/nope"))
  /\ LatentsenseClient.create_knowledge_graph demo_world demo_client
       ["/data/a.txt"; "/data/secret.txt"] (Some ["/data/b.txt"])
       None None None
     = ([PathExists "/data/a.txt"; OpenRead "/data/a.txt";
         PathExists "/data/secret.txt"; OpenRead "/data/secret.txt"],
        Raise (mk_exn OSError
                 "[Errno 13] Permission denied: '/data/secret.txt'")).
Proof.
  split.
  - apply (create_knowledge_graph_stops_at_first_failure demo_world
             demo_client
             ["/data/a.txt"] (Some ["/data/b.txt"; "/data/nope"; "/data/a.txt"])
             None None None
             ["/data/a.txt"; "/data/b.txt"] "/data/nope" ["/data/a.txt"]).
    + reflexivity.
    + intros q [<-|[<-|[]]]; reflexivity.
    + reflexivity.
  - apply (create_knowledge_graph_stops_at_first_failure demo_world
             demo_client
             ["/data/a.txt"; "/data/secret.txt"] (Some ["/data/b.txt"])
             None None None
             ["/data/a.txt"] "/data/secret.txt" ["/data/b.txt"]).
    + reflexivity.
    + intros q [<-|[]]; reflexivity.
    + reflexivity.
Defined.

(** X10: when every file of the two sets is a regular file,
    [create_knowledge_graph] tests and reads them in turn and then sends one
    POST whose parts are the [files] parts, then the [files2] parts, then at
    most one [concepts] part.  The concepts file is tested only when its
    path is given and not empty; it is left out when the test answers
    [False] and appended when it is a regular file; when the test raises,
    the call fails with the test's exception, and when the path is a
    directory or cannot be opened, the call fails at [open]; in both cases
    no request is sent. *)
Theorem create_knowledge_graph_uploads
    (w : World) (config : LatentsenseConfig) (files : list string)
    (files2 : option (list string)) (concepts_file : option string)
    (files1_name files2_name : option string) :
  (forall q, In q (files ++ default [] files2) -> is_regular w q = true) ->
  let io := flat_map (fun q => [PathExists q; OpenRead q])
              (files ++ default [] files2) in
  let sets := (map (fun p => ("files", (path_name p, file_content w p))) files
               ++ map (fun p => ("files2", (path_name p, file_content w p)))
                    (default [] files2))%list in
  let send parts := graph_request w config parts files1_name files2_name in
  LatentsenseClient.create_knowledge_graph w config files files2 concepts_file
    files1_name files2_name
  = match concepts_file with
    | Some (String a s) =>
        let c := String a s in
        match node w c with
        | None =>
            ((io ++ [PathExists c; HttpRequest (send sets)])%list,
             request_result w (send sets))
        | Some (Regular content) =>
            let parts := (sets ++ [("concepts", (path_name c, content))])%list in
            ((io ++ [PathExists c; OpenRead c; HttpRequest (send parts)])%list,
             request_result w (send parts))
        | Some Directory =>
            ((io ++ [PathExists c; OpenRead c])%list,
             Raise (mk_exn IsADirectoryError
                      ("[Errno 21] Is a directory: '" ++ c ++ "'")))
        | Some (Untestable e) =>
            ((io ++ [PathExists c])%list, Raise e)
        | Some (Unreadable e) =>
            ((io ++ [PathExists c; OpenRead c])%list, Raise e)
        end
    | _ =>
        ((io ++ [HttpRequest (send sets)])%list,
         request_result w (send sets))
    end.
Proof.
  intros Hall. cbv zeta.
  rewrite create_knowledge_graph_normal.
  rewrite check_read_all_ok.
  2:{ intros item Hitem. apply Hall. rewrite <- graph_items_paths.
      apply in_map, Hitem. }
  rewrite bind_returned. cbn [app].
  rewrite graph_items_parts.
  rewrite test_and_read_paths, graph_items_paths.
  change (map (part_of w "files") files
          ++ map (part_of w "files2") (default [] files2))%list
    with (map (fun p => ("files", (path_name p, file_content w p))) files
          ++ map (fun p => ("files2", (path_name p, file_content w p)))
               (default [] files2))%list.
  set (sets := (map _ files ++ map _ (default [] files2))%list).
  set (io := flat_map _ _).
  destruct concepts_file as [[|a s]|]; cbn [opt_str_truthy str_truthy default].
  - rewrite bind_ret_l, make_request_eq. reflexivity.
  - unfold path_exists.
    destruct (node w (String a s)) as [[content| |ex|ex]|] eqn:Hn; cbv beta iota.
    + rewrite bind_returned. cbv beta iota.
      rewrite append_part_eq. unfold is_regular, part_of, file_content.
      rewrite Hn. cbv beta iota. cbn [trace outcome fst snd].
      rewrite bind_returned, make_request_eq.
      cbn [trace outcome fst snd app]. reflexivity.
    + rewrite bind_returned. cbv beta iota.
      rewrite append_part_eq. unfold is_regular, read_error.
      rewrite Hn. cbv beta iota. cbn [trace outcome fst snd].
      rewrite bind_raised. reflexivity.
    + rewrite !bind_raised. reflexivity.
    + rewrite bind_returned. cbv beta iota.
      rewrite append_part_eq. unfold is_regular, read_error.
      rewrite Hn. cbv beta iota. cbn [trace outcome fst snd].
      rewrite bind_raised. reflexivity.
    + rewrite bind_returned. cbv beta iota.
      cbn [trace outcome fst snd ret]. rewrite bind_returned, make_request_eq.
      reflexivity.
  - rewrite bind_ret_l, make_request_eq. reflexivity.
Qed.

Lemma create_knowledge_graph_uploads_witness :
  LatentsenseClient.create_knowledge_graph demo_world demo_client
    ["/data/a.txt"] (Some ["/data/b.txt"]) (Some "/data/a.txt")
    (Some "left") None
  = ([PathExists "/data/a.txt"; OpenRead "/data/a.txt";
      PathExists "/data/b.txt"; OpenRead "/data/b.txt";
      PathExists "/data/a.txt"; OpenRead "/data/a.txt";
      HttpRequest
        (mk_request "POST" "https://controller.latentsense.com/p1/reasoner-x"
           (mk_kwargs None None
              (Some [("files", ("a.txt", "alpha"));
                     ("files2", ("b.txt", "beta"));
                     ("concepts", ("a.txt", "alpha"))])
              (Some [("files1_name", "left")])))],
     Ret demo_payload).
Proof.
  apply (create_knowledge_graph_uploads demo_world demo_client
           ["/data/a.txt"] (Some ["/data/b.txt"]) (Some "/data/a.txt")
           (Some "left") None).
  intros q [<-|[<-|[]]]; reflexivity.
Defined.

(** ** What the tools hand back and pass on *)

(** X11: when a tool has issued its request, the string it returns is read
    off what [client.request] did with it: [Error: API request failed: ]
    followed by the message of the [httpx.HTTPError] (a transport error, the
    status error of a non-2xx response); [Error: ] followed by the message
    of any other exception of [client.request] or of [response.json()] on a
    2xx response; and the serialised payload for a 2xx response whose body
    parses. *)
Theorem tool_reports_reply
    (w : World) (client : LatentsenseConfig) (c : Call) (r : Request) :
  In r (requests (invoke w client c)) ->
  outcome (invoke w client c) =
  Ret match send w r with
      | TransportError msg => "Error: API request failed: " ++ msg
      | RequestRaises e =>
          if is_HTTPError e
          then "Error: API request failed: " ++ exc_str e
          else "Error: " ++ exc_str e
      | Respond resp =>
          if ((200 <=? status_code resp) && (status_code resp <=? 299))%Z
          then match body resp with
               | inl payload => Json.dumps (float_repr w) payload
               | inr e =>
                   if is_HTTPError e
                   then "Error: API request failed: " ++ exc_str e
                   else "Error: " ++ exc_str e
               end
          else "Error: API request failed: " ++ status_error resp
      end.
Proof.
  destruct (invoke_cases w client c) as [(msg & -> & _)|(c' & -> & _)].
  - intros [].
  - rewrite requests_dumps_or_error, dumps_or_error_eq. cbn [outcome snd].
    destruct (perform_ends w client c')
      as [(r0 & H)|(p & e & H & _)];
      apply report_inv in H as [-> ->];
      [|intros Hin; contradiction Hin].
    intros [<-|[]]. unfold request_result, wrapped.
    destruct (send w r0) as [msg|e|resp]; [reflexivity| |].
    + destruct (is_HTTPError e); reflexivity.
    + fold (is_success resp). destruct (is_success resp); [|reflexivity].
      destruct (body resp) as [j|e]; [reflexivity|].
      destruct (is_HTTPError e); reflexivity.
Qed.

Lemma tool_reports_reply_witness :
  outcome (invoke demo_world demo_client (GetRexMessage "run-1"))
  = Ret (Json.dumps demo_float_repr demo_payload)
  /\ outcome (invoke demo_world demo_client
                (GetRunResults ("run" ++ newline ++ "1")))
     = Ret "Error: Invalid non-printable ASCII character in URL".
Proof.
  split.
  - apply (tool_reports_reply demo_world demo_client (GetRexMessage "run-1")
             (mk_request "GET"
                "https://controller.latentsense.com/api/chat/p1/message_rex"
                (mk_kwargs (Some [("run_id", PStr "run-1")]) None None None))).
    simpl. left. reflexivity.
  - apply (tool_reports_reply demo_world demo_client
             (GetRunResults ("run" ++ newline ++ "1"))
             (mk_request "GET"
                ("https://controller.latentsense.com/api/runs/"
                 ++ ("run" ++ newline ++ "1") ++ "/results")
                (mk_kwargs None None None None))).
    simpl. left. reflexivity.
Defined.

(** X12: what passes the [get_project_runs] tool is valid: every request it
    issues carries a [sortBy] that is [time] or [cost], a [filterCogName]
    that is absent or one of the four cog names, and a [descending] flag
    (the caller's, or [true]). *)
Theorem get_project_runs_tool_query
    (w : World) (client : LatentsenseConfig)
    (cog user key : option string) (page rows : option Z)
    (sort_by : option string) (descending : option bool) (r : Request) :
  In r (requests (get_project_runs w client cog user key page rows sort_by
                    descending)) ->
  exists ps,
    req_params r = Some ps
    /\ (dict_get "sortBy" ps = Some (PStr "time")
        \/ dict_get "sortBy" ps = Some (PStr "cost"))
    /\ (dict_get "filterCogName" ps = None
        \/ exists s,
             In s ["deidentification"; "relationships";
                   "ai_authorship_detection"; "knowledge_graph"]
             /\ dict_get "filterCogName" ps = Some (PStr s))
    /\ dict_get "descending" ps = Some (PBool (default true descending)).
Proof.
  unfold get_project_runs. cbv zeta.
  destruct (opt_str_truthy cog && _) eqn:Ec; [intros []|].
  destruct (negb (str_in (default "time" sort_by) valid_sort_by)) eqn:Es;
    [intros []|].
  rewrite requests_dumps_or_error.
  unfold LatentsenseClient.get_project_runs. rewrite requests_make_request.
  intros [<-|[]]. eexists. split; [reflexivity|].
  unfold LatentsenseClient.project_runs_params. cbv zeta. cbn [default].
  apply negb_false_iff, str_in_In in Es.
  split; [|split].
  - dict_lookup.
    destruct Es as [<-|[<-|[]]]; [left | right]; reflexivity.
  - dict_lookup. destruct cog as [[|a s]|]; cbn [opt_str_truthy str_truthy];
      try (left; reflexivity).
    right. exists (String a s). split; [|reflexivity].
    cbn [opt_str_truthy str_truthy default andb] in Ec.
    apply negb_false_iff, str_in_In in Ec. exact Ec.
  - dict_lookup. reflexivity.
Qed.

Lemma get_project_runs_tool_query_witness :
  exists ps,
    req_params
      (mk_request "GET"
         "https://controller.latentsense.com/api/runs/project/p1"
         (mk_kwargs
            (Some [("filterCogName", PStr "relationships"); ("page", PInt 1);
                   ("rowsPerPage", PInt 50); ("sortBy", PStr "cost");
                   ("descending", PBool true)]) None None None)) = Some ps
    /\ (dict_get "sortBy" ps = Some (PStr "time")
        \/ dict_get "sortBy" ps = Some (PStr "cost"))
    /\ (dict_get "filterCogName" ps = None
        \/ exists s,
             In s ["deidentification"; "relationships";
                   "ai_authorship_detection"; "knowledge_graph"]
             /\ dict_get "filterCogName" ps = Some (PStr s))
    /\ dict_get "descending" ps = Some (PBool (default true None)).
Proof.
  apply (get_project_runs_tool_query demo_world demo_client
           (Some "relationships") None None None None (Some "cost") None).
  simpl. left. reflexivity.
Defined.


(** ** The parts of an upload *)

Lemma has_slash_app (a b : string) :
  has_slash (a ++ b) = has_slash a || has_slash b.
Proof.
  induction a as [|c a IH]; simpl; [reflexivity|].
  rewrite IH. apply orb_assoc.
Qed.

Lemma split_slash_components (s cur : string) :
  has_slash cur = false ->
  Forall (fun component => has_slash component = false) (split_slash cur s).
Proof.
  revert cur. induction s as [|c s IH]; intros cur Hcur; simpl.
  - repeat constructor. exact Hcur.
  - destruct (Ascii.eqb c "/") eqn:Ec.
    + constructor; [exact Hcur | apply IH; reflexivity].
    + apply IH. rewrite has_slash_app, Hcur. simpl. rewrite Ec. reflexivity.
Qed.

Lemma last_Forall {A} (P : A -> Prop) (l : list A) (d : A) :
  Forall P l -> P d -> P (last l d).
Proof.
  intros Hl Hd. induction Hl as [|x l Hx Hl IH]; [exact Hd|].
  destruct l; [exact Hx | exact IH].
Qed.

(** [Path(p).name] never contains a slash. *)
Lemma path_name_no_slash (p : string) : has_slash (path_name p) = false.
Proof.
  unfold path_name. apply (last_Forall (fun c => has_slash c = false)).
  - apply Forall_forall. intros c Hc. apply filter_In in Hc as [Hc _].
    pose proof (split_slash_components p EmptyString eq_refl) as Hall.
    rewrite Forall_forall in Hall. apply Hall, Hc.
  - reflexivity.
Qed.

Lemma upload_items_fields files additional_files item :
  In item (upload_items files additional_files) ->
  fst item = "files" \/ In (fst item) (map fst additional_files).
Proof.
  unfold upload_items. intros Hin. apply in_app_iff in Hin as [Hin|Hin].
  - apply in_map_iff in Hin as (p & <- & _). left. reflexivity.
  - apply filter_In in Hin as [Hin _]. right. apply in_map, Hin.
Qed.

(** X13: every part of every multipart request is filed under one of the
    five field names [files], [files2], [concepts], [relevance_term],
    [claim_concepts], and the file name it carries is the base name of the
    path: it contains no slash, so no directory of the caller's machine is
    sent to the vendor. *)
Theorem parts_carry_base_names
    (w : World) (config : LatentsenseConfig) (c : Call) (r : Request)
    (parts : list file_part) (part : file_part) :
  In r (requests (perform w config c)) ->
  req_files r = Some parts ->
  In part parts ->
  In (fst part) ["files"; "files2"; "concepts"; "relevance_term";
                 "claim_concepts"]
  /\ has_slash (fst (snd part)) = false.
Proof.
  assert (Hitem : forall items : list (string * string),
            (forall item, In item items -> In (fst item) part_fields) ->
            In part (map (item_part w) items) ->
            In (fst part) part_fields /\ has_slash (fst (snd part)) = false).
  { intros items Hfields Hin. apply in_map_iff in Hin as (item & <- & Hitem).
    split; [apply Hfields, Hitem | apply path_name_no_slash]. }
  assert (Hhelper : forall endpoint files adds form,
            (forall f, In f (map fst (default [] adds)) -> In f part_fields) ->
            In r (requests (LatentsenseClient._upload_files w config endpoint
                              files adds form)) ->
            req_files r = Some parts -> In part parts ->
            In (fst part) part_fields /\ has_slash (fst (snd part)) = false).
  { intros endpoint files adds form Hadds Hin Hfiles Hpart.
    apply upload_files_requests in Hin. subst r.
    injection Hfiles as <-.
    apply (Hitem (upload_items files (default [] adds))).
    - intros item Hi. apply upload_items_fields in Hi as [->|Hi];
        [left; reflexivity | apply Hadds, Hi].
    - unfold upload_items. rewrite map_app, map_map. exact Hpart. }
  destruct c; simpl; intros Hin Hfiles Hpart.
  - unfold LatentsenseClient.get_project_runs in Hin.
    rewrite requests_make_request in Hin. destruct Hin as [<-|[]].
    discriminate Hfiles.
  - unfold LatentsenseClient.get_run_results in Hin.
    rewrite requests_make_request in Hin. destruct Hin as [<-|[]].
    discriminate Hfiles.
  - eapply Hhelper; try eassumption. intros f [].
  - eapply Hhelper; try eassumption. intros f [<-|[]]. simpl. tauto.
  - eapply Hhelper; try eassumption. intros f [<-|[]]. simpl. tauto.
  - pose proof (create_knowledge_graph_report w config files files2
                  concepts_file files1_name files2_name) as Hrep.
    cbv zeta in Hrep.
    destruct (find (fun p => negb (is_regular w p)) files);
      [apply report_inv in Hrep as [_ Hr]; rewrite Hr in Hin; contradiction|].
    destruct (find _ (default [] files2));
      [apply report_inv in Hrep as [_ Hr]; rewrite Hr in Hin; contradiction|].
    assert (Hsets : forall q,
              In q (map (part_of w "files") files
                    ++ map (part_of w "files2") (default [] files2))%list ->
              In (fst q) part_fields /\ has_slash (fst (snd q)) = false).
    { intros q Hq. apply in_app_iff in Hq as [Hq|Hq];
        apply in_map_iff in Hq as (p & <- & _);
        (split; [simpl; tauto | apply path_name_no_slash]). }
    destruct (if opt_str_truthy concepts_file then _ else None);
      [apply report_inv in Hrep as [_ Hr]; rewrite Hr in Hin; contradiction|].
    destruct (opt_str_truthy concepts_file && is_present w _).
    + destruct (is_regular w _);
        apply report_inv in Hrep as [_ Hr]; rewrite Hr in Hin;
        [|contradiction].
      destruct Hin as [<-|[]]. injection Hfiles as <-.
      apply in_app_iff in Hpart as [Hpart|[<-|[]]]; [apply Hsets, Hpart|].
      split; [simpl; tauto | apply path_name_no_slash].
    + apply report_inv in Hrep as [_ Hr]. rewrite Hr in Hin.
      destruct Hin as [<-|[]]. injection Hfiles as <-. apply Hsets, Hpart.
  - unfold LatentsenseClient.get_rex_message in Hin.
    rewrite requests_make_request in Hin. destruct Hin as [<-|[]].
    discriminate Hfiles.
  - unfold LatentsenseClient.send_rex_message in Hin.
    destruct (opt_list_truthy graph); rewrite requests_make_request in Hin;
      destruct Hin as [<-|[]]; discriminate Hfiles.
Qed.

Lemma parts_carry_base_names_witness :
  In (fst ("files", ("b.txt", "beta")))
    ["files"; "files2"; "concepts"; "relevance_term"; "claim_concepts"]
  /\ has_slash (fst (snd ("files", ("b.txt", "beta")))) = false.
Proof.
  apply (parts_carry_base_names demo_world demo_client
           (CreateKnowledgeGraph demo_files None None None None)
           (demo_graph_request [])
           [("files", ("a.txt", "alpha")); ("files", ("b.txt", "beta"))]
           ("files", ("b.txt", "beta"))).
  - simpl. left. reflexivity.
  - reflexivity.
  - simpl. right. left. reflexivity.
Defined.

(** ** Telling success from failure *)

Lemma not_error_prefix (c : ascii) (rest : string) :
  Ascii.eqb c "E" = false -> String.prefix "Error: " (String c rest) = false.
Proof.
  intros Hc. destruct (String.prefix "Error: " (String c rest)) eqn:E;
    [|reflexivity].
  apply String.prefix_correct in E. simpl in E. injection E as Hc' _.
  subst c. discriminate Hc.
Qed.

Lemma int_str_not_error (n : Z) : String.prefix "Error: " (int_str n) = false.
Proof.
  unfold int_str, NilZero.string_of_int.
  destruct (Z.to_int n) as [d|d].
  - unfold NilZero.string_of_uint. destruct d; reflexivity.
  - reflexivity.
Qed.

(** The serialisation of a payload does not start with [Error: ], as long as
    the text of a finite float does not. *)
Lemma dumps_not_error (float_repr : float -> string) (j : json) :
  (forall f, String.prefix "Error: " (float_repr f) = false) ->
  String.prefix "Error: " (Json.dumps float_repr j) = false.
Proof.
  intros Hfloat. unfold Json.dumps.
  destruct j as [|[|]|n|f|s|[|item items]|[|member members]];
    try reflexivity.
  - apply int_str_not_error.
  - simpl. unfold Json.floatstr.
    destruct f as [sg|[|]| |sg m e]; try reflexivity; apply Hfloat.
Qed.

(** X14: the [Error: ] prefix tells failure from success.  Given that the
    text of a float never starts with [Error: ] (Python's never does), the
    string a tool returns starts with [Error: ] exactly when the call did
    not end with a 2xx response carrying JSON; a serialised payload never
    starts with it, whatever the payload. *)
Theorem error_prefix_iff_failure
    (w : World) (client : LatentsenseConfig) (c : Call) :
  (forall f, String.prefix "Error: " (float_repr w f) = false) ->
  exists s,
    outcome (invoke w client c) = Ret s
    /\ (String.prefix "Error: " s = false <->
        exists r resp payload,
          requests (invoke w client c) = [r]
          /\ send w r = Respond resp
          /\ ((200 <=? status_code resp) && (status_code resp <=? 299))%Z = true
          /\ body resp = inl payload
          /\ s = Json.dumps (float_repr w) payload).
Proof.
  intros Hfloat.
  assert (Herr : forall msg, String.prefix "Error: " ("Error: " ++ msg) = false
                             -> False).
  { intros msg H. rewrite error_prefix in H. discriminate H. }
  destruct (invoke_cases w client c) as [(msg & -> & _)|(c' & -> & _)].
  - eexists. split; [reflexivity|]. split.
    + intros H. destruct (Herr _ H).
    + intros (r & resp & payload & Hr & _). discriminate Hr.
  - rewrite requests_dumps_or_error, dumps_or_error_eq. cbn [outcome snd].
    eexists. split; [reflexivity|].
    destruct (perform_ends w client c')
      as [(r0 & H)|(p & e & H & _)];
      apply report_inv in H as [-> ->].
    + unfold request_result. fold (is_success).
      destruct (send w r0) as [msg|e|resp] eqn:Hsend.
      * split; [intros H; destruct (Herr _ H)|].
        intros (r & resp & payload & Hr & Hs & _).
        injection Hr as <-. congruence.
      * split; [intros H; destruct (Herr _ H)|].
        intros (r & resp & payload & Hr & Hs & _).
        injection Hr as <-. congruence.
      * change ((200 <=? status_code resp) && (status_code resp <=? 299))%Z
          with (is_success resp).
        destruct (is_success resp) eqn:Hok.
        -- destruct (body resp) as [j|msg] eqn:Hbody.
           ++ split.
              ** intros _. exists r0, resp, j. auto.
              ** intros _. apply dumps_not_error, Hfloat.
           ++ split; [intros H; destruct (Herr _ H)|].
              intros (r & resp' & payload & Hr & Hs & _ & Hb & _).
              injection Hr as <-. rewrite Hsend in Hs. injection Hs as <-.
              congruence.
        -- split; [intros H; destruct (Herr _ H)|].
           intros (r & resp' & payload & Hr & Hs & Hok' & _).
           injection Hr as <-. rewrite Hsend in Hs. injection Hs as <-.
           unfold is_success in Hok. congruence.
    + split; [intros H; destruct (Herr _ H)|].
      intros (r & resp & payload & Hr & _). discriminate Hr.
Qed.

Lemma demo_float_repr_not_error (f : float) :
  String.prefix "Error: " (demo_float_repr f) = false.
Proof.
  unfold demo_float_repr.
  destruct (SFeqb f float_zero); [reflexivity|].
  destruct (SFeqb f float_one); [reflexivity|].
  destruct (SFeqb f float_half); reflexivity.
Qed.

Lemma error_prefix_iff_failure_witness :
  exists s,
    outcome (invoke demo_world demo_client (GetRunResults "run-1")) = Ret s
    /\ (String.prefix "Error: " s = false <->
        exists r resp payload,
          requests (invoke demo_world demo_client (GetRunResults "run-1")) = [r]
          /\ send demo_world r = Respond resp
          /\ ((200 <=? status_code resp) && (status_code resp <=? 299))%Z = true
          /\ body resp = inl payload
          /\ s = Json.dumps (float_repr demo_world) payload).
Proof.
  apply (error_prefix_iff_failure demo_world demo_client
           (GetRunResults "run-1")).
  exact demo_float_repr_not_error.
Defined.

(** ** The application lifespan *)

(** X15: the server does not start without its two variables.  When
    [LATENTSENSE_API_KEY] is unset or empty, [app_lifespan] raises the
    [ValueError] about the API key; when the key is set and
    [LATENTSENSE_PROJECT_ID] is unset or empty, it raises the one about the
    project id.  In both cases no client has been created, the server code
    never runs and there is nothing to close. *)
Theorem app_lifespan_startup_errors
    (A : Type) (w : World) (getenv : string -> option string)
    (serve : LatentsenseConfig -> Py A) :
  (getenv "LATENTSENSE_API_KEY" = None
   \/ getenv "LATENTSENSE_API_KEY" = Some EmptyString ->
   app_lifespan w getenv serve
   = ([], StartupError "LATENTSENSE_API_KEY environment variable is required"))
  /\ (forall key,
        getenv "LATENTSENSE_API_KEY" = Some key -> key <> EmptyString ->
        getenv "LATENTSENSE_PROJECT_ID" = None
        \/ getenv "LATENTSENSE_PROJECT_ID" = Some EmptyString ->
        app_lifespan w getenv serve
        = ([], StartupError
                 "LATENTSENSE_PROJECT_ID environment variable required")).
Proof.
  unfold app_lifespan. cbv zeta. split.
  - intros [->| ->]; reflexivity.
  - intros key -> Hkey Hproject.
    destruct key as [|a s]; [congruence|]. cbn [opt_str_truthy str_truthy negb].
    destruct Hproject as [->| ->]; reflexivity.
Qed.

Lemma app_lifespan_startup_errors_witness :
  app_lifespan demo_world
    (fun name => if String.eqb name "LATENTSENSE_API_KEY"
                 then Some "secret" else None)
    (fun client => invoke demo_world client (GetRunResults "run-1"))
  = ([], StartupError "LATENTSENSE_PROJECT_ID environment variable required").
Proof.
  apply (proj2 (app_lifespan_startup_errors string demo_world
                  (fun name => if String.eqb name "LATENTSENSE_API_KEY"
                               then Some "secret" else None)
                  (fun client => invoke demo_world client
                                   (GetRunResults "run-1")))
           "secret").
  - reflexivity.
  - discriminate.
  - left. reflexivity.
Defined.

(** X16: with both variables set and not empty, [app_lifespan] builds one
    client from them, with the base URL of [LATENTSENSE_BASE_URL] when that
    is set (even to the empty string) and the vendor's host otherwise.  When
    the constructor of the HTTP client raises on the key header (a key that
    is not ASCII), the exception leaves [app_lifespan] before its [try]
    block: the server never runs and nothing is closed.  Otherwise the
    server runs with the client, and the client is closed exactly once, as
    the last thing [app_lifespan] does, whether the server returns or
    raises; the server's own outcome is passed on. *)
Theorem app_lifespan_closes_client
    (A : Type) (w : World) (getenv : string -> option string)
    (serve : LatentsenseConfig -> Py A) (key project : string) :
  getenv "LATENTSENSE_API_KEY" = Some key -> key <> EmptyString ->
  getenv "LATENTSENSE_PROJECT_ID" = Some project -> project <> EmptyString ->
  let config :=
    mk_config key project
      match getenv "LATENTSENSE_BASE_URL" with
      | Some url => url
      | None => "https://controller.latentsense.com"
      end in
  app_lifespan w getenv serve
  = match new_client w [("x-api-key", key)] with
    | Some e => ([], ConstructionError e)
    | None =>
        ((ClientCreated config :: map Serving (trace (serve config))
          ++ [ClientClosed])%list,
         Exited (outcome (serve config)))
    end.
Proof.
  intros Hkey Hk Hproject Hp. cbv zeta. unfold app_lifespan. cbv zeta.
  rewrite Hkey, Hproject.
  destruct key as [|a s]; [congruence|].
  destruct project as [|a' s']; [congruence|].
  cbn [opt_str_truthy str_truthy negb default].
  unfold default, LatentsenseClient.__init__. cbn [api_key].
  destruct (new_client w _); [reflexivity|].
  destruct (serve _) as [t r]. reflexivity.
Qed.

Lemma app_lifespan_closes_client_witness :
  app_lifespan demo_world (demo_getenv (Some EmptyString))
    (fun client => LatentsenseClient.redact_pii demo_world client ["/data"])
  = ([ClientCreated (mk_config "secret" "p1" EmptyString);
      Serving (PathExists "/data"); Serving (OpenRead "/data"); ClientClosed],
     Exited (Raise (mk_exn IsADirectoryError
                      "[Errno 21] Is a directory: '/data'")))
  /\ app_lifespan demo_world (demo_getenv_with_key non_ascii_key)
       (fun client => LatentsenseClient.redact_pii demo_world client ["/data"])
     = ([], ConstructionError
              (mk_exn (OtherException "UnicodeEncodeError")
                 "'ascii' codec can't encode character: ordinal not in range(128)")).
Proof.
  split.
  - apply (app_lifespan_closes_client json demo_world
             (demo_getenv (Some EmptyString))
             (fun client =>
                LatentsenseClient.redact_pii demo_world client ["/data"])
             "secret" "p1").
    + reflexivity.
    + discriminate.
    + reflexivity.
    + discriminate.
  - apply (app_lifespan_closes_client json demo_world
             (demo_getenv_with_key non_ascii_key)
             (fun client =>
                LatentsenseClient.redact_pii demo_world client ["/data"])
             non_ascii_key "p1").
    + reflexivity.
    + discriminate.
    + reflexivity.
    + discriminate.
Defined.

(** ** A session of tool calls *)

Lemma prefix_app (a b : string) : String.prefix a (a ++ b) = true.
Proof.
  induction a as [|c a IH]; simpl.
  - destruct b; reflexivity.
  - destruct (ascii_dec c c) as [_|Hne]; [exact IH | congruence].
Qed.

Lemma perform_request_url w config (c : Call) (r : Request) :
  In r (requests (perform w config c)) ->
  exists endpoint, req_url r = base_url config ++ endpoint.
Proof.
  destruct c; simpl; intros Hin.
  - unfold LatentsenseClient.get_project_runs in Hin.
    rewrite requests_make_request in Hin. destruct Hin as [<-|[]].
    eexists; reflexivity.
  - unfold LatentsenseClient.get_run_results in Hin.
    rewrite requests_make_request in Hin. destruct Hin as [<-|[]].
    eexists; reflexivity.
  - apply upload_files_requests in Hin. subst r. eexists; reflexivity.
  - apply upload_files_requests in Hin. subst r. eexists; reflexivity.
  - apply upload_files_requests in Hin. subst r. eexists; reflexivity.
  - apply create_knowledge_graph_requests in Hin as (fd & ->).
    eexists; reflexivity.
  - unfold LatentsenseClient.get_rex_message in Hin.
    rewrite requests_make_request in Hin. destruct Hin as [<-|[]].
    eexists; reflexivity.
  - unfold LatentsenseClient.send_rex_message in Hin.
    destruct (opt_list_truthy graph); rewrite requests_make_request in Hin;
      destruct Hin as [<-|[]]; eexists; reflexivity.
Qed.

(** One tool call: a string comes back, at most one request went out, and
    it went to the client's base URL. *)
Lemma invoke_summary w client (c : Call) :
  (exists s, outcome (invoke w client c) = Ret s)
  /\ List.length (requests (invoke w client c)) <= 1
  /\ Forall (fun r => String.prefix (base_url client) (req_url r) = true)
       (requests (invoke w client c)).
Proof.
  destruct (invoke_cases w client c) as [(msg & -> & _)|(c' & -> & _)].
  - split; [eexists; reflexivity|]. split; [simpl; lia | constructor].
  - rewrite requests_dumps_or_error, dumps_or_error_eq. cbn [outcome snd].
    split; [eexists; reflexivity|]. split.
    + destruct (perform_ends w client c')
        as [(r & H)|(p & e & H & _)];
        apply report_inv in H as [_ ->]; simpl; lia.
    + apply Forall_forall. intros r Hr.
      apply perform_request_url in Hr as (endpoint & ->). apply prefix_app.
Qed.

Lemma served_requests_wrap config (t : list Event) :
  served_requests (ClientCreated config :: map Serving t ++ [ClientClosed])
  = http_requests t.
Proof.
  simpl. induction t as [|e t IH]; [reflexivity|].
  destruct e; simpl; rewrite IH; reflexivity.
Qed.

(** The host's loop: one answer per call, at most one request per call, all
    of them to the base URL. *)
Lemma serve_calls_loop w client (calls : list Call) (answers : list string) :
  exists more,
    outcome (for_each calls
               (fun c acc =>
                  answer <- invoke w client c ;; ret (acc ++ [answer])%list)
               answers) = Ret (answers ++ more)%list
    /\ List.length more = List.length calls
    /\ List.length
         (requests (for_each calls
                      (fun c acc =>
                         answer <- invoke w client c ;;
                         ret (acc ++ [answer])%list)
                      answers)) <= List.length calls
    /\ Forall (fun r => String.prefix (base_url client) (req_url r) = true)
         (requests (for_each calls
                      (fun c acc =>
                         answer <- invoke w client c ;;
                         ret (acc ++ [answer])%list)
                      answers)).
Proof.
  revert answers. induction calls as [|c calls IH]; intros answers.
  - exists []. cbn [for_each]. rewrite app_nil_r.
    split; [reflexivity|]. split; [reflexivity|].
    split; [simpl; lia | constructor].
  - cbn [for_each].
    destruct (invoke_summary w client c) as ((s & Hs) & Hone & Hurl).
    assert (Hstep : outcome (answer <- invoke w client c ;;
                             ret (answers ++ [answer])%list)
                    = Ret (answers ++ [s])%list)
      by (rewrite outcome_bind, Hs; reflexivity).
    assert (Hreq : requests (answer <- invoke w client c ;;
                             ret (answers ++ [answer])%list)
                   = requests (invoke w client c)).
    { rewrite requests_bind, Hs. apply app_nil_r. }
    destruct (IH (answers ++ [s])%list) as (more & Ho & Hlen & Hcount & Hall).
    exists (s :: more).
    rewrite outcome_bind, Hstep, Ho, requests_bind, Hstep, Hreq.
    rewrite <- app_assoc. split; [reflexivity|].
    split; [simpl; lia|]. split.
    + rewrite length_app. simpl. lia.
    + apply Forall_app. split; assumption.
Qed.

(** X17: a session under the lifespan.  With both variables set and not
    empty and a key the HTTP client accepts, whatever tools the host invokes
    and however they fare, every call is answered with a string (a failing
    call does not end the session), at most one request is issued per call,
    every request goes to the base URL taken from the environment
    ([LATENTSENSE_BASE_URL], or the vendor's host when it is unset), and the
    client is closed once the last call is answered.  With a key on which
    the constructor of the HTTP client raises, there is no session: the
    exception leaves [app_lifespan] and no call is served. *)
Theorem session_under_lifespan
    (w : World) (getenv : string -> option string) (calls : list Call)
    (key project : string) :
  getenv "LATENTSENSE_API_KEY" = Some key -> key <> EmptyString ->
  getenv "LATENTSENSE_PROJECT_ID" = Some project -> project <> EmptyString ->
  let base :=
    match getenv "LATENTSENSE_BASE_URL" with
    | Some url => url
    | None => "https://controller.latentsense.com"
    end in
  match new_client w [("x-api-key", key)] with
  | Some e =>
      app_lifespan w getenv (serve_calls w calls) = ([], ConstructionError e)
  | None =>
      exists events answers,
        app_lifespan w getenv (serve_calls w calls)
        = ((ClientCreated (mk_config key project base) :: map Serving events
            ++ [ClientClosed])%list,
           Exited (Ret answers))
        /\ List.length answers = List.length calls
        /\ List.length (http_requests events) <= List.length calls
        /\ (forall r, In r (http_requests events) ->
              String.prefix base (req_url r) = true)
  end.
Proof.
  intros Hkey Hk Hproject Hp. cbv zeta.
  assert (Hkt : opt_str_truthy (Some key) = true)
    by (destruct key; [congruence | reflexivity]).
  assert (Hpt : opt_str_truthy (Some project) = true)
    by (destruct project; [congruence | reflexivity]).
  set (base := match getenv "LATENTSENSE_BASE_URL" with
               | Some url => url
               | None => "https://controller.latentsense.com"
               end).
  set (config := mk_config key project base).
  assert (Hlife : app_lifespan w getenv (serve_calls w calls)
                  = match new_client w [("x-api-key", key)] with
                    | Some e => ([], ConstructionError e)
                    | None =>
                        ((ClientCreated config
                          :: map Serving (trace (serve_calls w calls config))
                          ++ [ClientClosed])%list,
                         Exited (outcome (serve_calls w calls config)))
                    end).
  { unfold app_lifespan. cbv zeta. rewrite Hkey, Hproject, Hkt, Hpt.
    cbn [negb]. unfold default at 1 2.
    change (mk_config key project
              (default "https://controller.latentsense.com"
                 (getenv "LATENTSENSE_BASE_URL"))) with config.
    unfold LatentsenseClient.__init__.
    change (api_key config) with key.
    destruct (new_client w _); [reflexivity|].
    destruct (serve_calls w calls config) as [t r]. reflexivity. }
  rewrite Hlife.
  destruct (new_client w [("x-api-key", key)]) as [e|]; [reflexivity|].
  destruct (serve_calls_loop w config calls [])
    as (answers & Ho & Hlen & Hcount & Hall).
  fold (serve_calls w calls config) in Ho, Hcount, Hall.
  exists (trace (serve_calls w calls config)), answers.
  split; [|split; [exact Hlen | split; [exact Hcount|]]].
  - rewrite Ho. reflexivity.
  - rewrite Forall_forall in Hall. exact Hall.
Qed.

Lemma session_under_lifespan_witness :
  exists events answers,
    app_lifespan demo_world (demo_getenv None)
      (serve_calls demo_world
         [GetRunResults "run-1"; RedactPii ["/data/nope"]])
    = ((ClientCreated
          (mk_config "secret" "p1" "https://controller.latentsense.com")
        :: map Serving events ++ [ClientClosed])%list,
       Exited (Ret answers))
    /\ List.length answers
       = List.length [GetRunResults "run-1"; RedactPii ["/data/nope"]]
    /\ List.length (http_requests events)
       <= List.length [GetRunResults "run-1"; RedactPii ["/data/nope"]]
    /\ (forall r, In r (http_requests events) ->
          String.prefix "https://controller.latentsense.com" (req_url r)
          = true).
Proof.
  apply (session_under_lifespan demo_world (demo_getenv None)
           [GetRunResults "run-1"; RedactPii ["/data/nope"]] "secret" "p1").
  - reflexivity.
  - discriminate.
  - reflexivity.
  - discriminate.
Defined.

(** ** When an upload reaches the vendor *)

Lemma forallb_false_split {A} (f : A -> bool) (l : list A) :
  forallb f l = false ->
  exists pre x post,
    l = (pre ++ x :: post)%list
    /\ (forall y, In y pre -> f y = true) /\ f x = false.
Proof.
  induction l as [|a l IH]; simpl; [discriminate|].
  destruct (f a) eqn:Ha; simpl.
  - intros H. destruct (IH H) as (pre & x & post & -> & Hpre & Hx).
    exists (a :: pre), x, post. split; [reflexivity|]. split; [|exact Hx].
    intros y [<-|Hy]; [exact Ha | apply Hpre, Hy].
  - intros _. exists [], a, l. split; [reflexivity|]. split; [|exact Ha].
    intros y [].
Qed.

Lemma forallb_map_snd {A B} (f : B -> bool) (l : list (A * B)) :
  forallb f (map snd l) = forallb (fun item => f (snd item)) l.
Proof. induction l as [|x l IH]; simpl; [|rewrite IH]; reflexivity. Qed.

Lemma find_none_forallb {A} (f : A -> bool) (l : list A) :
  find (fun x => negb (f x)) l = None <-> forallb f l = true.
Proof.
  induction l as [|x l IH]; simpl; [tauto|].
  destruct (f x); simpl; [exact IH | split; discriminate].
Qed.

Lemma upload_files_sends_iff w config endpoint files additional_files
    form_data :
  requests (LatentsenseClient._upload_files w config endpoint files
              additional_files form_data) <> []
  <-> forallb (is_regular w)
        (map snd (upload_items files (default [] additional_files))) = true.
Proof.
  split.
  - intros Hsent.
    destruct (forallb _ _) eqn:Hall; [reflexivity|]. exfalso. apply Hsent.
    rewrite forallb_map_snd in Hall.
    apply forallb_false_split in Hall
      as (pre & item & post & Hitems & Hpre & Hitem).
    rewrite upload_files_normal. cbv zeta.
    rewrite requests_bind.
    assert (Hv : requests (validate w (map snd (upload_items files
                                                  (default [] additional_files))))
                 = [])
      by (apply requests_for_each; intros; apply requests_require_exists).
    rewrite Hv. cbn [app].
    destruct (outcome (validate w _)); [|reflexivity].
    rewrite Hitems, (read_all_fail w pre item post [] Hpre Hitem), bind_raised.
    unfold requests. cbn [trace fst].
    clear. induction (pre ++ [item])%list as [|x l IH]; [reflexivity|exact IH].
  - intros Hall. rewrite upload_files_success.
    + unfold requests. cbn [trace fst].
      rewrite !http_requests_app. intros H.
      apply app_eq_nil in H as [_ H]. apply app_eq_nil in H as [_ H].
      discriminate H.
    + intros item Hitem. rewrite forallb_forall in Hall.
      apply Hall. apply in_map, Hitem.
Qed.

(** X18: [redact_pii], [redact_relevance] and [extract_relationships] send
    their request exactly when every path they test (the primary files and
    the additional file, unless its path is empty) is a regular file. *)
Theorem helper_sends_iff_all_regular
    (w : World) (config : LatentsenseConfig) (c : Call) :
  uses_helper c = true ->
  (requests (perform w config c) <> []
   <-> forall p, In p (checked_paths c) ->
                 exists content, node w p = Some (Regular content)).
Proof.
  intros Hh.
  destruct (helper_call_shape w config c Hh)
    as (endpoint & files & adds & form & -> & <-).
  rewrite upload_files_sends_iff, forallb_forall.
  split; intros H p Hp; specialize (H p Hp); unfold is_regular in *.
  - destruct (node w p) as [[content| |ex|ex]|]; try discriminate. eauto.
  - destruct H as (content & ->). reflexivity.
Qed.

Lemma helper_sends_iff_all_regular_witness :
  requests (perform demo_world demo_client
              (RedactRelevance ["/data/a.txt"] EmptyString float_half)) <> [].
Proof.
  apply (helper_sends_iff_all_regular demo_world demo_client
           (RedactRelevance ["/data/a.txt"] EmptyString float_half)).
  - reflexivity.
  - intros p [<-|[]]. eexists. reflexivity.
Defined.

(** X19: [create_knowledge_graph] sends its request exactly when every file
    of the two sets is a regular file and the concepts path, if given and
    not empty, is a regular file too or does not exist, its test answering
    [False] (a missing concepts file does not stop the call; one whose test
    raises, a directory or a file that cannot be opened does). *)
Theorem create_knowledge_graph_sends_iff
    (w : World) (config : LatentsenseConfig) (files : list string)
    (files2 : option (list string)) (concepts_file : option string)
    (files1_name files2_name : option string) :
  requests (LatentsenseClient.create_knowledge_graph w config files files2
              concepts_file files1_name files2_name) <> []
  <-> (forall p, In p (files ++ default [] files2) ->
                 exists content, node w p = Some (Regular content))
      /\ (forall a s, concepts_file = Some (String a s) ->
                      outcome (path_exists w (String a s)) = Ret false
                      \/ exists content,
                           node w (String a s) = Some (Regular content)).
Proof.
  pose proof (create_knowledge_graph_report w config files files2
                concepts_file files1_name files2_name) as Hrep.
  cbv zeta in Hrep.
  rewrite (find_app_match (fun p => negb (is_regular w p)) files
             (default [] files2)) in Hrep.
  assert (Hreg : forallb (is_regular w) (files ++ default [] files2) = true
                 <-> forall p, In p (files ++ default [] files2) ->
                               exists content, node w p = Some (Regular content)).
  { rewrite forallb_forall. split; intros H p Hp; specialize (H p Hp);
      unfold is_regular in *.
    - destruct (node w p) as [[content| |ex|ex]|]; try discriminate. eauto.
    - destruct H as (content & ->). reflexivity. }
  rewrite <- Hreg.
  destruct (find _ (files ++ default [] files2)) as [q|] eqn:Hfind.
  - apply report_inv in Hrep as [_ ->]. split; [congruence|].
    intros [Hall _]. apply find_none_forallb in Hall. congruence.
  - apply find_none_forallb in Hfind. rewrite Hfind.
    destruct concepts_file as [[|a s]|];
      cbn [opt_str_truthy str_truthy andb default] in Hrep.
    + apply report_inv in Hrep as [_ ->].
      split; [intros _; split; [reflexivity | discriminate] | discriminate].
    + unfold is_present, is_regular, test_raises in Hrep.
      assert (Hnone : outcome (path_exists w (String a s)) = Ret false
                      <-> node w (String a s) = None)
        by apply path_exists_false.
      destruct (node w (String a s)) as [[content| |ex|ex]|] eqn:Hn;
        apply report_inv in Hrep as [_ ->].
      * split; [intros _; split; [reflexivity|] | discriminate].
        intros a' s' H. injection H as <- <-. right. rewrite Hn. eauto.
      * split; [congruence|]. intros [_ H]. exfalso.
        destruct (H a s eq_refl) as [H0|(content & H0)];
          [apply Hnone in H0 | rewrite Hn in H0]; discriminate.
      * split; [congruence|]. intros [_ H]. exfalso.
        destruct (H a s eq_refl) as [H0|(content & H0)];
          [apply Hnone in H0 | rewrite Hn in H0]; discriminate.
      * split; [congruence|]. intros [_ H]. exfalso.
        destruct (H a s eq_refl) as [H0|(content & H0)];
          [apply Hnone in H0 | rewrite Hn in H0]; discriminate.
      * split; [intros _; split; [reflexivity|] | discriminate].
        intros a' s' H. injection H as <- <-. left. apply Hnone. reflexivity.
    + apply report_inv in Hrep as [_ ->].
      split; [intros _; split; [reflexivity | discriminate] | discriminate].
Qed.

Lemma create_knowledge_graph_sends_iff_witness :
  requests (LatentsenseClient.create_knowledge_graph demo_world demo_client
              ["/data/a.txt"] None (Some "/data/nope") None None) <> [].
Proof.
  apply (create_knowledge_graph_sends_iff demo_world demo_client
           ["/data/a.txt"] None (Some "/data/nope") None None).
  split.
  - intros p [<-|[]]. eexists. reflexivity.
  - intros a s H. injection H as <- <-. left. reflexivity.
Defined.

(** * The order of checks, reads and the request *)

Lemma http_requests_checks (l : list string) :
  http_requests (map PathExists l) = [].
Proof. induction l as [|p l IH]; [reflexivity | exact IH]. Qed.

Lemma http_requests_reads (l : list string) :
  http_requests (map OpenRead l) = [].
Proof. induction l as [|p l IH]; [reflexivity | exact IH]. Qed.

Lemma http_requests_tests_and_reads (l : list string) :
  http_requests (flat_map (fun q => [PathExists q; OpenRead q]) l) = [].
Proof. induction l as [|p l IH]; [reflexivity | exact IH]. Qed.

(** When [_upload_files] sends its request, it has tested every path, then
    read every path, and only then sent. *)
Lemma upload_files_sent w config endpoint files additional_files form_data r :
  In r (requests (LatentsenseClient._upload_files w config endpoint files
                    additional_files form_data)) ->
  let paths := map snd (upload_items files (default [] additional_files)) in
  trace (LatentsenseClient._upload_files w config endpoint files
           additional_files form_data)
  = (map PathExists paths ++ map OpenRead paths ++ [HttpRequest r])%list.
Proof.
  intros Hin. cbv zeta.
  assert (Hne : requests (LatentsenseClient._upload_files w config endpoint
                            files additional_files form_data) <> [])
    by (intros H; rewrite H in Hin; contradiction).
  apply upload_files_sends_iff in Hne. rewrite forallb_forall in Hne.
  assert (Hall : forall item,
            In item (upload_items files (default [] additional_files)) ->
            is_regular w (snd item) = true)
    by (intros item Hitem; apply Hne, in_map, Hitem).
  pose proof (upload_files_success w config endpoint files additional_files
                form_data Hall) as Heq.
  cbv zeta in Heq. rewrite Heq in Hin |- *. clear Heq.
  unfold requests in Hin. cbn [trace fst] in Hin |- *.
  rewrite !http_requests_app, http_requests_checks, http_requests_reads in Hin.
  destruct Hin as [<-|[]]. reflexivity.
Qed.

(** When [_upload_files] does anything after its existence tests, it has
    tested every path first. *)
Lemma upload_files_tests_first w config endpoint files additional_files
    form_data :
  let paths := map snd (upload_items files (default [] additional_files)) in
  Exists (fun e => is_check e = false)
    (trace (LatentsenseClient._upload_files w config endpoint files
              additional_files form_data)) ->
  exists rest,
    trace (LatentsenseClient._upload_files w config endpoint files
             additional_files form_data)
    = (map PathExists paths ++ rest)%list
    /\ Forall (fun e => is_check e = false) rest.
Proof.
  cbv zeta. rewrite upload_files_normal. cbv zeta.
  set (items := upload_items files (default [] additional_files)).
  destruct (forallb (is_present w) (map snd items)) eqn:Hall.
  - intros _. rewrite forallb_forall in Hall.
    rewrite (validate_ok w _ Hall), bind_returned. cbn [trace fst].
    eexists. split; [reflexivity|].
    apply trace_bind_Forall.
    + apply trace_for_each_Forall. intros item fd.
      rewrite append_part_eq. repeat constructor.
    + intros fd. rewrite make_request_eq. repeat constructor.
  - apply forallb_false_split in Hall as (pre & p & post & -> & Hpre & Hp).
    rewrite (validate_fail w pre p post Hpre Hp), bind_raised.
    cbn [trace fst]. intros Hex. exfalso.
    apply Exists_exists in Hex as (e & He & Hne).
    apply in_map_iff in He as (q & <- & _). discriminate Hne.
Qed.

(** When [create_knowledge_graph] sends its request, it has tested and read
    every file of the two sets, one after the other, and then dealt with
    the concepts file. *)
Lemma create_knowledge_graph_sent w config files files2 concepts n1 n2 r :
  In r (requests (LatentsenseClient.create_knowledge_graph w config files
                    files2 concepts n1 n2)) ->
  exists rest,
    trace (LatentsenseClient.create_knowledge_graph w config files files2
             concepts n1 n2)
    = (flat_map (fun q => [PathExists q; OpenRead q])
         (files ++ default [] files2)
       ++ rest ++ [HttpRequest r])%list
    /\ (rest = []
        \/ exists c, rest = [PathExists c] \/ rest = [PathExists c; OpenRead c]).
Proof.
  intros Hin.
  assert (Hall : forall item, In item (graph_items files files2) ->
                              is_regular w (snd item) = true).
  { pose proof (create_knowledge_graph_report w config files files2 concepts
                  n1 n2) as Hrep.
    cbv zeta in Hrep.
    rewrite (find_app_match (fun p => negb (is_regular w p)) files
               (default [] files2)) in Hrep.
    destruct (find _ (files ++ default [] files2)) as [q|] eqn:Hfind.
    - apply report_inv in Hrep as [_ Hr]. rewrite Hr in Hin. contradiction.
    - apply find_none_forallb in Hfind. rewrite forallb_forall in Hfind.
      intros item Hitem. apply Hfind. rewrite <- graph_items_paths.
      apply in_map, Hitem. }
  revert Hin. rewrite create_knowledge_graph_normal.
  rewrite (check_read_all_ok w _ [] Hall), bind_returned. cbn [app].
  rewrite test_and_read_paths, graph_items_paths.
  unfold requests. cbn [trace fst].
  rewrite http_requests_app, http_requests_tests_and_reads. cbn [app].
  set (sets := map (item_part w) (graph_items files files2)).
  destruct concepts as [[|a s]|]; cbn [opt_str_truthy str_truthy default].
  - rewrite bind_ret_l, make_request_eq. cbn [trace fst http_requests].
    intros [<-|[]]. exists []. split; [reflexivity | left; reflexivity].
  - unfold path_exists.
    destruct (node w (String a s)) as [[content| |ex|ex]|] eqn:Hn;
      cbv beta iota.
    + rewrite bind_returned. cbv beta iota.
      rewrite append_part_eq. unfold is_regular. rewrite Hn. cbv beta iota.
      cbn [trace outcome fst snd].
      rewrite bind_returned, make_request_eq. cbn [trace outcome fst snd app].
      cbn [http_requests]. intros [<-|[]].
      exists [PathExists (String a s); OpenRead (String a s)].
      split; [reflexivity|]. right. exists (String a s). right. reflexivity.
    + rewrite bind_returned. cbv beta iota.
      rewrite append_part_eq. unfold is_regular. rewrite Hn. cbv beta iota.
      cbn [trace outcome fst snd]. rewrite !bind_raised.
      cbn [trace fst app http_requests]. intros [].
    + rewrite !bind_raised. cbn [trace fst http_requests]. intros [].
    + rewrite bind_returned. cbv beta iota.
      rewrite append_part_eq. unfold is_regular. rewrite Hn. cbv beta iota.
      cbn [trace outcome fst snd]. rewrite !bind_raised.
      cbn [trace fst app http_requests]. intros [].
    + rewrite bind_returned. cbv beta iota. cbn [trace outcome fst snd ret].
      rewrite bind_returned, make_request_eq.
      cbn [trace outcome fst snd app http_requests]. intros [<-|[]].
      exists [PathExists (String a s)].
      split; [reflexivity|]. right. exists (String a s). left. reflexivity.
  - rewrite bind_ret_l, make_request_eq. cbn [trace fst http_requests].
    intros [<-|[]]. exists []. split; [reflexivity | left; reflexivity].
Qed.

(** C3, as stated, fails for [create_knowledge_graph], which tests and reads
    one file at a time: the first file is read before the second is tested
    and found missing. *)
Lemma create_knowledge_graph_reads_before_later_check :
  trace (perform demo_world demo_client
           (CreateKnowledgeGraph ["/data/a.txt"; "/data/nope"] None None None
              None))
  = [PathExists "/data/a.txt"; OpenRead "/data/a.txt"; PathExists "/data/nope"]
  /\ nondecreasing upload_phase
       (trace (perform demo_world demo_client
                 (CreateKnowledgeGraph ["/data/a.txt"; "/data/nope"] None None
                    None None))) = false
  /\ outcome (perform demo_world demo_client
                (CreateKnowledgeGraph ["/data/a.txt"; "/data/nope"] None None
                   None None))
     = Raise (mk_exn FileNotFoundError "File not found: /data/nope").
Proof. repeat split. Qed.

(** C3, amended: in the three operations that go through [_upload_files]
    ([redact_pii], [redact_relevance], [extract_relationships]) every
    existence test comes before every read and every read before the
    request; once such an operation reads a file or sends its request it
    has tested every declared path, and when it sends its request it has
    tested every declared path, then read every one of them, in the order
    of declaration, and done nothing else.  In every operation,
    [create_knowledge_graph] included, all tests and reads come before the
    request, at most one request is issued, and none is issued when the
    test of a declared path does not answer [True].  When
    [create_knowledge_graph] sends its request it has tested and read every
    file of its two sets, file by file, and then at most tested and read the
    concepts file; since it works file by file, it may have read earlier
    files when a later one fails its test. *)
Theorem upload_event_order
    (w : World) (config : LatentsenseConfig) (c : Call) :
  (uses_helper c = true ->
   nondecreasing upload_phase (trace (perform w config c)) = true
   /\ (Exists (fun e => is_check e = false) (trace (perform w config c)) ->
       exists rest,
         trace (perform w config c)
         = (map PathExists (checked_paths c) ++ rest)%list
         /\ Forall (fun e => is_check e = false) rest)
   /\ (forall r, In r (requests (perform w config c)) ->
         trace (perform w config c)
         = (map PathExists (checked_paths c)
            ++ map OpenRead (checked_paths c) ++ [HttpRequest r])%list))
  /\ (uses_helper c = false ->
      forall r, In r (requests (perform w config c)) ->
      exists rest,
        trace (perform w config c)
        = (flat_map (fun q => [PathExists q; OpenRead q]) (checked_paths c)
           ++ rest ++ [HttpRequest r])%list
        /\ (rest = []
            \/ exists p,
                 rest = [PathExists p] \/ rest = [PathExists p; OpenRead p]))
  /\ nondecreasing io_phase (trace (perform w config c)) = true
  /\ List.length (requests (perform w config c)) <= 1
  /\ (forall p, In p (checked_paths c) ->
        outcome (path_exists w p) <> Ret true ->
        requests (perform w config c) = []).
Proof.
  split; [|split; [|split; [|split]]].
  - intros Hh. split; [|split].
    + destruct c; try discriminate; simpl;
        apply (upload_files_sorted upload_phase 0 1 2); auto.
    + destruct (helper_call_shape w config c Hh)
        as (endpoint & files & adds & form & -> & <-).
      apply upload_files_tests_first.
    + destruct (helper_call_shape w config c Hh)
        as (endpoint & files & adds & form & -> & <-).
      intros r Hr. apply upload_files_sent, Hr.
  - assert (Hreq : forall endpoint method kwargs r,
              In r (requests (LatentsenseClient._make_request w config
                                endpoint method kwargs)) ->
              exists rest,
                trace (LatentsenseClient._make_request w config endpoint
                         method kwargs)
                = ([] ++ rest ++ [HttpRequest r])%list
                /\ (rest = []
                    \/ exists p,
                         rest = [PathExists p]
                         \/ rest = [PathExists p; OpenRead p])).
    { intros endpoint method kwargs r. rewrite make_request_eq.
      intros [<-|[]]. exists []. split; [reflexivity | left; reflexivity]. }
    destruct c; try discriminate; intros _ r; simpl; try apply Hreq.
    + apply create_knowledge_graph_sent.
    + unfold LatentsenseClient.send_rex_message.
      destruct (opt_list_truthy graph); apply Hreq.
  - assert (Hreq : forall endpoint method kwargs,
              nondecreasing io_phase
                (trace (LatentsenseClient._make_request w config endpoint
                          method kwargs)) = true)
      by (intros; rewrite make_request_eq; reflexivity).
    destruct c; simpl; try apply Hreq.
    + apply (upload_files_sorted io_phase 0 0 1); auto.
    + apply (upload_files_sorted io_phase 0 0 1); auto.
    + apply (upload_files_sorted io_phase 0 0 1); auto.
    + apply (create_knowledge_graph_sorted io_phase 0 0 1); auto.
    + unfold LatentsenseClient.send_rex_message.
      destruct (opt_list_truthy graph); apply Hreq.
  - destruct (perform_ends w config c)
      as [(r & H)|(p & e & H & _)];
      apply report_inv in H as [_ ->]; simpl; lia.
  - intros p Hin Hp. apply path_exists_not_true in Hp.
    destruct (perform_missing_quiet w config c p Hin Hp) as (e & He).
    apply report_inv in He as [_ Hr]. exact Hr.
Qed.

Lemma upload_event_order_witness :
  trace (perform demo_world demo_client
           (RedactRelevance demo_files "/data/a.txt" float_half))
  = [PathExists "/data/a.txt"; PathExists "/data/b.txt";
     PathExists "/data/a.txt";
     OpenRead "/data/a.txt"; OpenRead "/data/b.txt"; OpenRead "/data/a.txt";
     HttpRequest
       (mk_request "POST"
          "https://controller.latentsense.com/p1/redact-relevance"
          (mk_kwargs None None
             (Some [("files", ("a.txt", "alpha"));
                    ("files", ("b.txt", "beta"));
                    ("relevance_term", ("a.txt", "alpha"))])
             (Some [("cutoff", "0.5")])))]
  /\ requests (perform demo_world demo_client
                 (RedactPii ["/data/a.txt"; "/data/nope"])) = [].
Proof.
  destruct (upload_event_order demo_world demo_client
              (RedactRelevance demo_files "/data/a.txt" float_half))
    as (Hhelper & _).
  destruct (upload_event_order demo_world demo_client
              (RedactPii ["/data/a.txt"; "/data/nope"]))
    as (_ & _ & _ & _ & Hmissing).
  split.
  - apply (proj2 (proj2 (Hhelper eq_refl))).
    simpl. left. reflexivity.
  - apply (Hmissing "/data/nope").
    + simpl. right. left. reflexivity.
    + discriminate.
Defined.
